(** * Campaign performance analysis engine: a shallow embedding

    The development follows [src/core/analyzer.py] (the [CampaignAnalyzer]
    class), the four metric helpers of [src/tools/insights.py] and the
    [ANALYSIS_THRESHOLDS] table of [src/config/constants.py].

    Numbers.  Python [int] is [Z].  Python [float] is modelled by the exact
    rationals [Q]: every float literal of the program (3.0, 2.0, 1.0, 0.5/100,
    ...) is a rational, comparisons are decided exactly, and rounding of
    quotients is abstracted away.  Equality of floats ([==]) is [Qeq].
    What is not abstracted away is the range of a float: an [int] that is
    too large to become a float makes the division raise [OverflowError].

    Exceptions.  Code under a [try] is written in the [result] monad below and
    the handler is the [match] on its outcome. *)

From Stdlib Require Import ZArith QArith.
From Stdlib Require Import String Ascii DecimalString List Bool Lia Lqa.
From Stdlib Require Import Permutation Sorted OrderedTypeEx.
Import ListNotations.

Local Open Scope Q_scope.

(** * Part I: the model *)

(** ** Comparisons on floats, as booleans *)

Module PyNum.

Definition ge (a b : Q) : bool := Qle_bool b a.
Definition le (a b : Q) : bool := Qle_bool a b.
Definition gt (a b : Q) : bool := negb (Qle_bool a b).
Definition lt (a b : Q) : bool := negb (Qle_bool b a).
Definition eq (a b : Q) : bool := Qeq_bool a b.

End PyNum.

(** ** Exceptions *)

Inductive PyExc : Type :=
| ZeroDivisionError
| TypeError
| ValueError
| AttributeError
| KeyError
| OverflowError
| NameError
| IndexError.

Inductive result (A : Type) : Type :=
| Ok (a : A)
| Raise (e : PyExc).
Arguments Ok {A} a.
Arguments Raise {A} e.

Definition bind {A B} (m : result A) (k : A -> result B) : result B :=
  match m with
  | Ok a => k a
  | Raise e => Raise e
  end.

Notation "x <- m ;; k" := (bind m (fun x => k))
  (at level 61, m at next level, right associativity).

(** Python's [a / b] on two floats: raises on a zero divisor. *)
Definition truediv (a b : Q) : result Q :=
  if PyNum.eq b 0 then Raise ZeroDivisionError else Ok (a / b).

(** The least magnitude that no longer rounds to a float: halfway between
    the largest float, [2^1024 - 2^971], and [2^1024]. *)
Definition FLOAT_OVERFLOW : Z := (2 ^ 1024 - 2 ^ 970)%Z.

(** An [int] operand of a float operation is converted first:
    "int too large to convert to float". *)
Definition float_of_int (z : Z) : result Q :=
  if (Z.abs z <? FLOAT_OVERFLOW)%Z then Ok (inject_Z z)
  else Raise OverflowError.

(** [a / b] with a float and an int. *)
Definition truediv_float_int (a : Q) (b : Z) : result Q :=
  b' <- float_of_int b ;; truediv a b'.

(** [a / b] on two ints: the divisor is tested first, the operands are not
    converted, and the quotient is what has to fit:
    "integer division result too large for a float". *)
Definition truediv_int_int (a b : Z) : result Q :=
  if Z.eqb b 0 then Raise ZeroDivisionError
  else if (FLOAT_OVERFLOW * Z.abs b <=? Z.abs a)%Z then Raise OverflowError
  else Ok (inject_Z a / inject_Z b).

(** ** [src/config/constants.py]: ANALYSIS_THRESHOLDS *)

Record Thresholds : Type := {
  good_roas : Q;
  good_ctr : Q;
  high_cpc : Q;
  low_conversions : Z;
  high_frequency : Q
}.

Definition ANALYSIS_THRESHOLDS : Thresholds := {|
  good_roas := 3.0;
  good_ctr := 2.0;
  high_cpc := 2.00;
  low_conversions := 5%Z;
  high_frequency := 5.0
|}.

(** ** [src/tools/insights.py]: derived metrics *)

Module Insights.

(** [except (TypeError, ZeroDivisionError): return 0.0]; any other exception
    leaves the function. *)
Definition except_type_or_zero_division (r : result Q) : result Q :=
  match r with
  | Ok q => Ok q
  | Raise ZeroDivisionError => Ok 0.0
  | Raise TypeError => Ok 0.0
  | Raise e => Raise e
  end.

(** The [_try] definitions are what stands under each function's [try]. *)

Definition calculate_roas_try (spend conversion_value : Q) : result Q :=
  if PyNum.eq spend 0 then Ok 0.0 else truediv conversion_value spend.

Definition calculate_roas (spend conversion_value : Q) : result Q :=
  except_type_or_zero_division (calculate_roas_try spend conversion_value).

Definition calculate_ctr_try (clicks impressions : Z) : result Q :=
  if Z.eqb impressions 0 then Ok 0.0
  else truediv_int_int clicks impressions.

Definition calculate_ctr (clicks impressions : Z) : result Q :=
  except_type_or_zero_division (calculate_ctr_try clicks impressions).

Definition calculate_cpc_try (spend : Q) (clicks : Z) : result Q :=
  if Z.eqb clicks 0 then Ok 0.0 else truediv_float_int spend clicks.

Definition calculate_cpc (spend : Q) (clicks : Z) : result Q :=
  except_type_or_zero_division (calculate_cpc_try spend clicks).

Definition calculate_cpm_try (spend : Q) (impressions : Z) : result Q :=
  if Z.eqb impressions 0 then Ok 0.0
  else q <- truediv_float_int spend impressions ;; Ok (q * 1000).

Definition calculate_cpm (spend : Q) (impressions : Z) : result Q :=
  except_type_or_zero_division (calculate_cpm_try spend impressions).

End Insights.

(** ** Dynamically typed values and dictionaries

    The raw insight payloads are JSON: the analyzer reads them with
    [dict.get], coalesces with [or 0] and converts with [float()] and
    [int()]. *)

Local Open Scope string_scope.

Unset Elimination Schemes.
Inductive PyVal : Type :=
| PyNone
| PyBool (b : bool)
| PyInt (z : Z)
| PyFloat (q : Q)
| PyStr (s : string)
| PyList (l : list PyVal)
| PyDict (d : list (string * PyVal)).
Set Elimination Schemes.

Module Dict.

(** A dictionary with string keys, as an association list. *)
Definition t (V : Type) : Type := list (string * V).

Fixpoint get {V} (d : t V) (k : string) : option V :=
  match d with
  | [] => None
  | (k', v) :: d' => if String.eqb k k' then Some v else get d' k
  end.

(** [d.get(k, default)] *)
Definition get_or {V} (d : t V) (k : string) (default : V) : V :=
  match get d k with
  | Some v => v
  | None => default
  end.

Definition keys {V} (d : t V) : list string := map fst d.

(** [k in d] *)
Definition contains {V} (d : t V) (k : string) : bool :=
  match get d k with
  | Some _ => true
  | None => false
  end.

End Dict.

Module Py.

(** Truth value of an object, as [if x] and [not x] test it. *)
Definition truthy (v : PyVal) : bool :=
  match v with
  | PyNone => false
  | PyBool b => b
  | PyInt z => negb (Z.eqb z 0)
  | PyFloat q => negb (PyNum.eq q 0)
  | PyStr s => negb (String.eqb s "")
  | PyList l => match l with [] => false | _ => true end
  | PyDict d => match d with [] => false | _ => true end
  end.

Definition truthy_str (s : string) : bool := negb (String.eqb s "").

Definition truthy_opt_str (o : option string) : bool :=
  match o with
  | Some s => truthy_str s
  | None => false
  end.

(** [a or b] *)
Definition or (a b : PyVal) : PyVal := if truthy a then a else b.

(** [x.get(k, default)]: only a dict has the method. *)
Definition get (x : PyVal) (k : string) (default : PyVal) : result PyVal :=
  match x with
  | PyDict d => Ok (Dict.get_or d k default)
  | _ => Raise AttributeError
  end.

(** [x.keys()]: only a dict has the method. *)
Definition keys (x : PyVal) : result (list string) :=
  match x with
  | PyDict d => Ok (Dict.keys d)
  | _ => Raise AttributeError
  end.

(** [k in x] and [x[k]] for a string [k], on a dict. *)
Definition contains (x : PyVal) (k : string) : result bool :=
  match x with
  | PyDict d => Ok (Dict.contains d k)
  | _ => Raise TypeError
  end.

Definition getitem (x : PyVal) (k : string) : result PyVal :=
  match x with
  | PyDict d => match Dict.get d k with
                | Some v => Ok v
                | None => Raise KeyError
                end
  | _ => Raise TypeError
  end.

(** [max] of a list of strings; [max()] of an empty sequence raises. *)
Definition max_str (a b : string) : string :=
  if String.ltb a b then b else a.

Definition max_keys (ks : list string) : result string :=
  match ks with
  | [] => Raise ValueError
  | k :: ks' => Ok (fold_left max_str ks' k)
  end.

(** [x in l] on a list of strings: equality with some element. *)
Definition In_list (x : string) (l : list string) : bool :=
  existsb (String.eqb x) l.

Section Conversions.

(** The numeric literal readers behind [float(str)] and [int(str)]. *)
Variable parse_float : string -> option Q.
Variable parse_int : string -> option Z.

Definition float (v : PyVal) : result Q :=
  match v with
  | PyBool b => Ok (if b then 1 else 0)
  | PyInt z => float_of_int z
  | PyFloat q => Ok q
  | PyStr s => match parse_float s with
               | Some q => Ok q
               | None => Raise ValueError
               end
  | PyNone | PyList _ | PyDict _ => Raise TypeError
  end.

(** [int(float)] truncates towards zero. *)
Definition int (v : PyVal) : result Z :=
  match v with
  | PyBool b => Ok (if b then 1%Z else 0%Z)
  | PyInt z => Ok z
  | PyFloat q => Ok (Z.quot (Qnum q) (Zpos (Qden q)))
  | PyStr s => match parse_int s with
               | Some z => Ok z
               | None => Raise ValueError
               end
  | PyNone | PyList _ | PyDict _ => Raise TypeError
  end.

End Conversions.

(** [len(s)] on a [str].  A string is held as its UTF-8 bytes and its
    length counts characters: the bytes that do not continue one
    (a continuation byte is 10xxxxxx). *)
Definition is_continuation (c : Ascii.ascii) : bool :=
  match c with
  | Ascii.Ascii _ _ _ _ _ _ b6 b7 => b7 && negb b6
  end.

Fixpoint len (s : string) : nat :=
  match s with
  | EmptyString => 0
  | String c s' => ((if is_continuation c then 0 else 1) + len s')%nat
  end.

(** [s.startswith(prefix)] and [s.endswith(suffix)] *)
Definition startswith (s prefix : string) : bool := String.prefix prefix s.

Definition endswith (s suffix : string) : bool :=
  let n := String.length s in
  let m := String.length suffix in
  (m <=? n)%nat && String.eqb (String.substring (n - m) m s) suffix.

(** [str(n)] for a length. *)
Definition str_of_nat (n : nat) : string :=
  NilZero.string_of_uint (Nat.to_uint n).

End Py.

(** ** [sorted(l, key=..., reverse=...)]

    Python's sort is stable, also under [reverse=True]: elements with equal
    keys keep their input order.  Any stable sort returns the same list;
    the model inserts from the right, placing an element before the first
    one that may follow it. *)

Module PySort.

Section Sorted.

Context {A : Type}.

(** [precedes x y]: [x] may stand before [y] in the output. *)
Variable precedes : A -> A -> bool.

Fixpoint insert (x : A) (l : list A) : list A :=
  match l with
  | [] => [x]
  | y :: l' => if precedes x y then x :: y :: l' else y :: insert x l'
  end.

Definition sort (l : list A) : list A := fold_right insert [] l.

End Sorted.

Definition by_float {A} (key : A -> Q) (reverse : bool) (x y : A) : bool :=
  if reverse then PyNum.ge (key x) (key y) else PyNum.le (key x) (key y).

Definition by_int {A} (key : A -> Z) (reverse : bool) (x y : A) : bool :=
  if reverse then Z.geb (key x) (key y) else Z.leb (key x) (key y).

(** [sorted(l, key=key, reverse=reverse)] with float keys. *)
Definition sorted {A} (l : list A) (key : A -> Q) (reverse : bool) : list A :=
  sort (by_float key reverse) l.

(** [l.sort(key=key)] with integer keys. *)
Definition sorted_int {A} (l : list A) (key : A -> Z) : list A :=
  sort (by_int key false) l.

End PySort.

(** ** [src/core/analyzer.py]: records *)

Module CampaignAnalysis.

Record t : Type := {
  campaign_id : string;
  campaign_name : string;
  spend : Q;
  impressions : Z;
  clicks : Z;
  conversions : Z;
  conversion_value : Q;
  ctr : Q;
  cpc : Q;
  cpm : Q;
  roas : Q;
  status : string;
  days_running : Z;
  performance_score : Q;
  issues : list string;
  recommendations : list string
}.

End CampaignAnalysis.

(** An action item is the dictionary built in [_generate_action_items]. *)
Module ActionItem.

Record t : Type := {
  priority : string;
  action : string;
  campaign_id : string;
  campaign_name : string;
  reason : string
}.

End ActionItem.

Module AccountAnalysis.

Record t : Type := {
  total_spend : Q;
  total_conversions : Z;
  average_roas : Q;
  account_health : string;
  top_performers : list CampaignAnalysis.t;
  underperformers : list CampaignAnalysis.t;
  recommendations : list string;
  action_items : list ActionItem.t
}.

End AccountAnalysis.

(** The dictionaries returned by [_format_account_analysis]. *)
Module Formatted.

Record summary : Type := {
  total_spend : string;
  total_conversions : Z;
  average_roas : string;
  account_health : string
}.

Record top_performer : Type := {
  top_campaign_id : string;
  top_campaign_name : string;
  top_roas : string;
  top_spend : string;
  top_conversions : Z;
  top_performance_score : string;
  top_reason : string
}.

Record underperformer : Type := {
  under_campaign_id : string;
  under_campaign_name : string;
  under_roas : string;
  under_spend : string;
  under_conversions : Z;
  under_issues : list string;
  under_recommendation : string
}.

Record t : Type := {
  summary_of : summary;
  top_performers : list top_performer;
  underperformers : list underperformer;
  recommendations : list string;
  action_items : list ActionItem.t
}.

End Formatted.

(** The dictionary returned by [analyze_account_campaigns]. *)
Module Response.

Inductive analysis : Type :=
| Message (message : string)
          (total_spend total_conversions average_roas : Z)
          (account_health : string)
| Report (report : Formatted.t).

Record t : Type := {
  success : bool;
  analysis_of : option analysis;
  error : option string
}.

Definition failure (msg : string) : t :=
  {| success := false; analysis_of := None; error := Some msg |}.

Definition ok (a : analysis) : t :=
  {| success := true; analysis_of := Some a; error := None |}.

End Response.

(** What [tools.campaigns.get_campaigns] hands back: it catches every
    exception itself and reports through the [success] flag. *)
Module CampaignsResponse.

Record t : Type := {
  success : bool;
  error : option string;
  campaigns : list (Dict.t string)
}.

End CampaignsResponse.

(** ** [src/core/analyzer.py]: class CampaignAnalyzer *)

Module Analyzer.

Import CampaignAnalysis.

(** Issue tags. *)
Definition NEGATIVE_ROI : string := "Negative ROI - spending more than earning".
Definition LOW_CTR : string := "Very low click-through rate".
Definition HIGH_CPC : string := "High cost per click".
Definition LOW_CONVERSIONS : string := "Low conversion volume".
Definition NO_SPEND : string :=
  "No spend detected - campaign may not be delivering".

(** Campaign recommendations. *)
Definition REC_PAUSE : string :=
  "Consider pausing campaign - negative return on investment".
Definition REC_REVIEW_TARGETING : string :=
  "Review targeting and creative to improve performance".

(** [l.append(x)] *)
Definition append {A} (l : list A) (x : A) : list A := (l ++ [x])%list.

(** [not l] on a list *)
Definition is_empty {A} (l : list A) : bool :=
  match l with [] => true | _ => false end.

Section Scoring.

(** [self.thresholds] *)
Variable thresholds : Thresholds.

Definition _calculate_performance_score
    (spend roas ctr : Q) (conversions : Z) : result Z :=
  let score := 50%Z in
  (* ROAS scoring (40% weight) *)
  let score :=
    if PyNum.ge roas (good_roas thresholds) then (score + 40)%Z
    else if PyNum.ge roas 2.0 then (score + 25)%Z
    else if PyNum.ge roas 1.0 then (score + 10)%Z
    else if PyNum.gt roas 0 then (score + 5)%Z
    else score in
  (* CTR scoring (30% weight) *)
  let score :=
    if PyNum.ge ctr (good_ctr thresholds / 100) then (score + 30)%Z
    else if PyNum.ge ctr (1.0 / 100) then (score + 20)%Z
    else if PyNum.ge ctr (0.5 / 100) then (score + 10)%Z
    else score in
  (* Conversions scoring (20% weight) *)
  let score :=
    if (conversions >=? 50)%Z then (score + 20)%Z
    else if (conversions >=? 20)%Z then (score + 15)%Z
    else if (conversions >=? 10)%Z then (score + 10)%Z
    else if (conversions >=? 5)%Z then (score + 5)%Z
    else score in
  (* Spend efficiency (10% weight) *)
  score <-
    (if PyNum.gt spend 0 && (conversions >? 0)%Z then
       cost_per_conversion <- truediv_float_int spend conversions ;;
       Ok (if PyNum.le cost_per_conversion 20 then (score + 10)%Z
           else if PyNum.le cost_per_conversion 50 then (score + 5)%Z
           else score)
     else Ok score) ;;
  Ok (Z.min score 100).

Definition _identify_campaign_issues
    (spend roas ctr cpc : Q) (conversions days_running : Z) : list string :=
  let issues := [] in
  let issues :=
    if PyNum.lt roas 1.0 && PyNum.gt spend 50
    then append issues NEGATIVE_ROI else issues in
  let issues :=
    if PyNum.lt ctr (0.5 / 100) && PyNum.gt spend 25
    then append issues LOW_CTR else issues in
  let issues :=
    if PyNum.gt cpc (high_cpc thresholds) && PyNum.gt spend 100
    then append issues HIGH_CPC else issues in
  let issues :=
    if (conversions <? low_conversions thresholds)%Z && (days_running >? 7)%Z
    then append issues LOW_CONVERSIONS else issues in
  let issues :=
    if PyNum.eq spend 0
    then append issues NO_SPEND else issues in
  issues.

Definition _generate_campaign_recommendations
    (spend roas ctr cpc : Q) (conversions : Z) (issues : list string)
    : list string :=
  let recommendations := [] in
  let recommendations :=
    if Py.In_list "Negative ROI" issues
    then append (append recommendations REC_PAUSE) REC_REVIEW_TARGETING
    else recommendations in
  let recommendations :=
    if Py.In_list "Very low click-through rate" issues
    then append (append recommendations
                   "Test different ad creative or copy")
                "Review audience targeting for relevance"
    else recommendations in
  let recommendations :=
    if Py.In_list "High cost per click" issues
    then append (append recommendations
                   "Consider bid strategy adjustments")
                "Review audience size and competition"
    else recommendations in
  let recommendations :=
    if Py.In_list "Low conversion volume" issues
    then append (append recommendations
                   "Review landing page experience")
                "Test different call-to-action buttons"
    else recommendations in
  let recommendations :=
    if is_empty recommendations && PyNum.gt roas (good_roas thresholds)
    then append recommendations
           "Campaign performing well - consider increasing budget"
    else recommendations in
  let recommendations :=
    if is_empty recommendations && PyNum.gt ctr (good_ctr thresholds / 100)
    then append recommendations "Good engagement - test audience expansion"
    else recommendations in
  recommendations.

Definition _determine_account_health
    (average_roas : Q) (analyses : list CampaignAnalysis.t) : string :=
  if PyNum.ge average_roas (good_roas thresholds) then "Excellent"
  else if PyNum.ge average_roas 2.0 then "Good"
  else if PyNum.ge average_roas 1.0 then "Fair"
  else "Needs Attention".

End Scoring.

Section Reporting.

Variable thresholds : Thresholds.

(** The float formats of the f-strings: [{x:.2f}] and [{x:.0f}]. *)
Variable fmt2f : Q -> string.
Variable fmt0f : Q -> string.

Definition _generate_account_recommendations
    (analyses : list CampaignAnalysis.t) : list string :=
  let recommendations := [] in
  (* Find campaigns with negative ROI *)
  let negative_roi :=
    filter (fun a => PyNum.lt (roas a) 1.0 && PyNum.gt (spend a) 50)
           analyses in
  let recommendations :=
    if negb (is_empty negative_roi)
    then append recommendations
           ("Pause " ++ Py.str_of_nat (length negative_roi)
            ++ " underperforming campaigns with negative ROI")
    else recommendations in
  (* Find top performers for budget increase *)
  let top_performers := firstn 2 (PySort.sorted analyses roas true) in
  let recommendations :=
    match top_performers with
    | top :: _ =>
        if PyNum.gt (roas top) (good_roas thresholds)
        then append recommendations
               ("Increase budget for top performer: " ++ campaign_name top)
        else recommendations
    | [] => recommendations
    end in
  (* Check for campaigns with very low CTR *)
  let low_ctr :=
    filter (fun a => PyNum.lt (ctr a) (0.5 / 100)
                     && PyNum.gt (spend a) 25) analyses in
  let recommendations :=
    if negb (is_empty low_ctr)
    then append recommendations
           ("Review creative for " ++ Py.str_of_nat (length low_ctr)
            ++ " campaigns with very low CTR")
    else recommendations in
  let recommendations :=
    if is_empty recommendations
    then append recommendations
           "Account performing well - consider testing new campaigns"
    else recommendations in
  recommendations.

(** The three dictionaries appended by [_generate_action_items]. *)

Definition pause_item (analysis : CampaignAnalysis.t) : ActionItem.t := {|
  ActionItem.priority := "high";
  ActionItem.action := "pause_campaign";
  ActionItem.campaign_id := campaign_id analysis;
  ActionItem.campaign_name := campaign_name analysis;
  ActionItem.reason :=
    "Negative ROI (" ++ fmt2f (roas analysis)
    ++ "x) after significant spend ($" ++ fmt2f (spend analysis) ++ ")"
|}.

Definition review_item (analysis : CampaignAnalysis.t) : ActionItem.t := {|
  ActionItem.priority := "medium";
  ActionItem.action := "review_creative";
  ActionItem.campaign_id := campaign_id analysis;
  ActionItem.campaign_name := campaign_name analysis;
  ActionItem.reason :=
    "Very low CTR (" ++ fmt2f (ctr analysis * 100) ++ "%) despite spend"
|}.

Definition budget_item (analysis : CampaignAnalysis.t) : ActionItem.t := {|
  ActionItem.priority := "low";
  ActionItem.action := "increase_budget";
  ActionItem.campaign_id := campaign_id analysis;
  ActionItem.campaign_name := campaign_name analysis;
  ActionItem.reason :=
    "High-performing campaign (ROAS: " ++ fmt2f (roas analysis)
    ++ "x, Score: " ++ fmt0f (performance_score analysis) ++ ")"
|}.

(** The conditions of the three loops. *)

Definition pause_rule (analysis : CampaignAnalysis.t) : bool :=
  PyNum.lt (roas analysis) 1.0 && PyNum.gt (spend analysis) 100.

Definition review_rule (analysis : CampaignAnalysis.t) : bool :=
  PyNum.lt (ctr analysis) (0.5 / 100) && PyNum.gt (spend analysis) 50.

Definition budget_rule (analysis : CampaignAnalysis.t) : bool :=
  PyNum.gt (roas analysis) (good_roas thresholds)
  && PyNum.gt (performance_score analysis) 80.

(** [for analysis in analyses: if rule: action_items.append(item)] *)
Definition append_where (rule : CampaignAnalysis.t -> bool)
    (item : CampaignAnalysis.t -> ActionItem.t)
    (analyses : list CampaignAnalysis.t) (action_items : list ActionItem.t)
    : list ActionItem.t :=
  fold_left
    (fun action_items analysis =>
       if rule analysis then append action_items (item analysis)
       else action_items)
    analyses action_items.

(** The list as the three loops leave it, before the sort. *)
Definition collect_action_items (analyses : list CampaignAnalysis.t)
    : list ActionItem.t :=
  let action_items := [] in
  (* High priority: Pause negative ROI campaigns *)
  let action_items := append_where pause_rule pause_item analyses action_items in
  (* Medium priority: Review low CTR campaigns *)
  let action_items := append_where review_rule review_item analyses action_items in
  (* Low priority: Scale successful campaigns *)
  let action_items := append_where budget_rule budget_item analyses action_items in
  action_items.

Definition priority_order : Dict.t Z :=
  [("high", 0%Z); ("medium", 1%Z); ("low", 2%Z)].

Definition priority_rank (x : ActionItem.t) : Z :=
  Dict.get_or priority_order (ActionItem.priority x) 2%Z.

(** [action_items.sort(key=lambda x: priority_order.get(x["priority"], 2))] *)
Definition sort_by_priority (action_items : list ActionItem.t)
    : list ActionItem.t :=
  PySort.sorted_int action_items priority_rank.

Definition _generate_action_items (analyses : list CampaignAnalysis.t)
    : list ActionItem.t :=
  sort_by_priority (collect_action_items analyses).

Definition _format_account_analysis (analysis : AccountAnalysis.t)
    : Formatted.t := {|
  Formatted.summary_of := {|
    Formatted.total_spend := "$" ++ fmt2f (AccountAnalysis.total_spend analysis);
    Formatted.total_conversions := AccountAnalysis.total_conversions analysis;
    Formatted.average_roas :=
      fmt2f (AccountAnalysis.average_roas analysis) ++ "x";
    Formatted.account_health := AccountAnalysis.account_health analysis
  |};
  Formatted.top_performers :=
    map (fun p => {|
           Formatted.top_campaign_id := campaign_id p;
           Formatted.top_campaign_name := campaign_name p;
           Formatted.top_roas := fmt2f (roas p) ++ "x";
           Formatted.top_spend := "$" ++ fmt2f (spend p);
           Formatted.top_conversions := conversions p;
           Formatted.top_performance_score :=
             fmt0f (performance_score p) ++ "/100";
           Formatted.top_reason := "High ROAS and consistent performance"
         |})
        (AccountAnalysis.top_performers analysis);
  Formatted.underperformers :=
    map (fun u => {|
           Formatted.under_campaign_id := campaign_id u;
           Formatted.under_campaign_name := campaign_name u;
           Formatted.under_roas := fmt2f (roas u) ++ "x";
           Formatted.under_spend := "$" ++ fmt2f (spend u);
           Formatted.under_conversions := conversions u;
           Formatted.under_issues := issues u;
           Formatted.under_recommendation :=
             "Consider pausing or adjusting targeting"
         |})
        (AccountAnalysis.underperformers analysis);
  Formatted.recommendations := AccountAnalysis.recommendations analysis;
  Formatted.action_items := AccountAnalysis.action_items analysis
|}.

End Reporting.

Section Engine.

Variable thresholds : Thresholds.
Variable fmt2f : Q -> string.
Variable fmt0f : Q -> string.

(** The collaborators: [get_campaigns(account_id, status=...)] and
    [get_insights(object_id, time_range)].  Both catch every exception
    themselves and answer with a dictionary. *)
Variable get_campaigns : string -> string -> CampaignsResponse.t.
Variable get_insights : string -> string -> Dict.t PyVal.

Variable parse_float : string -> option Q.
Variable parse_int : string -> option Z.

(** [(datetime.now() - datetime.fromisoformat(s.replace('Z', '+00:00'))
      .replace(tzinfo=None)).days], which raises on a malformed date. *)
Variable elapsed_days : string -> result Z.

(** [str(e)] *)
Variable str_of_exc : PyExc -> string.

(** Calculate days running (rough estimate). *)
Definition estimate_days_running (created_date : string) : Z :=
  let days_running := 30%Z in
  if Py.truthy_str created_date then
    match (days <- elapsed_days created_date ;; Ok (Z.min days 30)) with
    | Ok days_running => days_running
    | Raise _ => days_running
    end
  else days_running.

(** [data.get(key, 0) or 0] *)
Definition metric (data : PyVal) (key : string) : result PyVal :=
  v <- Py.get data key (PyInt 0) ;; Ok (Py.or v (PyInt 0)).

Definition _analyze_single_campaign_try
    (campaign : Dict.t string) (time_range : string)
    : result (option CampaignAnalysis.t) :=
  match Dict.get campaign "id" with
  | None => Ok None
  | Some campaign_id =>
  if negb (Py.truthy_str campaign_id) then Ok None else
  (* Get campaign insights *)
  let insights_response := get_insights campaign_id time_range in
  if negb (Py.truthy (Dict.get_or insights_response "success" PyNone))
  then Ok None else
  let insights := Dict.get_or insights_response "insights" (PyDict []) in
  (* Extract metrics (use most recent data if multiple dates) *)
  latest_date <-
    (if Py.truthy insights
     then ks <- Py.keys insights ;; k <- Py.max_keys ks ;; Ok (Some k)
     else Ok None) ;;
  match latest_date with
  | None => Ok None
  | Some latest_date =>
  if negb (Py.truthy_str latest_date) then Ok None else
  present <- Py.contains insights latest_date ;;
  if negb present then Ok None else
  data <- Py.getitem insights latest_date ;;
  (* Parse metrics *)
  v <- metric data "spend" ;;
  spend <- Py.float parse_float v ;;
  v <- metric data "impressions" ;;
  impressions <- Py.int parse_int v ;;
  v <- metric data "clicks" ;;
  clicks <- Py.int parse_int v ;;
  v <- metric data "conversions" ;;
  conversions <- Py.int parse_int v ;;
  v <- metric data "conversion_value" ;;
  conversion_value <- Py.float parse_float v ;;
  (* Calculate derived metrics *)
  ctr <- Insights.calculate_ctr clicks impressions ;;
  cpc <- Insights.calculate_cpc spend clicks ;;
  cpm <- Insights.calculate_cpm spend impressions ;;
  roas <- Insights.calculate_roas spend conversion_value ;;
  (* Calculate days running (rough estimate) *)
  let created_date := Dict.get_or campaign "created_time" "" in
  let days_running := estimate_days_running created_date in
  (* Calculate performance score (0-100) *)
  performance_score <-
    _calculate_performance_score thresholds spend roas ctr conversions ;;
  (* Identify issues and recommendations *)
  let issues :=
    _identify_campaign_issues thresholds
      spend roas ctr cpc conversions days_running in
  let recommendations :=
    _generate_campaign_recommendations thresholds
      spend roas ctr cpc conversions issues in
  Ok (Some {|
    campaign_id := campaign_id;
    campaign_name := Dict.get_or campaign "name" "Unknown";
    spend := spend;
    impressions := impressions;
    clicks := clicks;
    conversions := conversions;
    conversion_value := conversion_value;
    ctr := ctr;
    cpc := cpc;
    cpm := cpm;
    roas := roas;
    status := Dict.get_or campaign "status" "UNKNOWN";
    days_running := days_running;
    performance_score := inject_Z performance_score;
    issues := issues;
    recommendations := recommendations
  |})
  end
  end.

(** [except Exception: ... return None] *)
Definition _analyze_single_campaign
    (campaign : Dict.t string) (time_range : string)
    : option CampaignAnalysis.t :=
  match _analyze_single_campaign_try campaign time_range with
  | Ok analysis => analysis
  | Raise _ => None
  end.

(** The state of the loop over the campaigns:
    [(campaign_analyses, total_spend, total_conversions)]. *)
Definition totals : Type := (list CampaignAnalysis.t * Q * Z)%type.

Definition analyze_each (time_range : string)
    (state : totals) (campaign : Dict.t string) : totals :=
  let '(campaign_analyses, total_spend, total_conversions) := state in
  match _analyze_single_campaign campaign time_range with
  | Some analysis =>
      (append campaign_analyses analysis,
       total_spend + spend analysis,
       (total_conversions + conversions analysis)%Z)
  | None => state
  end.

(** [sum(c.roas for c in l)] *)
Definition sum_roas (l : list CampaignAnalysis.t) : Q :=
  fold_left Qplus (map roas l) 0.

Definition top_performers_of (campaign_analyses : list CampaignAnalysis.t)
    : list CampaignAnalysis.t :=
  firstn 3 (PySort.sorted campaign_analyses performance_score true).

Definition underperformers_of (campaign_analyses : list CampaignAnalysis.t)
    : list CampaignAnalysis.t :=
  firstn 3 (PySort.sorted campaign_analyses performance_score false).

Definition analyze_account_campaigns_try
    (account_id time_range : string) : result Response.t :=
  (* Get all active campaigns *)
  let campaigns_response := get_campaigns account_id "ACTIVE" in
  if negb (CampaignsResponse.success campaigns_response) then
    Ok (Response.failure
          ("Failed to get campaigns: "
           ++ match CampaignsResponse.error campaigns_response with
              | Some e => e
              | None => "None"
              end))
  else
  let campaigns := CampaignsResponse.campaigns campaigns_response in
  if is_empty campaigns then
    Ok (Response.ok
          (Response.Message "No active campaigns found to analyze"
             0 0 0 "No Data"))
  else
  (* Analyze each campaign *)
  let '(campaign_analyses, total_spend, total_conversions) :=
    fold_left (analyze_each time_range) campaigns ([], 0, 0%Z) in
  if is_empty campaign_analyses then
    Ok (Response.ok
          (Response.Message "No campaign data available for analysis"
             0 0 0 "No Data"))
  else
  (* Calculate overall metrics: the divisor is the length of a list in
     memory, which is far inside the range of a float *)
  average_roas <-
    (if negb (is_empty campaign_analyses)
     then truediv (sum_roas campaign_analyses)
                  (inject_Z (Z.of_nat (length campaign_analyses)))
     else Ok 0) ;;
  (* Identify top and under performers *)
  let top_performers := top_performers_of campaign_analyses in
  let underperformers := underperformers_of campaign_analyses in
  let recommendations :=
    _generate_account_recommendations thresholds campaign_analyses in
  let action_items :=
    _generate_action_items thresholds fmt2f fmt0f campaign_analyses in
  let account_health :=
    _determine_account_health thresholds average_roas campaign_analyses in
  let account_analysis := {|
    AccountAnalysis.total_spend := total_spend;
    AccountAnalysis.total_conversions := total_conversions;
    AccountAnalysis.average_roas := average_roas;
    AccountAnalysis.account_health := account_health;
    AccountAnalysis.top_performers := top_performers;
    AccountAnalysis.underperformers := underperformers;
    AccountAnalysis.recommendations := recommendations;
    AccountAnalysis.action_items := action_items
  |} in
  Ok (Response.ok
        (Response.Report
           (_format_account_analysis fmt2f fmt0f account_analysis))).

(** [except Exception as e: return {"success": False, "error": ...}] *)
Definition analyze_account_campaigns
    (account_id time_range : string) : Response.t :=
  match analyze_account_campaigns_try account_id time_range with
  | Ok response => response
  | Raise e => Response.failure ("Unexpected error: " ++ str_of_exc e)
  end.

End Engine.

End Analyzer.

(** ** [src/tools/insights.py]: request validation and labels

    [get_insights] starts by checking the [breakdown] argument (lines
    53-83), then decides whether the object is an account (line 88) and
    chooses the time parameters of the request: lines 92-112 for an
    account, lines 250-288 for a campaign, ad set or ad.  These steps and
    [format_time_range_display] are modelled here; the HTTP layer is
    not. *)

Module InsightsTool.

(** [src/config/constants.py] *)
Definition VALID_BREAKDOWNS : list string :=
  ["age"; "gender"; "country"; "region"; "placement"; "publisher_platform";
   "platform_position"; "device_platform"; "product_id";
   "hourly_stats_aggregated_by_audience_time_zone";
   "hourly_stats_aggregated_by_advertiser_time_zone"; "impression_device";
   "action_type"; "action_target_id"; "action_device";
   "action_carousel_card_id"; "action_carousel_card_name";
   "action_destination"; "action_reaction"; "action_video_sound";
   "action_video_type"; "frequency_value"; "video_view_type";
   "video_view_length"; "conversion_destination"; "conversion_delay";
   "attribution_setting"; "ad_extension_domain"; "ad_extension_url";
   "ad_format_asset"; "app_id"; "body_asset"; "breakdown_ad_objective";
   "breakdown_reporting_ad_id"; "call_to_action_asset";
   "coarse_conversion_value"; "comscore_market";
   "creative_automation_asset_id"; "creative_relaxation_asset_type";
   "crm_advertiser_l12_territory_ids"; "crm_advertiser_subvertical_id";
   "crm_advertiser_vertical_id"; "crm_ult_advertiser_id";
   "description_asset"; "fidelity_type"; "flexible_format_asset_type";
   "gen_ai_asset_type"; "hsid"; "image_asset"; "is_auto_advance";
   "is_conversion_id_modeled"; "is_rendered_as_delayed_skip_ad";
   "landing_destination"; "link_url_asset"; "mdsa_landing_destination";
   "media_asset_url"; "media_creator"; "media_destination_url";
   "media_format"; "media_origin_url"; "media_text_content"; "media_type";
   "postback_sequence_index"; "product_brand_breakdown";
   "product_category_breakdown"; "product_custom_label_0_breakdown";
   "product_custom_label_1_breakdown"; "product_custom_label_2_breakdown";
   "product_custom_label_3_breakdown"; "product_custom_label_4_breakdown";
   "product_group_content_id_breakdown"; "product_group_id"; "product_id";
   "product_set_id_breakdown"; "redownload"; "rta_ugc_topic";
   "skan_campaign_id"; "skan_conversion_id"; "skan_version";
   "sot_attribution_model_type"; "sot_attribution_window"; "sot_channel";
   "sot_event_type"; "sot_source"; "title_asset"; "user_persona_id";
   "user_persona_name"; "video_asset"; "rule_set_id"; "rule_set_name"; "dma";
   "mmm"; "place_page_id"; "standard_event_content_type";
   "signal_source_bucket"; "marketing_messages_btn_name";
   "impression_view_time_advertiser_hour_v2"].

Definition ACCOUNT_ONLY_BREAKDOWNS : list string := ["campaign"; "adset"].

Definition TIME_RANGES : Dict.t string :=
  [("today", "today"); ("yesterday", "yesterday"); ("last_7d", "last_7d");
   ("last_14d", "last_14d"); ("last_30d", "last_30d");
   ("this_month", "this_month"); ("last_month", "last_month");
   ("lifetime", "maximum")].

(** The list of presets that [get_insights] tests [time_range] against. *)
Definition DATE_PRESETS : list string :=
  ["today"; "yesterday"; "last_7d"; "last_14d"; "last_30d";
   "this_month"; "last_month"; "lifetime"].

Definition time_range_labels : Dict.t string :=
  [("today", "Today"); ("yesterday", "Yesterday");
   ("last_7d", "Last 7 days"); ("last_14d", "Last 14 days");
   ("last_30d", "Last 30 days"); ("this_month", "This month");
   ("last_month", "Last month"); ("lifetime", "Lifetime")].

Definition format_time_range_display (time_range : string) : string :=
  Dict.get_or time_range_labels time_range time_range.

(** The two failure dictionaries of the breakdown check. *)
Inductive Rejection : Type :=
| InvalidBreakdown (error : string) (valid_breakdowns : list string)
| AccountOnlyBreakdown (error : string).

Definition NEWLINE : string := String "010"%char EmptyString.

(** The module imports its collaborators twice over (lines 8-27): first
    relative to the package and, when that fails, from the [src]
    directory.  Only the second list of names contains [VALID_BREAKDOWNS]
    and [ACCOUNT_ONLY_BREAKDOWNS]; after the package imports the two names
    are unbound and reading one raises [NameError]. *)
Inductive Imports : Type :=
| PackageImports
| ScriptImports.

Definition breakdown_list (imports : Imports) (l : list string)
    : result (list string) :=
  match imports with
  | ScriptImports => Ok l
  | PackageImports => Raise NameError
  end.

Section Validation.

Variable imports : Imports.

(** [str.lower] and [str.isdigit] *)
Variable lower : string -> string.
Variable isdigit : string -> bool.

Definition suggestions_for (breakdown : string) : list string :=
  if Py.In_list (lower breakdown) ["day"; "date"; "daily"] then
    ["Note: Meta API automatically breaks down data by date when requesting insights over a time range. You don't need a 'day' breakdown."]
  else if Py.In_list (lower breakdown) ["hour"; "hourly"] then
    ["Try 'hourly_stats_aggregated_by_audience_time_zone' or 'hourly_stats_aggregated_by_advertiser_time_zone' instead."]
  else if Py.In_list (lower breakdown) ["week"; "weekly"] then
    ["Weekly breakdowns are not available. Use date ranges or time_range parameters instead."]
  else if Py.In_list (lower breakdown) ["month"; "monthly"] then
    ["Monthly breakdowns are not available. Use date ranges or time_range parameters instead."]
  else [].

(** The check of lines 53-83, which stands after the imports of lines
    49-52.  [Ok None]: it lets the request through.  An exception leaves
    through the [except Exception] of line 397, which answers
    "Unexpected error: ...". *)
Definition check_breakdown (object_id : string) (breakdown : option string)
    : result (option Rejection) :=
  match breakdown with
  | None => Ok None
  | Some breakdown =>
    if negb (Py.truthy_str breakdown) then Ok None else
    valid_breakdowns <- breakdown_list imports VALID_BREAKDOWNS ;;
    if negb (Py.In_list breakdown valid_breakdowns) then
      let suggestions := suggestions_for breakdown in
      let error_msg :=
        "Invalid breakdown '" ++ breakdown
        ++ "'. Valid options include: age, gender, country, region, placement, publisher_platform, device_platform" in
      let error_msg :=
        if negb (Analyzer.is_empty suggestions)
        then error_msg ++ NEWLINE ++ NEWLINE ++ "Suggestions: "
             ++ String.concat " " suggestions
        else error_msg in
      Ok (Some (InvalidBreakdown error_msg
                  ["age"; "gender"; "country"; "region"; "placement";
                   "publisher_platform"; "platform_position";
                   "device_platform"]))
    else
    let is_account :=
      isdigit object_id && (15 <=? Py.len object_id)%nat in
    (* [not is_account and breakdown in ACCOUNT_ONLY_BREAKDOWNS]: the
       list is read only when the object is not an account *)
    if negb is_account then
      account_only <- breakdown_list imports ACCOUNT_ONLY_BREAKDOWNS ;;
      if Py.In_list breakdown account_only then
        Ok (Some (AccountOnlyBreakdown
                    ("Breakdown '" ++ breakdown
                     ++ "' can only be used with account-level insights, not campaigns or ads")))
      else Ok None
    else Ok None
  end.

End Validation.

(** [s.split(sep)] for a one-character separator. *)
Fixpoint split (sep : Ascii.ascii) (s : string) : list string :=
  match s with
  | EmptyString => [EmptyString]
  | String c s' =>
      if Ascii.eqb c sep then EmptyString :: split sep s'
      else match split sep s' with
           | part :: parts => String c part :: parts
           | [] => [String c EmptyString]
           end
  end.

Section TimeParameters.

(** [str.isdigit], [str.split()] on white space, [int(str)] and the
    decimal writing of an int in an f-string *)
Variable isdigit : string -> bool.
Variable split_whitespace : string -> list string.
Variable parse_int : string -> option Z.
Variable str_of_int : Z -> string.

(** [utils.meta_http.normalize_ad_account(...)] and
    [utils.meta_http.build_time_range(preset=..., since=..., until=...)],
    which are not part of the sources at hand. *)
Variable normalize_ad_account : string -> result string.
Variable build_time_range :
  option string -> option string -> option string -> result (Dict.t string).

(** Line 88: accounts are [act_] prefixed or numeric ids of more than 16
    digits. *)
Definition is_account (object_id : string) : bool :=
  Py.startswith object_id "act_"
  || (isdigit object_id && (16 <? Py.len object_id)%nat).

(** [time_params] of the account branch (lines 92-112).  A [ValueError]
    that leaves it is answered with "Time range error: ..." (line 244),
    any other exception with "Unexpected error: ...". *)
Definition account_time_params (time_range : string)
    : result (Dict.t string) :=
  if Py.In_list time_range DATE_PRESETS then
    build_time_range (Some time_range) None None
  else
  let parts := split "_"%char time_range in
  if (2 <=? length parts)%nat && (length parts =? 2)%nat then
    (* Handle custom date range format: YYYY-MM-DD_YYYY-MM-DD *)
    match parts with
    | [since_date; until_date] =>
        match (if (Py.len since_date =? 10)%nat
                  && (Py.len until_date =? 10)%nat
               then build_time_range None (Some since_date)
                      (Some until_date)
               else build_time_range (Some "last_30d") None None)
        with
        | Ok time_params => Ok time_params
        | Raise ValueError => build_time_range (Some "last_30d") None None
        | Raise TypeError => build_time_range (Some "last_30d") None None
        | Raise e => Raise e
        end
    | _ => build_time_range (Some "last_30d") None None
    end
  else
    (* Custom time range - convert natural language if needed *)
    if Py.endswith time_range " days ago" then
      match split_whitespace time_range with
      | [] => Raise IndexError
      | first :: _ =>
          match parse_int first with
          | None => Raise ValueError
          | Some days =>
              build_time_range None
                (Some (str_of_int days ++ " days ago")) (Some "today")
          end
      end
    else build_time_range (Some "last_30d") None None.

(** Line 252: the id under which a campaign, ad set or ad is requested. *)
Definition normalized_id (object_id : string) : result string :=
  if Py.startswith object_id "act_" || isdigit object_id
  then normalize_ad_account object_id
  else Ok object_id.

(** The time entries that the campaign-level branch adds to [params]
    (lines 267-288). *)
Definition object_time_params (object_id time_range : string)
    : result (Dict.t string) :=
  _ <- normalized_id object_id ;;
  if Py.In_list time_range DATE_PRESETS then
    Ok [("date_preset", time_range)]
  else
  let parts := split "_"%char time_range in
  if (2 <=? length parts)%nat && (length parts =? 2)%nat then
    (* Handle custom date range format: YYYY-MM-DD_YYYY-MM-DD *)
    match parts with
    | [since_date; until_date] =>
        if (Py.len since_date =? 10)%nat
           && (Py.len until_date =? 10)%nat
        then
          match build_time_range None (Some since_date) (Some until_date)
          with
          | Ok time_params => Ok time_params
          | Raise ValueError => Ok [("date_preset", "last_30d")]
          | Raise TypeError => Ok [("date_preset", "last_30d")]
          | Raise e => Raise e
          end
        else Ok [("date_preset", "last_30d")]
    | _ => Ok [("date_preset", "last_30d")]
    end
  else
    (* Try to build custom time range *)
    match (if Py.In_list time_range DATE_PRESETS
           then build_time_range (Some time_range) None None
           else build_time_range None (Some time_range) (Some "today"))
    with
    | Ok time_params => Ok time_params
    | Raise ValueError => Ok [("date_preset", "last_30d")]
    | Raise e => Raise e
    end.

(** The time parameters of a request, by the kind of object. *)
Definition time_params (object_id time_range : string)
    : result (Dict.t string) :=
  if is_account object_id then account_time_params time_range
  else object_time_params object_id time_range.

End TimeParameters.

(** [str.isdigit] on ASCII strings. *)
Definition ascii_isdigit (s : string) : bool :=
  negb (String.eqb s "")
  && forallb (fun c => (48 <=? Ascii.nat_of_ascii c)%nat
                       && (Ascii.nat_of_ascii c <=? 57)%nat)
       (list_ascii_of_string s).

End InsightsTool.

(** ** The specification's wording of the rules, for comparison *)

Module Spec.

(** The four bucket terms of the score. *)



Definition conversions_bucket (conversions : Z) : Z :=
  if (conversions >=? 50)%Z then 20
  else if (conversions >=? 20)%Z then 15
  else if (conversions >=? 10)%Z then 10
  else if (conversions >=? 5)%Z then 5
  else 0.

Definition efficiency_bucket (spend : Q) (conversions : Z) : Z :=
  if PyNum.gt spend 0 && (conversions >? 0)%Z then
    let cost_per_conversion := spend / inject_Z conversions in
    if PyNum.le cost_per_conversion 20 then 10
    else if PyNum.le cost_per_conversion 50 then 5
    else 0
  else 0.


(** The order on health labels:
    Needs Attention < Fair < Good < Excellent. *)
Definition health_rank (health : string) : nat :=
  if String.eqb health "Excellent" then 3
  else if String.eqb health "Good" then 2
  else if String.eqb health "Fair" then 1
  else 0.

(** The enumerated time-range tokens and the length in days of the window
    each one asks for, where it is bounded (a month has at most 31 days;
    [lifetime] has no bound). *)
Definition TIME_RANGES : list string :=
  ["today"; "yesterday"; "last_7d"; "last_14d"; "last_30d";
   "this_month"; "last_month"; "lifetime"].

Definition window_days (time_range : string) : option Z :=
  if String.eqb time_range "today" then Some 1%Z
  else if String.eqb time_range "yesterday" then Some 1%Z
  else if String.eqb time_range "last_7d" then Some 7%Z
  else if String.eqb time_range "last_14d" then Some 14%Z
  else if String.eqb time_range "last_30d" then Some 30%Z
  else if String.eqb time_range "this_month" then Some 31%Z
  else if String.eqb time_range "last_month" then Some 31%Z
  else None.

(** A stable sort of [xs] by performance score: a rearrangement of [xs],
    in order of score, in which campaigns of equal score keep the order
    they have in [xs]. *)
Definition ordered_by_score (descending : bool)
    (a b : CampaignAnalysis.t) : Prop :=
  if descending
  then CampaignAnalysis.performance_score b
       <= CampaignAnalysis.performance_score a
  else CampaignAnalysis.performance_score a
       <= CampaignAnalysis.performance_score b.

Definition has_score (score : Q) (a : CampaignAnalysis.t) : bool :=
  PyNum.eq (CampaignAnalysis.performance_score a) score.

Definition stable_sort_by_score (descending : bool)
    (xs l : list CampaignAnalysis.t) : Prop :=
  Permutation l xs
  /\ StronglySorted (ordered_by_score descending) l
  /\ forall score, filter (has_score score) l = filter (has_score score) xs.

(** A campaign analysis that carries a given score and nothing else. *)
Definition scored (name : string) (score : Q) : CampaignAnalysis.t := {|
  CampaignAnalysis.campaign_id := name;
  CampaignAnalysis.campaign_name := name;
  CampaignAnalysis.spend := 0;
  CampaignAnalysis.impressions := 0;
  CampaignAnalysis.clicks := 0;
  CampaignAnalysis.conversions := 0;
  CampaignAnalysis.conversion_value := 0;
  CampaignAnalysis.ctr := 0;
  CampaignAnalysis.cpc := 0;
  CampaignAnalysis.cpm := 0;
  CampaignAnalysis.roas := 0;
  CampaignAnalysis.status := "ACTIVE";
  CampaignAnalysis.days_running := 30;
  CampaignAnalysis.performance_score := score;
  CampaignAnalysis.issues := [];
  CampaignAnalysis.recommendations := []
|}.

Definition five_campaigns : list CampaignAnalysis.t :=
  [scored "c10" 10; scored "c20" 20; scored "c30" 30;
   scored "c40" 40; scored "c50" 50].

(** The rank of a priority and a stable sort of action items by it. *)
Definition rank_of_priority (priority : string) : Z :=
  if String.eqb priority "high" then 0
  else if String.eqb priority "medium" then 1
  else 2.

Definition has_priority (priority : string) (x : ActionItem.t) : bool :=
  String.eqb (ActionItem.priority x) priority.

Definition ordered_by_priority (x y : ActionItem.t) : Prop :=
  (rank_of_priority (ActionItem.priority x)
   <= rank_of_priority (ActionItem.priority y))%Z.

Section ActionRules.

Variable thresholds : Thresholds.
Variable fmt2f : Q -> string.
Variable fmt0f : Q -> string.

(** The items one campaign gives rise to, rule by rule. *)
Definition items_of_campaign (analysis : CampaignAnalysis.t)
    : list ActionItem.t :=
  ((if Analyzer.pause_rule analysis
    then [Analyzer.pause_item fmt2f analysis] else [])
   ++ (if Analyzer.review_rule analysis
       then [Analyzer.review_item fmt2f analysis] else [])
   ++ (if Analyzer.budget_rule thresholds analysis
       then [Analyzer.budget_item fmt2f fmt0f analysis] else []))%list.

(** Generation campaign by campaign. *)
Definition items_per_campaign (analyses : list CampaignAnalysis.t)
    : list ActionItem.t :=
  flat_map items_of_campaign analyses.

End ActionRules.

End Spec.

(** ** A small account, for the examples

    Three campaigns: one whose insights come as a date-keyed dictionary,
    one whose request fails, and one whose insights come as a list of
    rows (the shape [tools.insights.get_insights] builds from the API's
    [data] array), on which [insights.keys()] raises. *)

Module Scenario.

Definition row : PyVal :=
  PyDict [("spend", PyFloat 120.5); ("impressions", PyInt 4000);
          ("clicks", PyInt 100); ("conversions", PyInt 6);
          ("conversion_value", PyFloat 482)].

Definition get_insights (object_id time_range : string) : Dict.t PyVal :=
  if String.eqb object_id "c1" then
    [("success", PyBool true);
     ("insights", PyDict [("2025-03-01", row); ("2025-03-02", row)])]
  else if String.eqb object_id "c3" then
    [("success", PyBool true); ("insights", PyList [row])]
  else
    [("success", PyBool false);
     ("error", PyStr "Failed to retrieve insights: HTTP 400")].

Definition spring : Dict.t string :=
  [("id", "c1"); ("name", "Spring"); ("status", "ACTIVE")].

Definition broken : Dict.t string :=
  [("id", "c2"); ("name", "Broken"); ("status", "ACTIVE")].

Definition listed : Dict.t string :=
  [("id", "c3"); ("name", "Listed"); ("status", "ACTIVE")].

Definition nameless : Dict.t string :=
  [("name", "No id"); ("status", "ACTIVE")].

Definition get_campaigns (account_id status : string)
    : CampaignsResponse.t :=
  if String.eqb account_id "act_1" then
    {| CampaignsResponse.success := true;
       CampaignsResponse.error := None;
       CampaignsResponse.campaigns := [nameless; broken; listed] |}
  else if String.eqb account_id "act_2" then
    {| CampaignsResponse.success := true;
       CampaignsResponse.error := None;
       CampaignsResponse.campaigns := [broken; spring; nameless] |}
  else
    {| CampaignsResponse.success := false;
       CampaignsResponse.error := Some "Unknown account";
       CampaignsResponse.campaigns := [] |}.

(** No string is read as a number and no date is parsed here. *)
Definition parse_float (s : string) : option Q := None.
Definition parse_int (s : string) : option Z := None.
Definition elapsed_days (s : string) : result Z := Raise ValueError.
Definition fmt (q : Q) : string := "".
Definition str_of_exc (e : PyExc) : string := "".

Definition analyze : Dict.t string -> string -> option CampaignAnalysis.t :=
  Analyzer._analyze_single_campaign ANALYSIS_THRESHOLDS get_insights
    parse_float parse_int elapsed_days.

Definition analyze_account : string -> string -> Response.t :=
  Analyzer.analyze_account_campaigns ANALYSIS_THRESHOLDS fmt fmt
    get_campaigns get_insights parse_float parse_int elapsed_days
    str_of_exc.

End Scenario.

(** The same account with one more campaign, which loses money: 200 spent
    for a conversion value of 50, and 10 clicks on 10000 impressions. *)
Module LosingScenario.

Definition row : PyVal :=
  PyDict [("spend", PyFloat 200); ("impressions", PyInt 10000);
          ("clicks", PyInt 10); ("conversions", PyInt 1);
          ("conversion_value", PyFloat 50)].

Definition get_insights (object_id time_range : string) : Dict.t PyVal :=
  if String.eqb object_id "c4" then
    [("success", PyBool true);
     ("insights", PyDict [("2025-03-02", row)])]
  else Scenario.get_insights object_id time_range.

Definition autumn : Dict.t string :=
  [("id", "c4"); ("name", "Autumn"); ("status", "ACTIVE")].

Definition analyze : Dict.t string -> string -> option CampaignAnalysis.t :=
  Analyzer._analyze_single_campaign ANALYSIS_THRESHOLDS get_insights
    Scenario.parse_float Scenario.parse_int Scenario.elapsed_days.

End LosingScenario.

(** * Part II: properties *)

(** ** Float comparisons *)

Module PyNumFacts.

Lemma ge_spec a b : PyNum.ge a b = true <-> b <= a.
Proof. apply Qle_bool_iff. Qed.

Lemma le_spec a b : PyNum.le a b = true <-> a <= b.
Proof. apply Qle_bool_iff. Qed.

Lemma gt_spec a b : PyNum.gt a b = true <-> b < a.
Proof.
  unfold PyNum.gt. rewrite negb_true_iff. split; intro H.
  - apply Qnot_le_lt. intro A. apply Qle_bool_iff in A. congruence.
  - destruct (Qle_bool a b) eqn:E; [|reflexivity].
    apply Qle_bool_iff in E. exfalso. exact (Qlt_not_le _ _ H E).
Qed.

Lemma lt_spec a b : PyNum.lt a b = true <-> a < b.
Proof. unfold PyNum.lt. apply (gt_spec b a). Qed.

Lemma eq_spec a b : PyNum.eq a b = true <-> a == b.
Proof. apply Qeq_bool_iff. Qed.

Lemma ge_false a b : PyNum.ge a b = false <-> a < b.
Proof.
  rewrite <- lt_spec. unfold PyNum.ge, PyNum.lt.
  destruct (Qle_bool b a); simpl; split; congruence.
Qed.

Lemma le_false a b : PyNum.le a b = false <-> b < a.
Proof. apply (ge_false b a). Qed.


Lemma eq_inject_Z z : PyNum.eq (inject_Z z) 0 = Z.eqb z 0.
Proof.
  unfold PyNum.eq, Qeq_bool. simpl. now rewrite Z.mul_1_r.
Qed.

End PyNumFacts.

(** ** Derived metrics never divide by zero *)

Module InsightsFacts.

Import Insights.

Lemma truediv_ok a b : PyNum.eq b 0 = false -> truediv a b = Ok (a / b).
Proof. unfold truediv. now intros ->. Qed.

Lemma FLOAT_OVERFLOW_pos : (1 < FLOAT_OVERFLOW)%Z.
Proof. reflexivity. Qed.

Lemma float_of_int_ok z :
  (Z.abs z < FLOAT_OVERFLOW)%Z -> float_of_int z = Ok (inject_Z z).
Proof.
  intro B. unfold float_of_int.
  destruct (Z.ltb_spec (Z.abs z) FLOAT_OVERFLOW); [reflexivity | lia].
Qed.

Lemma float_of_int_overflow z :
  (FLOAT_OVERFLOW <= Z.abs z)%Z -> float_of_int z = Raise OverflowError.
Proof.
  intro B. unfold float_of_int.
  destruct (Z.ltb_spec (Z.abs z) FLOAT_OVERFLOW); [lia | reflexivity].
Qed.

(** A float divided by an int other than zero: the quotient, unless the
    int is out of range. *)
Lemma truediv_float_int_cases a b :
  b <> 0%Z ->
  truediv_float_int a b
  = if (Z.abs b <? FLOAT_OVERFLOW)%Z then Ok (a / inject_Z b)
    else Raise OverflowError.
Proof.
  intro N. unfold truediv_float_int, float_of_int.
  destruct (Z.abs b <? FLOAT_OVERFLOW)%Z; [|reflexivity].
  simpl. apply truediv_ok. rewrite PyNumFacts.eq_inject_Z.
  now apply Z.eqb_neq.
Qed.

Lemma truediv_float_int_ok a b :
  b <> 0%Z -> (Z.abs b < FLOAT_OVERFLOW)%Z ->
  truediv_float_int a b = Ok (a / inject_Z b).
Proof.
  intros N B. rewrite truediv_float_int_cases by exact N.
  destruct (Z.ltb_spec (Z.abs b) FLOAT_OVERFLOW); [reflexivity | lia].
Qed.

Lemma truediv_int_int_ok a b :
  b <> 0%Z -> (Z.abs a < FLOAT_OVERFLOW * Z.abs b)%Z ->
  truediv_int_int a b = Ok (inject_Z a / inject_Z b).
Proof.
  intros N B. unfold truediv_int_int.
  apply Z.eqb_neq in N. rewrite N.
  destruct (Z.leb_spec (FLOAT_OVERFLOW * Z.abs b) (Z.abs a));
    [lia | reflexivity].
Qed.

(** An outcome of a metric that is not a division by zero: a value, or
    the complaint about an int outside the range of a float. *)
Definition value_or_overflow (r : result Q) : Prop :=
  (exists q, r = Ok q) \/ r = Raise OverflowError.

Lemma roas_try_total spend conversion_value :
  exists q, calculate_roas_try spend conversion_value = Ok q.
Proof.
  unfold calculate_roas_try, truediv.
  destruct (PyNum.eq spend 0); eauto.
Qed.

Lemma ctr_try_cases clicks impressions :
  value_or_overflow (calculate_ctr_try clicks impressions).
Proof.
  unfold value_or_overflow, calculate_ctr_try, truediv_int_int.
  destruct (Z.eqb impressions 0); [eauto|].
  destruct (FLOAT_OVERFLOW * Z.abs impressions <=? Z.abs clicks)%Z; eauto.
Qed.

Lemma cpc_try_cases spend clicks :
  value_or_overflow (calculate_cpc_try spend clicks).
Proof.
  unfold value_or_overflow, calculate_cpc_try.
  destruct (Z.eqb_spec clicks 0) as [|N]; [eauto|].
  rewrite truediv_float_int_cases by exact N.
  destruct (Z.abs clicks <? FLOAT_OVERFLOW)%Z; eauto.
Qed.

Lemma cpm_try_cases spend impressions :
  value_or_overflow (calculate_cpm_try spend impressions).
Proof.
  unfold value_or_overflow, calculate_cpm_try.
  destruct (Z.eqb_spec impressions 0) as [|N]; [eauto|].
  rewrite truediv_float_int_cases by exact N.
  destruct (Z.abs impressions <? FLOAT_OVERFLOW)%Z; simpl; eauto.
Qed.

Lemma except_ok r q :
  r = Ok q -> except_type_or_zero_division r = Ok q.
Proof. now intros ->. Qed.

(** The handler has nothing to catch after such an outcome. *)
Lemma except_unused r :
  value_or_overflow r -> except_type_or_zero_division r = r.
Proof. now intros [[q ->] | ->]. Qed.

Lemma roas_total spend conversion_value :
  exists q, calculate_roas spend conversion_value = Ok q.
Proof.
  destruct (roas_try_total spend conversion_value) as [q E].
  exists q. now apply except_ok.
Qed.

Lemma ctr_in_range clicks impressions :
  (Z.abs clicks < FLOAT_OVERFLOW)%Z ->
  exists q, calculate_ctr clicks impressions = Ok q.
Proof.
  intro B. unfold calculate_ctr, calculate_ctr_try.
  destruct (Z.eqb_spec impressions 0) as [|N]; [simpl; eauto|].
  rewrite truediv_int_int_ok; [simpl; eauto | exact N | nia].
Qed.

Lemma cpc_in_range spend clicks :
  (Z.abs clicks < FLOAT_OVERFLOW)%Z ->
  exists q, calculate_cpc spend clicks = Ok q.
Proof.
  intro B. unfold calculate_cpc, calculate_cpc_try.
  destruct (Z.eqb_spec clicks 0) as [|N]; [simpl; eauto|].
  rewrite truediv_float_int_ok by assumption. simpl; eauto.
Qed.

Lemma cpm_in_range spend impressions :
  (Z.abs impressions < FLOAT_OVERFLOW)%Z ->
  exists q, calculate_cpm spend impressions = Ok q.
Proof.
  intro B. unfold calculate_cpm, calculate_cpm_try.
  destruct (Z.eqb_spec impressions 0) as [|N]; [simpl; eauto|].
  rewrite truediv_float_int_ok by assumption. simpl; eauto.
Qed.

(** C3. Each derived-metric function returns 0.0 when its denominator is
    zero: [calculate_ctr(clicks, 0)], [calculate_cpc(spend, 0)],
    [calculate_cpm(spend, 0)] and [calculate_roas(0, conversion_value)]
    (whatever the conversion value, and for every way of writing a zero
    spend).  No division by zero is ever attempted: on every input the
    function returns what the code under its [try] produces, the handler
    having nothing to catch, and that is a value or, for an int operand
    outside the range of a float, an [OverflowError]; with the int operands
    in range it is a value, and [calculate_roas], which divides two floats,
    always returns one. *)
Theorem zero_denominator_returns_zero :
  (forall clicks, calculate_ctr clicks 0 = Ok 0.0)
  /\ (forall spend, calculate_cpc spend 0 = Ok 0.0)
  /\ (forall spend, calculate_cpm spend 0 = Ok 0.0)
  /\ (forall den conversion_value,
        calculate_roas (0 # den) conversion_value = Ok 0.0)
  /\ (forall clicks impressions,
        calculate_ctr clicks impressions
        = calculate_ctr_try clicks impressions
        /\ value_or_overflow (calculate_ctr_try clicks impressions)
        /\ ((Z.abs clicks < FLOAT_OVERFLOW)%Z ->
            exists q, calculate_ctr clicks impressions = Ok q))
  /\ (forall spend clicks,
        calculate_cpc spend clicks = calculate_cpc_try spend clicks
        /\ value_or_overflow (calculate_cpc_try spend clicks)
        /\ ((Z.abs clicks < FLOAT_OVERFLOW)%Z ->
            exists q, calculate_cpc spend clicks = Ok q))
  /\ (forall spend impressions,
        calculate_cpm spend impressions
        = calculate_cpm_try spend impressions
        /\ value_or_overflow (calculate_cpm_try spend impressions)
        /\ ((Z.abs impressions < FLOAT_OVERFLOW)%Z ->
            exists q, calculate_cpm spend impressions = Ok q))
  /\ (forall spend conversion_value,
        (exists q, calculate_roas_try spend conversion_value = Ok q)
        /\ exists q, calculate_roas spend conversion_value = Ok q).
Proof.
  split; [reflexivity|]. split; [reflexivity|]. split; [reflexivity|].
  split; [reflexivity|].
  split; [intros; split; [apply except_unused, ctr_try_cases|];
          split; [apply ctr_try_cases | apply ctr_in_range]|].
  split; [intros; split; [apply except_unused, cpc_try_cases|];
          split; [apply cpc_try_cases | apply cpc_in_range]|].
  split; [intros; split; [apply except_unused, cpm_try_cases|];
          split; [apply cpm_try_cases | apply cpm_in_range]|].
  intros; split; [apply roas_try_total | apply roas_total].
Qed.

(** Away from a zero denominator the functions return the quotient. *)
Lemma calculate_roas_nonzero spend conversion_value :
  PyNum.eq spend 0 = false ->
  calculate_roas spend conversion_value = Ok (conversion_value / spend).
Proof.
  intro E. unfold calculate_roas, calculate_roas_try, truediv. now rewrite E.
Qed.

Lemma calculate_ctr_nonzero clicks impressions :
  impressions <> 0%Z ->
  (Z.abs clicks < FLOAT_OVERFLOW * Z.abs impressions)%Z ->
  calculate_ctr clicks impressions
  = Ok (inject_Z clicks / inject_Z impressions).
Proof.
  intros E B. unfold calculate_ctr, calculate_ctr_try.
  rewrite truediv_int_int_ok by assumption.
  apply Z.eqb_neq in E. now rewrite E.
Qed.

End InsightsFacts.

(** ** The performance score *)

Module ScoreFacts.

Import Analyzer.

(** The ROAS and CTR terms under an arbitrary threshold table. *)
Definition roas_term (thresholds : Thresholds) (roas : Q) : Z :=
  if PyNum.ge roas (good_roas thresholds) then 40
  else if PyNum.ge roas 2.0 then 25
  else if PyNum.ge roas 1.0 then 10
  else if PyNum.gt roas 0 then 5
  else 0.

Definition ctr_term (thresholds : Thresholds) (ctr : Q) : Z :=
  if PyNum.ge ctr (good_ctr thresholds / 100) then 30
  else if PyNum.ge ctr (1.0 / 100) then 20
  else if PyNum.ge ctr (0.5 / 100) then 10
  else 0.

Lemma roas_term_range thresholds roas : (0 <= roas_term thresholds roas <= 40)%Z.
Proof.
  unfold roas_term.
  repeat match goal with |- context [if ?c then _ else _] => destruct c end;
    lia.
Qed.

Lemma ctr_term_range thresholds ctr : (0 <= ctr_term thresholds ctr <= 30)%Z.
Proof.
  unfold ctr_term.
  repeat match goal with |- context [if ?c then _ else _] => destruct c end;
    lia.
Qed.

Lemma conversions_bucket_range conversions :
  (0 <= Spec.conversions_bucket conversions <= 20)%Z.
Proof.
  unfold Spec.conversions_bucket.
  repeat match goal with |- context [if ?c then _ else _] => destruct c end;
    lia.
Qed.

Lemma efficiency_bucket_range spend conversions :
  (0 <= Spec.efficiency_bucket spend conversions <= 10)%Z.
Proof.
  unfold Spec.efficiency_bucket.
  repeat match goal with |- context [if ?c then _ else _] => destruct c end;
    lia.
Qed.

(** The efficiency step divides by [conversions] under its guard; the int
    is converted to a float for that, which fails when it is out of
    range. *)
Definition out_of_range (spend : Q) (conversions : Z) : bool :=
  PyNum.gt spend 0 && (conversions >? 0)%Z
  && negb (Z.abs conversions <? FLOAT_OVERFLOW)%Z.

Lemma in_range spend conversions :
  (conversions < FLOAT_OVERFLOW)%Z -> out_of_range spend conversions = false.
Proof.
  intro B. unfold out_of_range.
  destruct (PyNum.gt spend 0); [|reflexivity].
  destruct (Z.gtb_spec conversions 0); [|reflexivity].
  destruct (Z.ltb_spec (Z.abs conversions) FLOAT_OVERFLOW);
    [reflexivity | lia].
Qed.

(** The efficiency step of the code: its division is guarded against
    zero. *)
Lemma efficiency_step spend conversions (score : Z) :
  (if PyNum.gt spend 0 && (conversions >? 0)%Z then
     cost_per_conversion <- truediv_float_int spend conversions ;;
     Ok (if PyNum.le cost_per_conversion 20 then (score + 10)%Z
         else if PyNum.le cost_per_conversion 50 then (score + 5)%Z
         else score)
   else Ok score)
  = if out_of_range spend conversions then Raise OverflowError
    else Ok (score + Spec.efficiency_bucket spend conversions)%Z.
Proof.
  unfold Spec.efficiency_bucket, out_of_range.
  destruct (PyNum.gt spend 0); simpl; [|f_equal; lia].
  destruct (conversions >? 0)%Z eqn:C; simpl; [|f_equal; lia].
  assert (N : conversions <> 0%Z) by (apply Z.gtb_lt in C; lia).
  rewrite InsightsFacts.truediv_float_int_cases by exact N.
  destruct (Z.abs conversions <? FLOAT_OVERFLOW)%Z; simpl; [|reflexivity].
  repeat match goal with |- context [if ?c then _ else _] => destruct c end;
    f_equal; lia.
Qed.

(** The code's running sum is base 50 plus the four terms, capped at 100;
    nothing is returned when the division cannot be carried out. *)
Lemma score_cases thresholds spend roas ctr conversions :
  _calculate_performance_score thresholds spend roas ctr conversions
  = if out_of_range spend conversions then Raise OverflowError
    else Ok (Z.min (50 + roas_term thresholds roas + ctr_term thresholds ctr
                    + Spec.conversions_bucket conversions
                    + Spec.efficiency_bucket spend conversions) 100).
Proof.
  unfold _calculate_performance_score. cbv zeta.
  rewrite efficiency_step.
  destruct (out_of_range spend conversions); [reflexivity|].
  cbn [bind]. do 2 f_equal.
  unfold roas_term, ctr_term, Spec.conversions_bucket.
  repeat match goal with |- context [if ?c then _ else _] => destruct c end;
    lia.
Qed.

Lemma score_as_sum thresholds spend roas ctr conversions :
  (conversions < FLOAT_OVERFLOW)%Z ->
  _calculate_performance_score thresholds spend roas ctr conversions
  = Ok (Z.min (50 + roas_term thresholds roas + ctr_term thresholds ctr
               + Spec.conversions_bucket conversions
               + Spec.efficiency_bucket spend conversions) 100).
Proof.
  intro B. rewrite score_cases. now rewrite in_range.
Qed.

(** A positive spend with a number of conversions that no float can hold:
    the score is not computed. *)
Lemma score_overflow thresholds spend roas ctr conversions :
  0 < spend -> (FLOAT_OVERFLOW <= conversions)%Z ->
  _calculate_performance_score thresholds spend roas ctr conversions
  = Raise OverflowError.
Proof.
  intros P B. rewrite score_cases.
  pose proof InsightsFacts.FLOAT_OVERFLOW_pos.
  unfold out_of_range.
  apply PyNumFacts.gt_spec in P. rewrite P.
  destruct (Z.gtb_spec conversions 0); [|lia].
  destruct (Z.ltb_spec (Z.abs conversions) FLOAT_OVERFLOW);
    [lia | reflexivity].
Qed.

(** Whatever the thresholds, a score that is returned lies in [50, 100]. *)
Lemma score_range thresholds spend roas ctr conversions score :
  _calculate_performance_score thresholds spend roas ctr conversions
  = Ok score ->
  (50 <= score <= 100)%Z.
Proof.
  rewrite score_cases.
  destruct (out_of_range spend conversions); [discriminate|].
  intro E.
  apply (f_equal (fun r => match r with Ok z => z | Raise _ => 0%Z end))
    in E.
  cbv beta iota in E. subst score.
  pose proof (roas_term_range thresholds roas).
  pose proof (ctr_term_range thresholds ctr).
  pose proof (conversions_bucket_range conversions).
  pose proof (efficiency_bucket_range spend conversions).
  lia.
Qed.





End ScoreFacts.

(** ** Issue detection *)

Module IssueFacts.

Import Analyzer.

Section Issues.

Variable thresholds : Thresholds.

(** The five independent rules, in their order. *)
Lemma issues_by_rule spend roas ctr cpc conversions days_running :
  _identify_campaign_issues thresholds
    spend roas ctr cpc conversions days_running
  = ((if PyNum.lt roas 1.0 && PyNum.gt spend 50 then [NEGATIVE_ROI] else [])
     ++ (if PyNum.lt ctr (0.5 / 100) && PyNum.gt spend 25
         then [LOW_CTR] else [])
     ++ (if PyNum.gt cpc (high_cpc thresholds) && PyNum.gt spend 100
         then [HIGH_CPC] else [])
     ++ (if (conversions <? low_conversions thresholds)%Z
            && (days_running >? 7)%Z
         then [LOW_CONVERSIONS] else [])
     ++ (if PyNum.eq spend 0 then [NO_SPEND] else []))%list.
Proof.
  unfold _identify_campaign_issues, append. cbv zeta.
  repeat match goal with |- context [if ?c then _ else _] => destruct c end;
    reflexivity.
Qed.

(** Membership of a tag, decided rule by rule. *)
Ltac tag_cases :=
  rewrite issues_by_rule, !in_app_iff;
  repeat match goal with
         | |- context [if ?c then _ else _] => destruct c eqn:?
         end;
  cbn [In];
  unfold NEGATIVE_ROI, LOW_CTR, HIGH_CPC, LOW_CONVERSIONS, NO_SPEND;
  split; intro; try reflexivity; try discriminate;
  intuition discriminate.

Lemma no_spend_iff spend roas ctr cpc conversions days_running :
  In NO_SPEND
     (_identify_campaign_issues thresholds
        spend roas ctr cpc conversions days_running)
  <-> PyNum.eq spend 0 = true.
Proof.
  tag_cases.
Qed.

Lemma negative_roi_iff spend roas ctr cpc conversions days_running :
  In NEGATIVE_ROI
     (_identify_campaign_issues thresholds
        spend roas ctr cpc conversions days_running)
  <-> PyNum.lt roas 1.0 && PyNum.gt spend 50 = true.
Proof.
  tag_cases.
Qed.

(** C7. A campaign with [spend == 0] always carries the no_spend tag, and
    no issue list carries both the no_spend and the negative_roi tag
    (negative_roi requires spend > 50). *)
Theorem no_spend_excludes_negative_roi
    spend roas ctr cpc conversions days_running :
  let issues :=
    _identify_campaign_issues thresholds
      spend roas ctr cpc conversions days_running in
  (spend == 0 -> In NO_SPEND issues)
  /\ (In NEGATIVE_ROI issues -> 50 < spend)
  /\ (In NO_SPEND issues -> In NEGATIVE_ROI issues -> False).
Proof.
  cbv zeta. rewrite no_spend_iff, negative_roi_iff.
  rewrite andb_true_iff, PyNumFacts.eq_spec, PyNumFacts.gt_spec.
  repeat split.
  - tauto.
  - tauto.
  - intros Z [_ B]. rewrite Z in B. lra.
Qed.

End Issues.

(** Witness of C7: a campaign without spend. *)
Lemma no_spend_excludes_negative_roi_witness :
  0 == 0
  /\ In NO_SPEND (_identify_campaign_issues ANALYSIS_THRESHOLDS 0 0 0 0 0 30).
Proof.
  split; [reflexivity|].
  apply (proj1 (no_spend_excludes_negative_roi ANALYSIS_THRESHOLDS
                  0 0 0 0 0%Z 30%Z)).
  reflexivity.
Defined.

End IssueFacts.

(** ** Campaign recommendations *)

Module RecommendationFacts.

Import Analyzer.

Section Recommendations.

Variable thresholds : Thresholds.

(** The membership test for the first rule looks for the string
    "Negative ROI", which is no element of any issue list: the tag that
    detection appends is the longer [NEGATIVE_ROI]. *)
Lemma negative_roi_test_fails spend roas ctr cpc conversions days_running :
  Py.In_list "Negative ROI"
    (_identify_campaign_issues thresholds
       spend roas ctr cpc conversions days_running)
  = false.
Proof.
  rewrite IssueFacts.issues_by_rule.
  repeat match goal with |- context [if ?c then _ else _] => destruct c end;
    reflexivity.
Qed.

Lemma pause_never_recommended spend roas ctr cpc conversions days_running :
  Py.In_list REC_PAUSE
    (_generate_campaign_recommendations thresholds
       spend roas ctr cpc conversions
       (_identify_campaign_issues thresholds
          spend roas ctr cpc conversions days_running))
  = false.
Proof.
  unfold _generate_campaign_recommendations. cbv zeta.
  rewrite negative_roi_test_fails.
  repeat match goal with
         | |- context [if Py.In_list ?s ?l then _ else _] =>
             destruct (Py.In_list s l)
         end;
    cbn [append app is_empty andb];
    repeat match goal with
           | |- context [if ?c then _ else _] => destruct c
           end;
    reflexivity.
Qed.

(** The sibling rules test for the very tag that detection appends: a
    campaign flagged for a low click-through rate gets its two strings. *)
Lemma low_ctr_recommended spend roas ctr cpc conversions days_running :
  PyNum.lt ctr (0.5 / 100) && PyNum.gt spend 25 = true ->
  let recommendations :=
    _generate_campaign_recommendations thresholds
      spend roas ctr cpc conversions
      (_identify_campaign_issues thresholds
         spend roas ctr cpc conversions days_running) in
  Py.In_list "Test different ad creative or copy" recommendations = true
  /\ Py.In_list "Review audience targeting for relevance" recommendations
     = true.
Proof.
  intro L. cbv zeta.
  unfold _generate_campaign_recommendations. cbv zeta.
  rewrite negative_roi_test_fails.
  rewrite IssueFacts.issues_by_rule, L.
  repeat match goal with
         | |- context [if ?c then [?x] else []] => destruct c
         end;
    cbn -[PyNum.gt Qdiv]; split; reflexivity.
Qed.

End Recommendations.

(** C1, as the code has it.  The scenario campaign (spend 200, no
    conversion, no conversion value, no impression) has roas 0, is flagged
    negative_roi and scores 50, yet its recommendations hold no pause
    suggestion; and no campaign whatever is ever told to pause, since the
    recommendation rule tests for a string that detection never produces. *)
Theorem negative_roi_gets_no_pause_suggestion :
  Insights.calculate_roas 200 0 = Ok (0 / 200)
  /\ _calculate_performance_score ANALYSIS_THRESHOLDS 200 (0 / 200) 0.0 0
     = Ok 50%Z
  /\ _identify_campaign_issues ANALYSIS_THRESHOLDS 200 (0 / 200) 0.0 0.0 0 30
     = [NEGATIVE_ROI; LOW_CTR; LOW_CONVERSIONS]
  /\ _generate_campaign_recommendations ANALYSIS_THRESHOLDS
       200 (0 / 200) 0.0 0.0 0 [NEGATIVE_ROI; LOW_CTR; LOW_CONVERSIONS]
     = ["Test different ad creative or copy";
        "Review audience targeting for relevance";
        "Review landing page experience";
        "Test different call-to-action buttons"]
  /\ (forall thresholds spend roas ctr cpc conversions days_running,
        Py.In_list REC_PAUSE
          (_generate_campaign_recommendations thresholds
             spend roas ctr cpc conversions
             (_identify_campaign_issues thresholds
                spend roas ctr cpc conversions days_running))
        = false).
Proof.
  repeat split; try reflexivity.
  intros. apply pause_never_recommended.
Qed.

End RecommendationFacts.

(** ** Account health *)

Module HealthFacts.

Import Analyzer.

Section Health.

Variable thresholds : Thresholds.

(** The labels, by the comparisons taken. *)
Lemma health_cases average_roas analyses :
  (good_roas thresholds <= average_roas
   /\ _determine_account_health thresholds average_roas analyses
      = "Excellent")
  \/ (average_roas < good_roas thresholds /\ 2.0 <= average_roas
      /\ _determine_account_health thresholds average_roas analyses = "Good")
  \/ (average_roas < good_roas thresholds /\ average_roas < 2.0
      /\ 1.0 <= average_roas
      /\ _determine_account_health thresholds average_roas analyses = "Fair")
  \/ (average_roas < good_roas thresholds /\ average_roas < 2.0
      /\ average_roas < 1.0
      /\ _determine_account_health thresholds average_roas analyses
         = "Needs Attention").
Proof.
  unfold _determine_account_health.
  destruct (PyNum.ge average_roas (good_roas thresholds)) eqn:A.
  { left. now rewrite PyNumFacts.ge_spec in A. }
  right. apply PyNumFacts.ge_false in A.
  destruct (PyNum.ge average_roas 2.0) eqn:B.
  { left. now rewrite PyNumFacts.ge_spec in B. }
  right. apply PyNumFacts.ge_false in B.
  destruct (PyNum.ge average_roas 1.0) eqn:C.
  { left. now rewrite PyNumFacts.ge_spec in C. }
  right. apply PyNumFacts.ge_false in C. auto.
Qed.

(** Monotone for any table of thresholds. *)
Lemma health_monotone r1 r2 xs ys :
  r1 <= r2 ->
  (Spec.health_rank (_determine_account_health thresholds r1 xs)
   <= Spec.health_rank (_determine_account_health thresholds r2 ys))%nat.
Proof.
  intro L.
  destruct (health_cases r1 xs) as [H1|[H1|[H1|H1]]];
    destruct (health_cases r2 ys) as [H2|[H2|[H2|H2]]];
    repeat match goal with H : _ /\ _ |- _ => destruct H end;
    repeat match goal with H : _ = _ |- _ => rewrite H; clear H end;
    cbn; try lia; exfalso; lra.
Qed.

End Health.

(** C8. Account health is "Excellent" from an average ROAS of 3.0,
    "Good" from 2.0, "Fair" from 1.0 and "Needs Attention" below; under
    Needs Attention < Fair < Good < Excellent it is monotonic non-decreasing
    in the average ROAS. *)
Theorem account_health_thresholds_monotone :
  (forall r xs,
      (3.0 <= r ->
       _determine_account_health ANALYSIS_THRESHOLDS r xs = "Excellent")
      /\ (2.0 <= r -> r < 3.0 ->
          _determine_account_health ANALYSIS_THRESHOLDS r xs = "Good")
      /\ (1.0 <= r -> r < 2.0 ->
          _determine_account_health ANALYSIS_THRESHOLDS r xs = "Fair")
      /\ (r < 1.0 ->
          _determine_account_health ANALYSIS_THRESHOLDS r xs
          = "Needs Attention"))
  /\ (forall r1 r2 xs ys,
        r1 <= r2 ->
        (Spec.health_rank (_determine_account_health ANALYSIS_THRESHOLDS r1 xs)
         <= Spec.health_rank
              (_determine_account_health ANALYSIS_THRESHOLDS r2 ys))%nat).
Proof.
  split.
  - intros r xs.
    destruct (health_cases ANALYSIS_THRESHOLDS r xs) as [H|[H|[H|H]]];
      cbn [good_roas ANALYSIS_THRESHOLDS] in H;
      repeat match goal with H : _ /\ _ |- _ => destruct H end;
      repeat split; intros; try assumption; exfalso; lra.
  - intros. now apply health_monotone.
Qed.

(** Witness of C8: averages 1.5 and 2.5 give Fair and Good. *)
Lemma account_health_thresholds_monotone_witness :
  1.5 <= 2.5
  /\ (Spec.health_rank (_determine_account_health ANALYSIS_THRESHOLDS 1.5 [])
      <= Spec.health_rank
           (_determine_account_health ANALYSIS_THRESHOLDS 2.5 []))%nat.
Proof.
  assert (L : 1.5 <= 2.5) by (unfold Qle; simpl; lia).
  split; [exact L|].
  exact (proj2 account_health_thresholds_monotone 1.5 2.5 [] [] L).
Defined.

(** C10. Account health depends on the average ROAS alone: the list of
    campaign analyses has no influence on it. *)
Theorem account_health_ignores_analyses :
  forall (thresholds : Thresholds) (average_roas : Q)
         (xs ys : list CampaignAnalysis.t),
    _determine_account_health thresholds average_roas xs
    = _determine_account_health thresholds average_roas ys.
Proof.
  intros. reflexivity.
Qed.

End HealthFacts.

(** ** The stable sort *)

Module PySortFacts.

Import PySort.

Section Insertion.

Context {A : Type}.
Variable precedes : A -> A -> bool.

Hypothesis precedes_total :
  forall x y, precedes x y = true \/ precedes y x = true.
Hypothesis precedes_trans :
  forall x y z,
    precedes x y = true -> precedes y z = true -> precedes x z = true.

Let before (x y : A) : Prop := precedes x y = true.

(** Two elements tie when each may stand before the other. *)
Definition tie (x y : A) : bool := precedes x y && precedes y x.

Lemma insert_perm x l : Permutation (insert precedes x l) (x :: l).
Proof.
  induction l as [|y l IH]; simpl.
  - apply Permutation_refl.
  - destruct (precedes x y).
    + apply Permutation_refl.
    + apply perm_trans with (y :: x :: l).
      * now apply perm_skip.
      * apply perm_swap.
Qed.

Lemma sort_perm l : Permutation (sort precedes l) l.
Proof.
  induction l as [|x l IH]; simpl.
  - constructor.
  - apply perm_trans with (x :: sort precedes l).
    + apply insert_perm.
    + now apply perm_skip.
Qed.

Lemma insert_sorted x l :
  StronglySorted before l -> StronglySorted before (insert precedes x l).
Proof.
  induction 1 as [|y l S IH F]; simpl.
  - repeat constructor.
  - destruct (precedes x y) eqn:E.
    + constructor; [now constructor|].
      constructor; [exact E|].
      eapply Forall_impl; [|exact F].
      intros z Hz. unfold before in *. eauto.
    + constructor; [exact IH|].
      assert (Forall (before y) (x :: l)) as F'.
      { constructor; [|exact F].
        destruct (precedes_total x y) as [C|C]; [congruence|exact C]. }
      rewrite Forall_forall in *. intros z Hz. apply F'.
      eapply Permutation_in; [apply insert_perm|exact Hz].
Qed.

Lemma sort_sorted l : StronglySorted before (sort precedes l).
Proof.
  induction l as [|x l IH]; simpl.
  - constructor.
  - now apply insert_sorted.
Qed.

(** Stability, for a class of elements that tie pairwise: the sort leaves
    the members of the class in their input order. *)
Section Stability.

Variable class : A -> bool.
Hypothesis class_ties :
  forall x y, class x = true -> class y = true -> precedes x y = true.

Lemma filter_insert x l :
  filter class (insert precedes x l) = filter class (x :: l).
Proof.
  induction l as [|y l IH]; simpl; [reflexivity|].
  destruct (precedes x y) eqn:E; simpl; [reflexivity|].
  rewrite IH. simpl.
  destruct (class x) eqn:Cx, (class y) eqn:Cy; try reflexivity.
  rewrite (class_ties x y Cx Cy) in E. discriminate.
Qed.

Lemma filter_sort l : filter class (sort precedes l) = filter class l.
Proof.
  induction l as [|x l IH]; simpl; [reflexivity|].
  rewrite filter_insert. simpl. now rewrite IH.
Qed.

End Stability.

Lemma tie_class x y z : tie x y = true -> tie x z = true -> precedes y z = true.
Proof.
  unfold tie. rewrite !andb_true_iff. intros [_ Hyx] [Hxz _]. eauto.
Qed.

Lemma sort_stable x l :
  filter (tie x) (sort precedes l) = filter (tie x) l.
Proof.
  apply filter_sort. intros y z. apply tie_class.
Qed.

(** A sorted permutation that keeps ties in order is unique: any stable
    sort computes the list that [sort] computes. *)
Lemma stable_sorted_unique l1 :
  forall l2,
    StronglySorted before l1 -> StronglySorted before l2 ->
    Permutation l1 l2 ->
    (forall x, filter (tie x) l1 = filter (tie x) l2) ->
    l1 = l2.
Proof.
  induction l1 as [|a l1 IH]; intros l2 S1 S2 P T.
  - apply Permutation_nil in P. now subst.
  - destruct l2 as [|b l2].
    { apply Permutation_sym, Permutation_nil in P. discriminate. }
    assert (R : forall x, precedes x x = true).
    { intro x. destruct (precedes_total x x); assumption. }
    inversion S1 as [|? ? S1' F1]; subst.
    inversion S2 as [|? ? S2' F2]; subst.
    rewrite Forall_forall in F1, F2.
    assert (Hab : precedes a b = true).
    { assert (I : In b (a :: l1))
        by (eapply Permutation_in;
            [apply Permutation_sym; exact P|now left]).
      destruct I as [<-|I]; [apply R|now apply F1]. }
    assert (Hba : precedes b a = true).
    { assert (I : In a (b :: l2))
        by (eapply Permutation_in; [exact P|now left]).
      destruct I as [<-|I]; [apply R|now apply F2]. }
    assert (E : a = b).
    { assert (Taa : tie a a = true) by (unfold tie; now rewrite R).
      assert (Tab : tie a b = true) by (unfold tie; now rewrite Hab, Hba).
      specialize (T a). simpl in T. rewrite Taa, Tab in T.
      now injection T. }
    subst b. f_equal.
    apply IH; try assumption.
    + eapply Permutation_cons_inv; exact P.
    + intro x. specialize (T x). simpl in T.
      destruct (tie x a); [now injection T|exact T].
Qed.

Lemma sort_unique xs l :
  StronglySorted before l -> Permutation l xs ->
  (forall x, filter (tie x) l = filter (tie x) xs) ->
  l = sort precedes xs.
Proof.
  intros S P T. apply stable_sorted_unique.
  - exact S.
  - apply sort_sorted.
  - apply perm_trans with xs; [exact P|].
    apply Permutation_sym, sort_perm.
  - intro x. now rewrite sort_stable.
Qed.

End Insertion.

End PySortFacts.

(** ** Top performers and underperformers *)

Module PerformerFacts.

Import Analyzer PySort.

Lemma Qle_bool_total a b : Qle_bool a b = true \/ Qle_bool b a = true.
Proof.
  destruct (Qlt_le_dec a b) as [L|L].
  - left. apply Qle_bool_iff. now apply Qlt_le_weak.
  - right. now apply Qle_bool_iff.
Qed.

Lemma Qle_bool_trans a b c :
  Qle_bool a b = true -> Qle_bool b c = true -> Qle_bool a c = true.
Proof.
  rewrite !Qle_bool_iff. apply Qle_trans.
Qed.

Section ByFloat.

Context {A : Type}.
Variable key : A -> Q.
Variable reverse : bool.

Lemma by_float_total x y :
  by_float key reverse x y = true \/ by_float key reverse y x = true.
Proof.
  unfold by_float, PyNum.ge, PyNum.le.
  destruct reverse; apply Qle_bool_total.
Qed.

Lemma by_float_trans x y z :
  by_float key reverse x y = true -> by_float key reverse y z = true ->
  by_float key reverse x z = true.
Proof.
  unfold by_float, PyNum.ge, PyNum.le.
  destruct reverse; eauto using Qle_bool_trans.
Qed.

Lemma by_float_ties k x y :
  PyNum.eq (key x) k = true -> PyNum.eq (key y) k = true ->
  by_float key reverse x y = true.
Proof.
  rewrite !PyNumFacts.eq_spec. intros Ex Ey.
  unfold by_float, PyNum.ge, PyNum.le.
  destruct reverse; apply Qle_bool_iff; rewrite Ex, Ey; apply Qle_refl.
Qed.

Lemma sorted_perm l : Permutation (sorted l key reverse) l.
Proof. apply PySortFacts.sort_perm. Qed.

Lemma sorted_ordered l :
  StronglySorted (fun x y => by_float key reverse x y = true)
                 (sorted l key reverse).
Proof.
  apply PySortFacts.sort_sorted.
  - apply by_float_total.
  - apply by_float_trans.
Qed.

Lemma sorted_stable k l :
  filter (fun a => PyNum.eq (key a) k) (sorted l key reverse)
  = filter (fun a => PyNum.eq (key a) k) l.
Proof.
  apply PySortFacts.filter_sort. intros x y. apply by_float_ties.
Qed.

End ByFloat.

Lemma StronglySorted_impl {A} (R R' : A -> A -> Prop) l :
  (forall x y, R x y -> R' x y) ->
  StronglySorted R l -> StronglySorted R' l.
Proof.
  intros I. induction 1 as [|x l S IH F]; constructor.
  - exact IH.
  - eapply Forall_impl; [|exact F]. auto.
Qed.

Lemma sorted_is_stable_sort reverse xs :
  Spec.stable_sort_by_score reverse xs
    (sorted xs CampaignAnalysis.performance_score reverse).
Proof.
  repeat split.
  - apply sorted_perm.
  - eapply StronglySorted_impl; [|apply sorted_ordered].
    intros x y. unfold by_float, Spec.ordered_by_score.
    destruct reverse.
    + apply PyNumFacts.ge_spec.
    + apply PyNumFacts.le_spec.
  - intro score. apply sorted_stable.
Qed.

(** Stability pins the result down: a stable sort by score is the list
    that [sorted] returns. *)
Lemma stable_sort_by_score_unique reverse xs l :
  Spec.stable_sort_by_score reverse xs l ->
  l = sorted xs CampaignAnalysis.performance_score reverse.
Proof.
  intros (P & S & T).
  apply PySortFacts.sort_unique.
  - apply by_float_total.
  - apply by_float_trans.
  - eapply StronglySorted_impl; [|exact S].
    intros x y. unfold by_float, Spec.ordered_by_score.
    destruct reverse.
    + apply PyNumFacts.ge_spec.
    + apply PyNumFacts.le_spec.
  - exact P.
  - intro x.
    assert (E : forall l',
               filter (PySortFacts.tie
                         (by_float CampaignAnalysis.performance_score reverse)
                         x) l'
               = filter (Spec.has_score
                           (CampaignAnalysis.performance_score x)) l').
    { intro l'. apply filter_ext. intro a.
      unfold PySortFacts.tie, by_float, Spec.has_score,
             PyNum.ge, PyNum.le, PyNum.eq.
      destruct (Qeq_bool (CampaignAnalysis.performance_score a)
                         (CampaignAnalysis.performance_score x)) eqn:Q.
      - apply Qeq_bool_iff in Q.
        destruct reverse; apply andb_true_iff; split; apply Qle_bool_iff;
          rewrite Q; apply Qle_refl.
      - apply andb_false_iff.
        destruct (Qle_bool (CampaignAnalysis.performance_score x)
                           (CampaignAnalysis.performance_score a)) eqn:L1,
                 (Qle_bool (CampaignAnalysis.performance_score a)
                           (CampaignAnalysis.performance_score x)) eqn:L2;
          destruct reverse; auto.
        all: apply Qle_bool_iff in L1, L2;
          assert (CampaignAnalysis.performance_score a
                  == CampaignAnalysis.performance_score x)
            by (now apply Qle_antisym);
          apply Qeq_bool_iff in H; congruence. }
    rewrite !E. apply T.
Qed.

(** C5. [top_performers] is the first three elements of the stable
    descending sort by performance score and [underperformers] the first
    three of the stable ascending sort (equal scores keep their input
    order in both); they are taken independently and may overlap: for five
    campaigns scored 10, 20, 30, 40, 50 the top scores are 50, 40, 30, the
    bottom scores 10, 20, 30, and the campaign scored 30 is in both. *)
Theorem performers_are_first_three_of_stable_sorts :
  (forall xs : list CampaignAnalysis.t,
      exists descending ascending,
        Spec.stable_sort_by_score true xs descending
        /\ Spec.stable_sort_by_score false xs ascending)
  /\ (forall xs descending,
        Spec.stable_sort_by_score true xs descending ->
        top_performers_of xs = firstn 3 descending)
  /\ (forall xs ascending,
        Spec.stable_sort_by_score false xs ascending ->
        underperformers_of xs = firstn 3 ascending)
  /\ map CampaignAnalysis.performance_score
         (top_performers_of Spec.five_campaigns) = [50; 40; 30]
  /\ map CampaignAnalysis.performance_score
         (underperformers_of Spec.five_campaigns) = [10; 20; 30]
  /\ In (Spec.scored "c30" 30) (top_performers_of Spec.five_campaigns)
  /\ In (Spec.scored "c30" 30) (underperformers_of Spec.five_campaigns).
Proof.
  split; [|split; [|split]].
  - intro xs.
    exists (sorted xs CampaignAnalysis.performance_score true),
           (sorted xs CampaignAnalysis.performance_score false).
    split; apply sorted_is_stable_sort.
  - intros xs l S. unfold top_performers_of.
    now rewrite (stable_sort_by_score_unique true xs l S).
  - intros xs l S. unfold underperformers_of.
    now rewrite (stable_sort_by_score_unique false xs l S).
  - repeat split; vm_compute; tauto.
Qed.

(** Witness of C5: four campaigns already in descending order. *)
Lemma performers_are_first_three_of_stable_sorts_witness :
  let xs := [Spec.scored "c50" 50; Spec.scored "c40" 40;
             Spec.scored "c30" 30; Spec.scored "c20" 20] in
  Spec.stable_sort_by_score true xs xs
  /\ top_performers_of xs = firstn 3 xs.
Proof.
  cbv zeta.
  assert (S : Spec.stable_sort_by_score true
                [Spec.scored "c50" 50; Spec.scored "c40" 40;
                 Spec.scored "c30" 30; Spec.scored "c20" 20]
                [Spec.scored "c50" 50; Spec.scored "c40" 40;
                 Spec.scored "c30" 30; Spec.scored "c20" 20]).
  { split; [apply Permutation_refl|]. split; [|reflexivity].
    repeat (apply SSorted_cons || apply SSorted_nil
            || apply Forall_cons || apply Forall_nil);
      unfold Spec.ordered_by_score, Qle; simpl; lia. }
  split; [exact S|].
  exact (proj1 (proj2 performers_are_first_three_of_stable_sorts) _ _ S).
Defined.

(** Equal scores: the earlier campaign comes first in both selections. *)
Example performers_with_ties :
  let xs := [Spec.scored "a" 70; Spec.scored "b" 50;
             Spec.scored "c" 70; Spec.scored "d" 50] in
  map CampaignAnalysis.campaign_id (top_performers_of xs) = ["a"; "c"; "b"]
  /\ map CampaignAnalysis.campaign_id (underperformers_of xs)
     = ["b"; "d"; "a"].
Proof. split; reflexivity. Qed.

End PerformerFacts.

(** ** Action items *)

Module ActionItemFacts.

Import Analyzer PySort.

Lemma flat_map_app_perm {A B} (f g : A -> list B) l :
  Permutation (flat_map (fun a => f a ++ g a)%list l)
              (flat_map f l ++ flat_map g l).
Proof.
  induction l as [|a l IH]; simpl; [constructor|].
  rewrite <- !app_assoc. apply Permutation_app_head.
  apply perm_trans with (g a ++ flat_map f l ++ flat_map g l)%list.
  - now apply Permutation_app_head.
  - apply Permutation_app_swap_app.
Qed.

Lemma flat_map_optional {A B} (rule : A -> bool) (item : A -> B) l :
  flat_map (fun a => if rule a then [item a] else []) l
  = map item (filter rule l).
Proof.
  induction l as [|a l IH]; simpl; [reflexivity|].
  rewrite IH. now destruct (rule a).
Qed.

Lemma filter_all {A} (class : A -> bool) l :
  Forall (fun x => class x = true) l -> filter class l = l.
Proof.
  induction 1 as [|x l Hx F IH]; simpl; [reflexivity|].
  now rewrite Hx, IH.
Qed.

Lemma filter_none {A} (class : A -> bool) l :
  Forall (fun x => class x = false) l -> filter class l = [].
Proof.
  induction 1 as [|x l Hx F IH]; simpl; [reflexivity|].
  now rewrite Hx, IH.
Qed.

Lemma by_int_total {A} (key : A -> Z) x y :
  by_int key false x y = true \/ by_int key false y x = true.
Proof.
  unfold by_int. rewrite !Z.leb_le. lia.
Qed.

Lemma by_int_trans {A} (key : A -> Z) x y z :
  by_int key false x y = true -> by_int key false y z = true ->
  by_int key false x z = true.
Proof.
  unfold by_int. rewrite !Z.leb_le. lia.
Qed.

Lemma priority_rank_by_name x :
  priority_rank x = Spec.rank_of_priority (ActionItem.priority x).
Proof.
  unfold priority_rank, Spec.rank_of_priority, Dict.get_or, priority_order.
  simpl.
  destruct (String.eqb (ActionItem.priority x) "high"); [reflexivity|].
  destruct (String.eqb (ActionItem.priority x) "medium"); [reflexivity|].
  destruct (String.eqb (ActionItem.priority x) "low"); reflexivity.
Qed.

(** The sort step, on any list of items. *)

Lemma sort_by_priority_perm items :
  Permutation (sort_by_priority items) items.
Proof. apply PySortFacts.sort_perm. Qed.

Lemma sort_by_priority_ordered items :
  StronglySorted Spec.ordered_by_priority (sort_by_priority items).
Proof.
  eapply PerformerFacts.StronglySorted_impl;
    [|apply (PySortFacts.sort_sorted (by_int priority_rank false))].
  - intros x y. unfold by_int, Spec.ordered_by_priority.
    rewrite <- !priority_rank_by_name. apply Z.leb_le.
  - apply by_int_total.
  - apply by_int_trans.
Qed.

Lemma sort_by_priority_stable priority items :
  filter (Spec.has_priority priority) (sort_by_priority items)
  = filter (Spec.has_priority priority) items.
Proof.
  apply PySortFacts.filter_sort. intros x y.
  unfold Spec.has_priority. rewrite !String.eqb_eq. intros Ex Ey.
  unfold by_int. rewrite !priority_rank_by_name, Ex, Ey.
  apply Z.leb_refl.
Qed.

(** The items of a given rank. *)
Definition has_rank (rank : Z) (x : ActionItem.t) : bool :=
  Z.eqb (priority_rank x) rank.

Lemma sort_by_priority_unique items l :
  StronglySorted (fun x y => (priority_rank x <= priority_rank y)%Z) l ->
  Permutation l items ->
  (forall rank, filter (has_rank rank) l = filter (has_rank rank) items) ->
  l = sort_by_priority items.
Proof.
  intros S P T.
  apply PySortFacts.sort_unique.
  - apply by_int_total.
  - apply by_int_trans.
  - eapply PerformerFacts.StronglySorted_impl; [|exact S].
    intros x y. unfold by_int. apply Z.leb_le.
  - exact P.
  - intro x.
    assert (E : forall l',
               filter (PySortFacts.tie (by_int priority_rank false) x) l'
               = filter (has_rank (priority_rank x)) l').
    { intro l'. apply filter_ext. intro y.
      unfold PySortFacts.tie, by_int, has_rank.
      destruct (Z.eqb_spec (priority_rank y) (priority_rank x)) as [E|N].
      - rewrite E, Z.leb_refl. reflexivity.
      - apply andb_false_iff. rewrite !Z.leb_gt. lia. }
    rewrite !E. apply T.
Qed.

Lemma StronglySorted_app {A} (R : A -> A -> Prop) l1 l2 :
  StronglySorted R l1 -> StronglySorted R l2 ->
  (forall x y, In x l1 -> In y l2 -> R x y) ->
  StronglySorted R (l1 ++ l2).
Proof.
  intros S1 S2 C. induction S1 as [|x l1 S1 IH F]; simpl; [exact S2|].
  constructor.
  - apply IH. intros a b Ia Ib. apply C; [now right|exact Ib].
  - apply Forall_app. split; [exact F|].
    apply Forall_forall. intros y Iy. apply C; [now left|exact Iy].
Qed.

Lemma StronglySorted_uniform {A} (R : A -> A -> Prop) l :
  (forall x y, In x l -> In y l -> R x y) -> StronglySorted R l.
Proof.
  induction l as [|x l IH]; intro U; constructor.
  - apply IH. intros a b Ia Ib. apply U; now right.
  - apply Forall_forall. intros y Iy. apply U; [now left|now right].
Qed.

Section Items.

Variable thresholds : Thresholds.
Variable fmt2f : Q -> string.
Variable fmt0f : Q -> string.

Local Abbreviation collect :=
  (collect_action_items thresholds fmt2f fmt0f).
Local Abbreviation generate :=
  (_generate_action_items thresholds fmt2f fmt0f).
Local Abbreviation per_campaign :=
  (Spec.items_per_campaign thresholds fmt2f fmt0f).

(** Each loop appends, in campaign order, the items of the campaigns that
    meet its rule. *)
Lemma append_where_spec rule item analyses action_items :
  append_where rule item analyses action_items
  = (action_items ++ map item (filter rule analyses))%list.
Proof.
  unfold append_where. revert action_items.
  induction analyses as [|a l IH]; intro acc; simpl.
  - now rewrite app_nil_r.
  - rewrite IH. destruct (rule a); [|reflexivity].
    unfold append. now rewrite <- app_assoc.
Qed.

Lemma collect_by_rule analyses :
  collect analyses
  = (map (pause_item fmt2f) (filter pause_rule analyses)
     ++ map (review_item fmt2f) (filter review_rule analyses)
     ++ map (budget_item fmt2f fmt0f)
            (filter (budget_rule thresholds) analyses))%list.
Proof.
  unfold collect_action_items. cbv zeta.
  rewrite !append_where_spec. simpl. now rewrite <- app_assoc.
Qed.

Lemma collect_perm analyses :
  Permutation (collect analyses) (per_campaign analyses).
Proof.
  rewrite collect_by_rule. unfold Spec.items_per_campaign.
  apply Permutation_sym.
  unfold Spec.items_of_campaign.
  eapply perm_trans; [apply flat_map_app_perm|].
  rewrite flat_map_optional. apply Permutation_app_head.
  eapply perm_trans; [apply flat_map_app_perm|].
  now rewrite !flat_map_optional.
Qed.

Lemma filter_rank_map rank k (item : CampaignAnalysis.t -> ActionItem.t) l :
  (forall a, priority_rank (item a) = k) ->
  filter (has_rank rank) (map item l)
  = if Z.eqb k rank then map item l else [].
Proof.
  intro K. destruct (Z.eqb k rank) eqn:E.
  - apply filter_all. apply Forall_forall. intros x Ix.
    apply in_map_iff in Ix as (a & <- & _). unfold has_rank. now rewrite K.
  - apply filter_none. apply Forall_forall. intros x Ix.
    apply in_map_iff in Ix as (a & <- & _). unfold has_rank. now rewrite K.
Qed.

Lemma filter_rank_collect rank analyses :
  filter (has_rank rank) (collect analyses)
  = ((if Z.eqb 0 rank
      then map (pause_item fmt2f) (filter pause_rule analyses) else [])
     ++ (if Z.eqb 1 rank
         then map (review_item fmt2f) (filter review_rule analyses) else [])
     ++ (if Z.eqb 2 rank
         then map (budget_item fmt2f fmt0f)
                  (filter (budget_rule thresholds) analyses)
         else []))%list.
Proof.
  rewrite collect_by_rule, !filter_app.
  rewrite (filter_rank_map rank 0), (filter_rank_map rank 1),
          (filter_rank_map rank 2); reflexivity.
Qed.

Lemma filter_rank_items_of rank a :
  filter (has_rank rank) (Spec.items_of_campaign thresholds fmt2f fmt0f a)
  = ((if Z.eqb 0 rank && pause_rule a then [pause_item fmt2f a] else [])
     ++ (if Z.eqb 1 rank && review_rule a then [review_item fmt2f a] else [])
     ++ (if Z.eqb 2 rank && budget_rule thresholds a
         then [budget_item fmt2f fmt0f a] else []))%list.
Proof.
  unfold Spec.items_of_campaign. rewrite !filter_app.
  destruct (pause_rule a), (review_rule a), (budget_rule thresholds a);
    cbn [filter];
    change (has_rank rank (pause_item fmt2f a)) with (Z.eqb 0 rank);
    change (has_rank rank (review_item fmt2f a)) with (Z.eqb 1 rank);
    change (has_rank rank (budget_item fmt2f fmt0f a)) with (Z.eqb 2 rank);
    rewrite ?andb_true_r, ?andb_false_r; reflexivity.
Qed.

Lemma filter_rank_per_campaign rank analyses :
  filter (has_rank rank) (per_campaign analyses)
  = filter (has_rank rank) (collect analyses).
Proof.
  rewrite filter_rank_collect.
  induction analyses as [|a l IH].
  - cbn [Spec.items_per_campaign flat_map filter map].
    now destruct (Z.eqb 0 rank), (Z.eqb 1 rank), (Z.eqb 2 rank).
  - change (per_campaign (a :: l))
      with (Spec.items_of_campaign thresholds fmt2f fmt0f a
            ++ per_campaign l)%list.
    rewrite filter_app, IH, filter_rank_items_of. cbn [filter].
    destruct (Z.eqb_spec 0 rank), (Z.eqb_spec 1 rank), (Z.eqb_spec 2 rank);
      try lia;
      destruct (pause_rule a), (review_rule a), (budget_rule thresholds a);
      reflexivity.
Qed.

Lemma collect_ordered analyses :
  StronglySorted (fun x y => (priority_rank x <= priority_rank y)%Z)
                 (collect analyses).
Proof.
  rewrite collect_by_rule.
  repeat apply StronglySorted_app;
    try (apply StronglySorted_uniform);
    intros x y Ix Iy;
    rewrite ?in_app_iff in *; rewrite ?in_map_iff in *;
    repeat match goal with
           | H : exists _, _ |- _ => destruct H as (? & <- & _)
           | H : _ \/ _ |- _ => destruct H
           end; cbn; lia.
Qed.

(** The list the loops build is in priority order already: the sort
    returns it as it is. *)
Lemma generate_is_collect analyses : generate analyses = collect analyses.
Proof.
  unfold _generate_action_items. symmetry.
  apply sort_by_priority_unique.
  - apply collect_ordered.
  - apply Permutation_refl.
  - reflexivity.
Qed.

(** Generating campaign by campaign and sorting gives the same list. *)
Lemma generate_sorts_per_campaign analyses :
  generate analyses = sort_by_priority (per_campaign analyses).
Proof.
  rewrite generate_is_collect.
  apply sort_by_priority_unique.
  - apply collect_ordered.
  - apply collect_perm.
  - intro rank. symmetry. apply filter_rank_per_campaign.
Qed.

End Items.

(** The three rules, as conditions on the numbers. *)

Lemma pause_rule_spec a :
  pause_rule a = true
  <-> CampaignAnalysis.roas a < 1.0 /\ 100 < CampaignAnalysis.spend a.
Proof.
  unfold pause_rule.
  now rewrite andb_true_iff, PyNumFacts.lt_spec, PyNumFacts.gt_spec.
Qed.

Lemma review_rule_spec a :
  review_rule a = true
  <-> CampaignAnalysis.ctr a < 0.005 /\ 50 < CampaignAnalysis.spend a.
Proof.
  unfold review_rule.
  rewrite andb_true_iff, PyNumFacts.lt_spec, PyNumFacts.gt_spec.
  assert (E : 0.5 / 100 == 0.005) by reflexivity.
  now rewrite E.
Qed.

Lemma budget_rule_spec thresholds a :
  budget_rule thresholds a = true
  <-> good_roas thresholds < CampaignAnalysis.roas a
      /\ 80 < CampaignAnalysis.performance_score a.
Proof.
  unfold budget_rule.
  now rewrite andb_true_iff, !PyNumFacts.gt_spec.
Qed.

Lemma In_collect thresholds fmt2f fmt0f analyses x :
  In x (collect_action_items thresholds fmt2f fmt0f analyses)
  <-> exists a,
      In a analyses
      /\ ((pause_rule a = true /\ x = pause_item fmt2f a)
          \/ (review_rule a = true /\ x = review_item fmt2f a)
          \/ (budget_rule thresholds a = true
              /\ x = budget_item fmt2f fmt0f a)).
Proof.
  rewrite collect_by_rule, !in_app_iff, !in_map_iff. split.
  - intros [(a & <- & I)|[(a & <- & I)|(a & <- & I)]];
      apply filter_In in I as [I R]; exists a; tauto.
  - intros (a & I & [[R ->]|[[R ->]|[R ->]]]).
    + left. exists a. split; [reflexivity|]. apply filter_In. tauto.
    + right. left. exists a. split; [reflexivity|]. apply filter_In. tauto.
    + right. right. exists a. split; [reflexivity|]. apply filter_In. tauto.
Qed.

(** C6. The action-item list holds exactly the items of the three
    per-campaign rules (roas < 1.0 and spend > 100: high, pause_campaign;
    ctr < 0.005 and spend > 50: medium, review_creative; roas > good_roas
    and performance_score > 80: low, increase_budget), one campaign giving
    several items when several rules hold; it is in the order high, medium,
    low, items of equal priority keeping their generation order, and it is
    the stable sort by priority of the items generated campaign by
    campaign; the sort step turns the order [low, high] into [high, low]. *)
Theorem action_items_follow_rules_in_priority_order
    (thresholds : Thresholds) (fmt2f fmt0f : Q -> string) :
  (forall analyses x,
      In x (_generate_action_items thresholds fmt2f fmt0f analyses)
      <-> exists a,
          In a analyses
          /\ ((CampaignAnalysis.roas a < 1.0
               /\ 100 < CampaignAnalysis.spend a
               /\ x = pause_item fmt2f a)
              \/ (CampaignAnalysis.ctr a < 0.005
                  /\ 50 < CampaignAnalysis.spend a
                  /\ x = review_item fmt2f a)
              \/ (good_roas thresholds < CampaignAnalysis.roas a
                  /\ 80 < CampaignAnalysis.performance_score a
                  /\ x = budget_item fmt2f fmt0f a)))
  /\ (forall a,
        (ActionItem.priority (pause_item fmt2f a) = "high"
         /\ ActionItem.action (pause_item fmt2f a) = "pause_campaign")
        /\ (ActionItem.priority (review_item fmt2f a) = "medium"
            /\ ActionItem.action (review_item fmt2f a) = "review_creative")
        /\ (ActionItem.priority (budget_item fmt2f fmt0f a) = "low"
            /\ ActionItem.action (budget_item fmt2f fmt0f a)
               = "increase_budget"))
  /\ (forall analyses,
        Permutation
          (_generate_action_items thresholds fmt2f fmt0f analyses)
          (Spec.items_per_campaign thresholds fmt2f fmt0f analyses))
  /\ (forall analyses,
        StronglySorted Spec.ordered_by_priority
          (_generate_action_items thresholds fmt2f fmt0f analyses))
  /\ (forall analyses priority,
        filter (Spec.has_priority priority)
               (_generate_action_items thresholds fmt2f fmt0f analyses)
        = filter (Spec.has_priority priority)
                 (collect_action_items thresholds fmt2f fmt0f analyses))
  /\ (forall analyses,
        _generate_action_items thresholds fmt2f fmt0f analyses
        = sort_by_priority
            (Spec.items_per_campaign thresholds fmt2f fmt0f analyses))
  /\ (forall items,
        Permutation (sort_by_priority items) items
        /\ StronglySorted Spec.ordered_by_priority (sort_by_priority items)
        /\ forall priority,
            filter (Spec.has_priority priority) (sort_by_priority items)
            = filter (Spec.has_priority priority) items)
  /\ (forall low high,
        sort_by_priority [budget_item fmt2f fmt0f low; pause_item fmt2f high]
        = [pause_item fmt2f high; budget_item fmt2f fmt0f low]).
Proof.
  repeat apply conj.
  - intros analyses x. rewrite generate_is_collect, In_collect.
    split; intros (a & I & H); exists a; (split; [exact I|]).
    + rewrite pause_rule_spec, review_rule_spec, budget_rule_spec in H.
      tauto.
    + rewrite pause_rule_spec, review_rule_spec, budget_rule_spec.
      tauto.
  - intro a. repeat split.
  - intro analyses. rewrite generate_is_collect. apply collect_perm.
  - intro analyses. apply sort_by_priority_ordered.
  - intros analyses priority. apply sort_by_priority_stable.
  - intro analyses. apply generate_sorts_per_campaign.
  - intro items. repeat apply conj.
    + apply sort_by_priority_perm.
    + apply sort_by_priority_ordered.
    + intro priority. apply sort_by_priority_stable.
  - intros low high. reflexivity.
Qed.

(** Witness of C6: a campaign that loses money after a large spend and is
    hardly clicked gets a pause item and a review item. *)
Lemma action_items_follow_rules_in_priority_order_witness :
  let losing :=
    {| CampaignAnalysis.campaign_id := "1";
       CampaignAnalysis.campaign_name := "winter";
       CampaignAnalysis.spend := 200;
       CampaignAnalysis.impressions := 10000;
       CampaignAnalysis.clicks := 10;
       CampaignAnalysis.conversions := 1;
       CampaignAnalysis.conversion_value := 100;
       CampaignAnalysis.ctr := 0.001;
       CampaignAnalysis.cpc := 20;
       CampaignAnalysis.cpm := 20;
       CampaignAnalysis.roas := 0.5;
       CampaignAnalysis.status := "ACTIVE";
       CampaignAnalysis.days_running := 30;
       CampaignAnalysis.performance_score := 55;
       CampaignAnalysis.issues := [];
       CampaignAnalysis.recommendations := [] |} in
  let fmt := fun _ : Q => "" in
  map ActionItem.action
      (_generate_action_items ANALYSIS_THRESHOLDS fmt fmt [losing])
  = ["pause_campaign"; "review_creative"]
  /\ In (pause_item fmt losing)
        (_generate_action_items ANALYSIS_THRESHOLDS fmt fmt [losing]).
Proof.
  cbv zeta. split; [reflexivity|].
  apply (proj1 (action_items_follow_rules_in_priority_order
                  ANALYSIS_THRESHOLDS (fun _ => "") (fun _ => ""))).
  eexists. split; [left; reflexivity|].
  left. repeat split; unfold Qlt; simpl; lia.
Defined.

End ActionItemFacts.

(** ** The engine: one campaign, then the account *)

Module EngineFacts.

Import Analyzer.

Lemma bind_ok {A B} (m : result A) (k : A -> result B) b :
  bind m k = Ok b -> exists a, m = Ok a /\ k a = Ok b.
Proof.
  destruct m as [a|e]; simpl; [eauto|discriminate].
Qed.

(** Reading back an equation [... = Ok v] through the binds, tests and
    matches of a [try] body. *)
Ltac invert_ok H :=
  repeat first
    [ discriminate H
    | match type of H with
      | bind ?m _ = Ok _ =>
          let a := fresh "a" in
          let E := fresh "E" in
          destruct m as [a|?] eqn:E; cbn [bind] in H
      | (if ?c then _ else _) = Ok _ => destruct c eqn:?
      | match ?x with _ => _ end = Ok _ => destruct x eqn:?
      end ].

Section Engine.

Variable thresholds : Thresholds.
Variable fmt2f : Q -> string.
Variable fmt0f : Q -> string.
Variable get_campaigns : string -> string -> CampaignsResponse.t.
Variable get_insights : string -> string -> Dict.t PyVal.
Variable parse_float : string -> option Q.
Variable parse_int : string -> option Z.
Variable elapsed_days : string -> result Z.
Variable str_of_exc : PyExc -> string.

Local Abbreviation analyze_try :=
  (_analyze_single_campaign_try thresholds get_insights
     parse_float parse_int elapsed_days).
Local Abbreviation analyze :=
  (_analyze_single_campaign thresholds get_insights
     parse_float parse_int elapsed_days).

Lemma estimate_days_running_le created_date :
  (estimate_days_running elapsed_days created_date <= 30)%Z.
Proof.
  unfold estimate_days_running.
  destruct (Py.truthy_str created_date); [|lia].
  destruct (elapsed_days created_date) as [days|e]; simpl; lia.
Qed.

Lemma estimate_days_running_default created_date :
  Py.truthy_str created_date = false
  \/ (exists e, elapsed_days created_date = Raise e) ->
  estimate_days_running elapsed_days created_date = 30%Z.
Proof.
  unfold estimate_days_running. intros [-> |[e E]]; [reflexivity|].
  rewrite E. now destruct (Py.truthy_str created_date).
Qed.

Lemma estimate_days_running_elapsed created_date days :
  Py.truthy_str created_date = true ->
  elapsed_days created_date = Ok days ->
  estimate_days_running elapsed_days created_date = Z.min days 30.
Proof.
  unfold estimate_days_running. now intros -> ->.
Qed.

Lemma analyze_some_try campaign time_range analysis :
  analyze campaign time_range = Some analysis ->
  analyze_try campaign time_range = Ok (Some analysis).
Proof.
  unfold _analyze_single_campaign.
  destruct (analyze_try campaign time_range) as [r|e];
    [now intros ->|discriminate].
Qed.

(** What a produced analysis records of the days running. *)
Lemma analyze_days_running campaign time_range analysis :
  analyze campaign time_range = Some analysis ->
  CampaignAnalysis.days_running analysis
  = estimate_days_running elapsed_days
      (Dict.get_or campaign "created_time" "").
Proof.
  intro H. apply analyze_some_try in H.
  unfold _analyze_single_campaign_try in H.
  invert_ok H.
  injection H as <-. reflexivity.
Qed.

(** *** Campaigns that are skipped *)





(** Insights that come as a list of rows: [insights.keys()] raises. *)
Lemma skip_listed_insights campaign time_range campaign_id rows :
  Dict.get campaign "id" = Some campaign_id ->
  Dict.get_or (get_insights campaign_id time_range) "insights" (PyDict [])
  = PyList rows ->
  analyze campaign time_range = None.
Proof.
  unfold _analyze_single_campaign, _analyze_single_campaign_try.
  intros -> ->.
  destruct (negb (Py.truthy_str campaign_id)); [reflexivity|].
  destruct (negb (Py.truthy _)); [reflexivity|].
  destruct rows; reflexivity.
Qed.

(** *** The loop over the campaigns *)

(** The analyses the loop keeps, in campaign order. *)
Definition kept (time_range : string) (campaigns : list (Dict.t string))
    : list CampaignAnalysis.t :=
  flat_map (fun campaign =>
              match analyze campaign time_range with
              | Some analysis => [analysis]
              | None => []
              end) campaigns.

Lemma loop_spec time_range campaigns :
  forall campaign_analyses total_spend total_conversions,
    fold_left
      (analyze_each thresholds get_insights parse_float parse_int
         elapsed_days time_range)
      campaigns (campaign_analyses, total_spend, total_conversions)
    = ((campaign_analyses ++ kept time_range campaigns)%list,
       fold_left Qplus
         (map CampaignAnalysis.spend (kept time_range campaigns))
         total_spend,
       fold_left Z.add
         (map CampaignAnalysis.conversions (kept time_range campaigns))
         total_conversions).
Proof.
  induction campaigns as [|c l IH]; intros acc s n; simpl.
  - now rewrite app_nil_r.
  - destruct (analyze c time_range) as [a|]; simpl; rewrite IH.
    + unfold append. now rewrite <- app_assoc.
    + reflexivity.
Qed.





Lemma kept_In time_range campaigns analysis :
  In analysis (kept time_range campaigns)
  <-> exists campaign,
      In campaign campaigns /\ analyze campaign time_range = Some analysis.
Proof.
  unfold kept. rewrite in_flat_map. split.
  - intros (c & I & H). exists c. split; [exact I|].
    destruct (analyze c time_range) as [a|]; simpl in H; [|tauto].
    destruct H as [->|[]]. reflexivity.
  - intros (c & I & H). exists c. split; [exact I|].
    rewrite H. now left.
Qed.

(** *** The account-level result *)

Local Abbreviation account_try :=
  (analyze_account_campaigns_try thresholds fmt2f fmt0f
     get_campaigns get_insights parse_float parse_int elapsed_days).
Local Abbreviation account :=
  (analyze_account_campaigns thresholds fmt2f fmt0f
     get_campaigns get_insights parse_float parse_int elapsed_days
     str_of_exc).

(** The report over the analyses that were kept. *)
Definition report_of (campaign_analyses : list CampaignAnalysis.t)
    : AccountAnalysis.t :=
  let average_roas :=
    sum_roas campaign_analyses
    / inject_Z (Z.of_nat (length campaign_analyses)) in
  {| AccountAnalysis.total_spend :=
       fold_left Qplus (map CampaignAnalysis.spend campaign_analyses) 0;
     AccountAnalysis.total_conversions :=
       fold_left Z.add
         (map CampaignAnalysis.conversions campaign_analyses) 0%Z;
     AccountAnalysis.average_roas := average_roas;
     AccountAnalysis.account_health :=
       _determine_account_health thresholds average_roas campaign_analyses;
     AccountAnalysis.top_performers := top_performers_of campaign_analyses;
     AccountAnalysis.underperformers :=
       underperformers_of campaign_analyses;
     AccountAnalysis.recommendations :=
       _generate_account_recommendations thresholds campaign_analyses;
     AccountAnalysis.action_items :=
       _generate_action_items thresholds fmt2f fmt0f campaign_analyses |}.

Definition outcome (account_id time_range : string) : Response.t :=
  let campaigns_response := get_campaigns account_id "ACTIVE" in
  let campaigns := CampaignsResponse.campaigns campaigns_response in
  if negb (CampaignsResponse.success campaigns_response) then
    Response.failure
      ("Failed to get campaigns: "
       ++ match CampaignsResponse.error campaigns_response with
          | Some e => e
          | None => "None"
          end)
  else if is_empty campaigns then
    Response.ok
      (Response.Message "No active campaigns found to analyze"
         0 0 0 "No Data")
  else if is_empty (kept time_range campaigns) then
    Response.ok
      (Response.Message "No campaign data available for analysis"
         0 0 0 "No Data")
  else
    Response.ok
      (Response.Report
         (_format_account_analysis fmt2f fmt0f
            (report_of (kept time_range campaigns)))).

(** The code under the [try] of [analyze_account_campaigns] always
    returns: the one division it makes is by a non-zero length. *)
Lemma account_try_spec account_id time_range :
  account_try account_id time_range = Ok (outcome account_id time_range).
Proof.
  unfold analyze_account_campaigns_try, outcome. cbv zeta.
  destruct (negb (CampaignsResponse.success
                    (get_campaigns account_id "ACTIVE"))); [reflexivity|].
  destruct (is_empty (CampaignsResponse.campaigns
                        (get_campaigns account_id "ACTIVE")));
    [reflexivity|].
  rewrite loop_spec. cbn [app].
  destruct (kept time_range
              (CampaignsResponse.campaigns
                 (get_campaigns account_id "ACTIVE"))) as [|a l] eqn:K;
    [reflexivity|].
  cbn [is_empty negb].
  unfold truediv. rewrite PyNumFacts.eq_inject_Z.
  replace (Z.of_nat (length (a :: l)) =? 0)%Z with false
    by (symmetry; apply Z.eqb_neq; simpl length; lia).
  reflexivity.
Qed.

Lemma account_spec account_id time_range :
  account account_id time_range = outcome account_id time_range.
Proof.
  unfold analyze_account_campaigns. now rewrite account_try_spec.
Qed.



Lemma account_report account_id time_range :
  CampaignsResponse.success (get_campaigns account_id "ACTIVE") = true ->
  kept time_range
       (CampaignsResponse.campaigns (get_campaigns account_id "ACTIVE"))
  <> [] ->
  account account_id time_range
  = Response.ok
      (Response.Report
         (_format_account_analysis fmt2f fmt0f
            (report_of
               (kept time_range
                  (CampaignsResponse.campaigns
                     (get_campaigns account_id "ACTIVE")))))).
Proof.
  intros S K. rewrite account_spec. unfold outcome. cbv zeta.
  rewrite S. cbn [negb].
  destruct (CampaignsResponse.campaigns (get_campaigns account_id "ACTIVE"))
    as [|c cs]; [now elim K|].
  cbn [is_empty].
  destruct (kept time_range (c :: cs)); [now elim K|reflexivity].
Qed.

(** C4, as the code has it.  The days running of an analysed campaign
    never exceed 30, whatever the requested time range: the estimate reads
    the campaign's creation date only, is 30 when that date is missing or
    empty, and is otherwise capped at 30. *)
Theorem days_running_never_exceeds_30 campaign time_range analysis :
  analyze campaign time_range = Some analysis ->
  (CampaignAnalysis.days_running analysis <= 30)%Z
  /\ CampaignAnalysis.days_running analysis
     = estimate_days_running elapsed_days
         (Dict.get_or campaign "created_time" "")
  /\ (Py.truthy_str (Dict.get_or campaign "created_time" "") = false ->
      CampaignAnalysis.days_running analysis = 30%Z).
Proof.
  intro H. rewrite (analyze_days_running _ _ _ H).
  split; [apply estimate_days_running_le|].
  split; [reflexivity|].
  intro E. apply estimate_days_running_default. now left.
Qed.


End Engine.

(** C4 as stated fails: asked for the last seven days, a campaign without
    a creation date is reported as running for 30 days. *)
Lemma days_running_exceeds_requested_window :
  exists analysis window,
    In "last_7d" Spec.TIME_RANGES
    /\ Spec.window_days "last_7d" = Some window
    /\ Scenario.analyze Scenario.spring "last_7d" = Some analysis
    /\ (window < CampaignAnalysis.days_running analysis)%Z.
Proof.
  do 2 eexists. split; [simpl; tauto|].
  split; [reflexivity|].
  split; [vm_compute; reflexivity|].
  reflexivity.
Qed.

(** Witness of C4: the campaign of the scenario, over the last 30 days. *)
Lemma days_running_never_exceeds_30_witness :
  exists analysis,
    Scenario.analyze Scenario.spring "last_30d" = Some analysis
    /\ (CampaignAnalysis.days_running analysis <= 30)%Z.
Proof.
  destruct (Scenario.analyze Scenario.spring "last_30d") as [analysis|] eqn:E;
    [|vm_compute in E; discriminate E].
  exists analysis. split; [reflexivity|].
  exact (proj1 (days_running_never_exceeds_30
                  ANALYSIS_THRESHOLDS Scenario.get_insights
                  Scenario.parse_float Scenario.parse_int
                  Scenario.elapsed_days
                  Scenario.spring "last_30d" analysis E)).
Defined.


(** The other account of the scenario: two campaigns are skipped and the
    report is that of the third alone. *)
Example one_usable_campaign :
  Response.success (Scenario.analyze_account "act_2" "last_7d") = true
  /\ kept ANALYSIS_THRESHOLDS Scenario.get_insights Scenario.parse_float
          Scenario.parse_int Scenario.elapsed_days "last_7d"
          [Scenario.broken; Scenario.spring; Scenario.nameless]
     = match Scenario.analyze Scenario.spring "last_7d" with
       | Some analysis => [analysis]
       | None => []
       end.
Proof. split; reflexivity. Qed.

End EngineFacts.

(** * Part III: further properties of the analyzer *)

(** ** The shape of the issue list *)

Module IssueShape.

Import Analyzer.

(** The tags, in the order the rules are tried. *)
Definition ALL_TAGS : list string :=
  [NEGATIVE_ROI; LOW_CTR; HIGH_CPC; LOW_CONVERSIONS; NO_SPEND].

Section Issues.

Variable thresholds : Thresholds.

Lemma zero_spend_not_above spend bound :
  PyNum.eq spend 0 = true -> 0 <= bound -> PyNum.gt spend bound = false.
Proof.
  intros Z B. apply PyNumFacts.eq_spec in Z.
  destruct (PyNum.gt spend bound) eqn:G; [|reflexivity].
  apply PyNumFacts.gt_spec in G. rewrite Z in G. exfalso. lra.
Qed.

(** The issue list is the fixed tag order restricted to the tags that
    were detected: tags come in detection order, none twice, and never
    all five, since the no-spend tag excludes the three tags that need a
    spend. *)
Theorem issues_keep_detection_order
    spend roas ctr cpc conversions days_running :
  let issues :=
    _identify_campaign_issues thresholds
      spend roas ctr cpc conversions days_running in
  issues = filter (fun tag => Py.In_list tag issues) ALL_TAGS
  /\ NoDup issues
  /\ (length issues <= 4)%nat.
Proof.
  cbv zeta. rewrite IssueFacts.issues_by_rule.
  destruct (PyNum.eq spend 0) eqn:Z.
  - rewrite (zero_spend_not_above spend 50 Z) by lra.
    rewrite (zero_spend_not_above spend 25 Z) by lra.
    rewrite (zero_spend_not_above spend 100 Z) by lra.
    rewrite !andb_false_r.
    destruct ((conversions <? low_conversions thresholds)%Z
              && (days_running >? 7)%Z);
      (split; [reflexivity|]); (split; [|simpl; lia]);
      repeat constructor; simpl; intuition discriminate.
  - destruct (PyNum.lt roas 1.0 && PyNum.gt spend 50),
             (PyNum.lt ctr (0.5 / 100) && PyNum.gt spend 25),
             (PyNum.gt cpc (high_cpc thresholds) && PyNum.gt spend 100),
             ((conversions <? low_conversions thresholds)%Z
              && (days_running >? 7)%Z);
      (split; [reflexivity|]); (split; [|simpl; lia]);
      repeat constructor; simpl; intuition discriminate.
Qed.

(** Without spend the only tags are no_spend and, for a campaign older
    than a week with few conversions, low_conversions before it. *)
Theorem zero_spend_issues roas ctr cpc conversions days_running spend :
  spend == 0 ->
  _identify_campaign_issues thresholds
    spend roas ctr cpc conversions days_running
  = if (conversions <? low_conversions thresholds)%Z
       && (days_running >? 7)%Z
    then [LOW_CONVERSIONS; NO_SPEND]
    else [NO_SPEND].
Proof.
  intro Z. apply PyNumFacts.eq_spec in Z.
  rewrite IssueFacts.issues_by_rule, Z.
  rewrite (zero_spend_not_above spend 50 Z) by lra.
  rewrite (zero_spend_not_above spend 25 Z) by lra.
  rewrite (zero_spend_not_above spend 100 Z) by lra.
  rewrite !andb_false_r.
  now destruct ((conversions <? low_conversions thresholds)%Z
                && (days_running >? 7)%Z).
Qed.

(** A campaign that has run for a week or less is never flagged for low
    conversions, however few it has. *)
Theorem young_campaign_not_flagged_low_conversions
    spend roas ctr cpc conversions days_running :
  (days_running <= 7)%Z ->
  Py.In_list LOW_CONVERSIONS
    (_identify_campaign_issues thresholds
       spend roas ctr cpc conversions days_running)
  = false.
Proof.
  intro D. rewrite IssueFacts.issues_by_rule.
  replace (days_running >? 7)%Z with false
    by (symmetry; rewrite Z.gtb_ltb; apply Z.ltb_ge; exact D).
  rewrite andb_false_r.
  repeat match goal with |- context [if ?c then _ else _] => destruct c end;
    reflexivity.
Qed.

End Issues.

(** Witness: the no-spend scenario of a campaign created a month ago. *)
Lemma zero_spend_issues_witness :
  0 == 0
  /\ _identify_campaign_issues ANALYSIS_THRESHOLDS 0 0 0 0 0 30
     = [LOW_CONVERSIONS; NO_SPEND].
Proof.
  split; [reflexivity|].
  exact (zero_spend_issues ANALYSIS_THRESHOLDS 0 0 0 0%Z 30%Z 0
           (Qeq_refl 0)).
Defined.

Lemma young_campaign_not_flagged_low_conversions_witness :
  (3 <= 7)%Z
  /\ Py.In_list LOW_CONVERSIONS
       (_identify_campaign_issues ANALYSIS_THRESHOLDS 500 0.5 0.001 4 0 3)
     = false.
Proof.
  assert (D : (3 <= 7)%Z) by lia.
  split; [exact D|].
  exact (young_campaign_not_flagged_low_conversions ANALYSIS_THRESHOLDS
           500 0.5 0.001 4 0%Z 3%Z D).
Defined.

End IssueShape.

(** ** The shape of the campaign recommendations *)

Module RecommendationShape.

Import Analyzer.




End RecommendationShape.

(** ** The score grows with the metrics *)

Module ScoreMonotone.

Import Analyzer.

Lemma gt_false a b : PyNum.gt a b = false <-> a <= b.
Proof.
  unfold PyNum.gt. rewrite negb_false_iff. apply Qle_bool_iff.
Qed.

(** Turn the hypotheses on float comparisons into inequalities. *)
Ltac float_facts :=
  repeat match goal with
         | H : PyNum.ge _ _ = true |- _ => apply PyNumFacts.ge_spec in H
         | H : PyNum.ge _ _ = false |- _ => apply PyNumFacts.ge_false in H
         | H : PyNum.le _ _ = true |- _ => apply PyNumFacts.le_spec in H
         | H : PyNum.le _ _ = false |- _ => apply PyNumFacts.le_false in H
         | H : PyNum.gt _ _ = true |- _ => apply PyNumFacts.gt_spec in H
         | H : PyNum.gt _ _ = false |- _ => apply gt_false in H
         end.

Lemma roas_term_mono thresholds r1 r2 :
  r1 <= r2 ->
  (ScoreFacts.roas_term thresholds r1
   <= ScoreFacts.roas_term thresholds r2)%Z.
Proof.
  intro L. unfold ScoreFacts.roas_term.
  repeat match goal with
         | |- context [if ?c then _ else _] => destruct c eqn:?
         end;
    try lia; float_facts; exfalso; lra.
Qed.

Lemma ctr_term_mono thresholds c1 c2 :
  c1 <= c2 ->
  (ScoreFacts.ctr_term thresholds c1 <= ScoreFacts.ctr_term thresholds c2)%Z.
Proof.
  intro L. unfold ScoreFacts.ctr_term.
  generalize (good_ctr thresholds / 100). intro good.
  repeat match goal with
         | |- context [if ?c then _ else _] => destruct c eqn:?
         end;
    try lia; float_facts; exfalso; lra.
Qed.

Lemma conversions_bucket_mono n1 n2 :
  (n1 <= n2)%Z ->
  (Spec.conversions_bucket n1 <= Spec.conversions_bucket n2)%Z.
Proof.
  intro L. unfold Spec.conversions_bucket.
  repeat match goal with
         | |- context [(?a >=? ?b)%Z] =>
             let E := fresh "E" in
             destruct (a >=? b)%Z eqn:E;
             [apply Z.geb_le in E | rewrite Z.geb_leb in E;
                                    apply Z.leb_gt in E]
         end; lia.
Qed.

(** More conversions for the same spend cost less apiece. *)
Lemma cost_per_conversion_anti spend n1 n2 :
  0 < spend -> (0 < n1)%Z -> (n1 <= n2)%Z ->
  spend / inject_Z n2 <= spend / inject_Z n1.
Proof.
  intros S P L.
  assert (P1 : 0 < inject_Z n1)
    by (change 0 with (inject_Z 0); rewrite <- Zlt_Qlt; exact P).
  assert (P2 : 0 < inject_Z n2)
    by (change 0 with (inject_Z 0); rewrite <- Zlt_Qlt; lia).
  assert (L' : inject_Z n1 <= inject_Z n2) by (rewrite <- Zle_Qle; exact L).
  apply Qle_shift_div_r; [exact P2|].
  assert (E : spend / inject_Z n1 * inject_Z n2
              == spend * (inject_Z n2 / inject_Z n1))
    by (field; intro Z; rewrite Z in P1; lra).
  rewrite E.
  assert (1 <= inject_Z n2 / inject_Z n1)
    by (apply Qle_shift_div_l; [exact P1|lra]).
  nra.
Qed.

Lemma efficiency_bucket_mono spend n1 n2 :
  (n1 <= n2)%Z ->
  (Spec.efficiency_bucket spend n1 <= Spec.efficiency_bucket spend n2)%Z.
Proof.
  intro L. unfold Spec.efficiency_bucket.
  destruct (PyNum.gt spend 0) eqn:S; cbn [andb]; [|lia].
  apply PyNumFacts.gt_spec in S.
  destruct (n1 >? 0)%Z eqn:P1.
  - apply Z.gtb_lt in P1.
    replace (n2 >? 0)%Z with true by (symmetry; apply Z.gtb_lt; lia).
    pose proof (cost_per_conversion_anti spend n1 n2 S P1 L) as C.
    cbv zeta.
    repeat match goal with
           | |- context [if ?c then _ else _] => destruct c eqn:?
           end;
      try lia; float_facts; exfalso; lra.
  - cbv zeta.
    repeat match goal with
           | |- context [if ?c then _ else _] => destruct c
           end; lia.
Qed.

(** The score never drops when the ROAS, the click-through rate or the
    number of conversions rises, the other inputs being equal and the
    number of conversions being within the range of a float. *)
Theorem score_grows_with_metrics thresholds :
  (forall spend ctr conversions roas1 roas2,
      (conversions < FLOAT_OVERFLOW)%Z ->
      roas1 <= roas2 ->
      exists score1 score2,
        _calculate_performance_score thresholds spend roas1 ctr conversions
        = Ok score1
        /\ _calculate_performance_score thresholds
             spend roas2 ctr conversions = Ok score2
        /\ (score1 <= score2)%Z)
  /\ (forall spend roas conversions ctr1 ctr2,
        (conversions < FLOAT_OVERFLOW)%Z ->
        ctr1 <= ctr2 ->
        exists score1 score2,
          _calculate_performance_score thresholds
            spend roas ctr1 conversions = Ok score1
          /\ _calculate_performance_score thresholds
               spend roas ctr2 conversions = Ok score2
          /\ (score1 <= score2)%Z)
  /\ (forall spend roas ctr conversions1 conversions2,
        (conversions1 <= conversions2)%Z ->
        (conversions2 < FLOAT_OVERFLOW)%Z ->
        exists score1 score2,
          _calculate_performance_score thresholds
            spend roas ctr conversions1 = Ok score1
          /\ _calculate_performance_score thresholds
               spend roas ctr conversions2 = Ok score2
          /\ (score1 <= score2)%Z).
Proof.
  repeat apply conj; intros; do 2 eexists;
    (split; [apply ScoreFacts.score_as_sum; lia|]);
    (split; [apply ScoreFacts.score_as_sum; lia|]).
  - pose proof (roas_term_mono thresholds roas1 roas2 H0). lia.
  - pose proof (ctr_term_mono thresholds ctr1 ctr2 H0). lia.
  - pose proof (conversions_bucket_mono conversions1 conversions2 H).
    pose proof (efficiency_bucket_mono spend conversions1 conversions2 H).
    lia.
Qed.

(** Witness: from 4 to 12 conversions on a spend of 300, which moves the
    score from 80 to 95. *)
Lemma score_grows_with_metrics_witness :
  (4 <= 12)%Z
  /\ (12 < FLOAT_OVERFLOW)%Z
  /\ _calculate_performance_score ANALYSIS_THRESHOLDS 300 1.5 0.012 4
     = Ok 80%Z
  /\ _calculate_performance_score ANALYSIS_THRESHOLDS 300 1.5 0.012 12
     = Ok 95%Z
  /\ exists score1 score2,
      _calculate_performance_score ANALYSIS_THRESHOLDS 300 1.5 0.012 4
      = Ok score1
      /\ _calculate_performance_score ANALYSIS_THRESHOLDS 300 1.5 0.012 12
         = Ok score2
      /\ (score1 <= score2)%Z.
Proof.
  assert (L : (4 <= 12)%Z) by lia.
  assert (B : (12 < FLOAT_OVERFLOW)%Z) by reflexivity.
  split; [exact L|]. split; [exact B|].
  split; [reflexivity|]. split; [reflexivity|].
  exact (proj2 (proj2 (score_grows_with_metrics ANALYSIS_THRESHOLDS))
           300 1.5 0.012 4%Z 12%Z L B).
Defined.

End ScoreMonotone.

(** ** How many action items a campaign can get *)

Module ActionItemBounds.

Import Analyzer.

Lemma three_filters_le {A} (p q r : A -> bool) l :
  (length (filter p l) + length (filter q l) + length (filter r l)
   <= 3 * length l)%nat.
Proof.
  induction l as [|a l IH]; simpl; [lia|].
  destruct (p a), (q a), (r a); simpl; lia.
Qed.

Lemma exclusive_filters_le {A} (p q r : A -> bool) l :
  (forall a, p a && r a = false) ->
  (length (filter p l) + length (filter q l) + length (filter r l)
   <= 2 * length l)%nat.
Proof.
  intro X. induction l as [|a l IH]; simpl; [lia|].
  specialize (X a).
  destruct (p a), (q a), (r a); simpl in *; try discriminate; lia.
Qed.

Lemma length_generate thresholds fmt2f fmt0f analyses :
  length (_generate_action_items thresholds fmt2f fmt0f analyses)
  = (length (filter pause_rule analyses)
     + length (filter review_rule analyses)
     + length (filter (budget_rule thresholds) analyses))%nat.
Proof.
  rewrite ActionItemFacts.generate_is_collect.
  rewrite ActionItemFacts.collect_by_rule.
  rewrite !length_app, !length_map. lia.
Qed.

(** When the good-ROAS threshold is at least 1 (it is 3.0 by default), no
    campaign meets both the pause rule and the budget rule, so a campaign
    is never told both to pause and to spend more, and [n] campaigns give
    at most [2 n] action items; whatever the thresholds they give at most
    [3 n]. *)
Theorem pause_and_budget_exclude_each_other thresholds fmt2f fmt0f :
  1 <= good_roas thresholds ->
  (forall analysis,
      pause_rule analysis && budget_rule thresholds analysis = false)
  /\ (forall analyses,
        (length (_generate_action_items thresholds fmt2f fmt0f analyses)
         <= 2 * length analyses)%nat).
Proof.
  intro G.
  assert (X : forall analysis,
             pause_rule analysis && budget_rule thresholds analysis = false).
  { intro a. unfold pause_rule, budget_rule.
    destruct (PyNum.lt (CampaignAnalysis.roas a) 1.0) eqn:L;
      [|reflexivity].
    destruct (PyNum.gt (CampaignAnalysis.roas a) (good_roas thresholds))
      eqn:B; [|now rewrite andb_false_r].
    apply PyNumFacts.lt_spec in L. apply PyNumFacts.gt_spec in B.
    exfalso. lra. }
  split; [exact X|].
  intro analyses. rewrite length_generate.
  now apply exclusive_filters_le.
Qed.

Theorem at_most_three_items_per_campaign thresholds fmt2f fmt0f analyses :
  (length (_generate_action_items thresholds fmt2f fmt0f analyses)
   <= 3 * length analyses)%nat.
Proof.
  rewrite length_generate. apply three_filters_le.
Qed.

Lemma pause_and_budget_exclude_each_other_witness :
  1 <= good_roas ANALYSIS_THRESHOLDS
  /\ (length (_generate_action_items ANALYSIS_THRESHOLDS
                (fun _ => "") (fun _ => "")
                [Spec.scored "a" 90; Spec.scored "b" 60])
      <= 2 * 2)%nat.
Proof.
  assert (G : 1 <= good_roas ANALYSIS_THRESHOLDS)
    by (unfold Qle; simpl; lia).
  split; [exact G|].
  exact (proj2 (pause_and_budget_exclude_each_other ANALYSIS_THRESHOLDS
                  (fun _ => "") (fun _ => "") G)
           [Spec.scored "a" 90; Spec.scored "b" 60]).
Defined.

End ActionItemBounds.

(** ** Top performers and underperformers: sizes and extremes *)

Module PerformerBounds.

Import Analyzer PySort.

Lemma sorted_head_extreme {A} (key : A -> Q) reverse l top rest :
  sorted l key reverse = top :: rest ->
  In top l /\ forall a, In a l -> by_float key reverse top a = true.
Proof.
  intro E.
  pose proof (PerformerFacts.sorted_perm key reverse l) as P.
  pose proof (PerformerFacts.sorted_ordered key reverse l) as S.
  rewrite E in P, S. split.
  - eapply Permutation_in; [exact P|now left].
  - intros a I.
    apply (Permutation_in _ (Permutation_sym P)) in I.
    destruct I as [<-|I].
    + destruct (PerformerFacts.by_float_total key reverse top top);
        assumption.
    + inversion S as [|? ? _ F]; subst.
      rewrite Forall_forall in F. now apply F.
Qed.

Lemma firstn_perm_short {A} (l l' : list A) n :
  Permutation l' l -> (length l <= n)%nat -> Permutation (firstn n l') l.
Proof.
  intros P L. rewrite firstn_all2; [exact P|].
  rewrite (Permutation_length P). exact L.
Qed.

(** Each selection holds [min 3 n] of the [n] campaigns, all of them
    taken from the input; the first top performer has the highest score
    of all and the first underperformer the lowest; with three campaigns
    or fewer every campaign is listed in both selections. *)
Theorem performers_sizes_and_extremes (xs : list CampaignAnalysis.t) :
  (length (top_performers_of xs) = Nat.min 3 (length xs)
   /\ length (underperformers_of xs) = Nat.min 3 (length xs))
  /\ (forall a, In a (top_performers_of xs) -> In a xs)
  /\ (forall a, In a (underperformers_of xs) -> In a xs)
  /\ (forall top rest,
        top_performers_of xs = top :: rest ->
        forall a, In a xs ->
                  CampaignAnalysis.performance_score a
                  <= CampaignAnalysis.performance_score top)
  /\ (forall bottom rest,
        underperformers_of xs = bottom :: rest ->
        forall a, In a xs ->
                  CampaignAnalysis.performance_score bottom
                  <= CampaignAnalysis.performance_score a)
  /\ ((length xs <= 3)%nat ->
      Permutation (top_performers_of xs) xs
      /\ Permutation (underperformers_of xs) xs).
Proof.
  unfold top_performers_of, underperformers_of.
  pose proof (PerformerFacts.sorted_perm
                CampaignAnalysis.performance_score true xs) as Pt.
  pose proof (PerformerFacts.sorted_perm
                CampaignAnalysis.performance_score false xs) as Pu.
  repeat apply conj.
  - now rewrite length_firstn, (Permutation_length Pt).
  - now rewrite length_firstn, (Permutation_length Pu).
  - intros a I. apply (Permutation_in _ Pt).
    rewrite <- (firstn_skipn 3). apply in_or_app. now left.
  - intros a I. apply (Permutation_in _ Pu).
    rewrite <- (firstn_skipn 3). apply in_or_app. now left.
  - intros top rest E a I.
    destruct (sorted xs CampaignAnalysis.performance_score true)
      as [|t l] eqn:S; [discriminate|].
    injection E as -> _.
    destruct (sorted_head_extreme _ _ _ _ _ S) as [_ M].
    apply PyNumFacts.ge_spec. exact (M a I).
  - intros bottom rest E a I.
    destruct (sorted xs CampaignAnalysis.performance_score false)
      as [|t l] eqn:S; [discriminate|].
    injection E as -> _.
    destruct (sorted_head_extreme _ _ _ _ _ S) as [_ M].
    apply PyNumFacts.le_spec. exact (M a I).
  - intro L. split; now apply firstn_perm_short.
Qed.

Lemma performers_sizes_and_extremes_witness :
  (length [Spec.scored "a" 70; Spec.scored "b" 90] <= 3)%nat
  /\ Permutation
       (top_performers_of [Spec.scored "a" 70; Spec.scored "b" 90])
       [Spec.scored "a" 70; Spec.scored "b" 90]
  /\ Permutation
       (underperformers_of [Spec.scored "a" 70; Spec.scored "b" 90])
       [Spec.scored "a" 70; Spec.scored "b" 90].
Proof.
  assert (L : (length [Spec.scored "a" 70; Spec.scored "b" 90] <= 3)%nat)
    by (simpl; lia).
  split; [exact L|].
  exact (proj2 (proj2 (proj2 (proj2 (proj2
           (performers_sizes_and_extremes
              [Spec.scored "a" 70; Spec.scored "b" 90]))))) L).
Defined.

(** When all campaigns have the same score both selections are the first
    three campaigns of the input, however many campaigns there are. *)
Theorem equal_scores_select_the_same_campaigns
    (xs : list CampaignAnalysis.t) :
  (forall a b, In a xs -> In b xs ->
               CampaignAnalysis.performance_score a
               == CampaignAnalysis.performance_score b) ->
  top_performers_of xs = firstn 3 xs
  /\ underperformers_of xs = firstn 3 xs.
Proof.
  intro E.
  assert (S : forall reverse, Spec.stable_sort_by_score reverse xs xs).
  { intro reverse. split; [apply Permutation_refl|]. split; [|reflexivity].
    apply ActionItemFacts.StronglySorted_uniform.
    intros x y Ix Iy. unfold Spec.ordered_by_score.
    destruct reverse; [rewrite (E y x Iy Ix)|rewrite (E x y Ix Iy)];
      apply Qle_refl. }
  unfold top_performers_of, underperformers_of.
  rewrite <- (PerformerFacts.stable_sort_by_score_unique true xs xs (S true)).
  rewrite <- (PerformerFacts.stable_sort_by_score_unique
                false xs xs (S false)).
  split; reflexivity.
Qed.

Lemma equal_scores_select_the_same_campaigns_witness :
  let xs := [Spec.scored "a" 60; Spec.scored "b" 60; Spec.scored "c" 60;
             Spec.scored "d" 60; Spec.scored "e" 60; Spec.scored "f" 60;
             Spec.scored "g" 60] in
  map CampaignAnalysis.campaign_id (top_performers_of xs) = ["a"; "b"; "c"]
  /\ top_performers_of xs = firstn 3 xs
  /\ underperformers_of xs = firstn 3 xs.
Proof.
  cbv zeta. split; [reflexivity|].
  apply equal_scores_select_the_same_campaigns.
  intros a b Ia Ib. simpl in Ia, Ib.
  repeat match goal with H : _ \/ _ |- _ => destruct H end;
    subst; try contradiction; reflexivity.
Defined.

End PerformerBounds.

(** ** Account-level recommendations *)

Module AccountRecommendationFacts.

Import Analyzer PySort.

Definition FALLBACK : string :=
  "Account performing well - consider testing new campaigns".

Definition losing (a : CampaignAnalysis.t) : bool :=
  PyNum.lt (CampaignAnalysis.roas a) 1.0
  && PyNum.gt (CampaignAnalysis.spend a) 50.

Definition unclicked (a : CampaignAnalysis.t) : bool :=
  PyNum.lt (CampaignAnalysis.ctr a) (0.5 / 100)
  && PyNum.gt (CampaignAnalysis.spend a) 25.

Definition pause_message (n : nat) : string :=
  "Pause " ++ Py.str_of_nat n ++ " underperforming campaigns with negative ROI".

Definition budget_message (name : string) : string :=
  "Increase budget for top performer: " ++ name.

Definition review_message (n : nat) : string :=
  "Review creative for " ++ Py.str_of_nat n ++ " campaigns with very low CTR".

Lemma append_inj_l (p a b : string) : (p ++ a = p ++ b)%string -> a = b.
Proof.
  induction p as [|c p IH]; simpl; [trivial|].
  intro H. injection H as H. now apply IH.
Qed.

Lemma filter_nil_iff {A} (f : A -> bool) l :
  filter f l = [] <-> forall a, In a l -> f a = false.
Proof.
  induction l as [|x l IH]; simpl.
  - split; [intros _ a []|reflexivity].
  - destruct (f x) eqn:E.
    + split; [discriminate|]. intro H.
      specialize (H x (or_introl eq_refl)). congruence.
    + rewrite IH. split.
      * intros H a [<-|I]; [exact E|now apply H].
      * intros H a I. apply H. now right.
Qed.

Section Recommendations.

Variable thresholds : Thresholds.

(** The three rule-driven parts, in order. *)
Definition parts (analyses : list CampaignAnalysis.t) : list string :=
  ((if negb (is_empty (filter losing analyses))
    then [pause_message (length (filter losing analyses))] else [])
   ++ match sorted analyses CampaignAnalysis.roas true with
      | top :: _ =>
          if PyNum.gt (CampaignAnalysis.roas top) (good_roas thresholds)
          then [budget_message (CampaignAnalysis.campaign_name top)]
          else []
      | [] => []
      end
   ++ (if negb (is_empty (filter unclicked analyses))
       then [review_message (length (filter unclicked analyses))]
       else []))%list.

Lemma recommendations_by_parts analyses :
  _generate_account_recommendations thresholds analyses
  = if is_empty (parts analyses) then [FALLBACK] else parts analyses.
Proof.
  unfold _generate_account_recommendations, parts. cbv zeta.
  fold losing unclicked.
  change (fun a : CampaignAnalysis.t =>
            PyNum.lt (CampaignAnalysis.roas a) 1.0
            && PyNum.gt (CampaignAnalysis.spend a) 50) with losing.
  change (fun a : CampaignAnalysis.t =>
            PyNum.lt (CampaignAnalysis.ctr a) (0.5 / 100)
            && PyNum.gt (CampaignAnalysis.spend a) 25) with unclicked.
  destruct (negb (is_empty (filter losing analyses)));
    destruct (sorted analyses CampaignAnalysis.roas true) as [|top rest];
    cbn [firstn];
    try destruct (PyNum.gt (CampaignAnalysis.roas top)
                           (good_roas thresholds));
    destruct (negb (is_empty (filter unclicked analyses)));
    reflexivity.
Qed.

Lemma parts_length analyses : (length (parts analyses) <= 3)%nat.
Proof.
  unfold parts. rewrite !length_app.
  destruct (negb (is_empty (filter losing analyses)));
    destruct (sorted analyses CampaignAnalysis.roas true) as [|top rest];
    try destruct (PyNum.gt (CampaignAnalysis.roas top)
                           (good_roas thresholds));
    destruct (negb (is_empty (filter unclicked analyses)));
    simpl; lia.
Qed.

Lemma FALLBACK_not_in_parts analyses : ~ In FALLBACK (parts analyses).
Proof.
  unfold parts. rewrite !in_app_iff.
  destruct (negb (is_empty (filter losing analyses)));
    destruct (sorted analyses CampaignAnalysis.roas true) as [|top rest];
    try destruct (PyNum.gt (CampaignAnalysis.roas top)
                           (good_roas thresholds));
    destruct (negb (is_empty (filter unclicked analyses)));
    simpl; unfold FALLBACK, pause_message, budget_message, review_message;
    simpl; intuition discriminate.
Qed.

(** The best ROAS: the head of the descending sort. *)
Lemma no_top_over_threshold analyses :
  match sorted analyses CampaignAnalysis.roas true with
  | top :: _ =>
      if PyNum.gt (CampaignAnalysis.roas top) (good_roas thresholds)
      then [budget_message (CampaignAnalysis.campaign_name top)]
      else []
  | [] => []
  end = []
  <-> forall a, In a analyses ->
                CampaignAnalysis.roas a <= good_roas thresholds.
Proof.
  destruct (sorted analyses CampaignAnalysis.roas true) as [|top rest] eqn:S.
  - split; [|reflexivity]. intros _ a I.
    apply (Permutation_in _ (Permutation_sym
             (PerformerFacts.sorted_perm CampaignAnalysis.roas true
                analyses))) in I.
    rewrite S in I. destruct I.
  - destruct (PerformerBounds.sorted_head_extreme _ _ _ _ _ S) as [I M].
    destruct (PyNum.gt (CampaignAnalysis.roas top) (good_roas thresholds))
      eqn:G.
    + split; [discriminate|]. intro H. specialize (H top I).
      apply PyNumFacts.gt_spec in G. exfalso. lra.
    + split; [|reflexivity]. intros _ a Ia.
      apply ScoreMonotone.gt_false in G.
      specialize (M a Ia). apply PyNumFacts.ge_spec in M. lra.
Qed.

Lemma parts_nil_iff analyses :
  parts analyses = []
  <-> forall a, In a analyses ->
        losing a = false
        /\ CampaignAnalysis.roas a <= good_roas thresholds
        /\ unclicked a = false.
Proof.
  unfold parts. split.
  - intro H. apply app_eq_nil in H as [H1 H2].
    apply app_eq_nil in H2 as [H2 H3].
    assert (L : filter losing analyses = [])
      by (destruct (filter losing analyses); [reflexivity|discriminate]).
    assert (U : filter unclicked analyses = [])
      by (destruct (filter unclicked analyses); [reflexivity|discriminate]).
    rewrite filter_nil_iff in L, U.
    pose proof (proj1 (no_top_over_threshold analyses) H2) as T.
    intros a I. auto.
  - intro H.
    assert (L : filter losing analyses = [])
      by (apply filter_nil_iff; intros a I; now apply H).
    assert (U : filter unclicked analyses = [])
      by (apply filter_nil_iff; intros a I; now apply H).
    rewrite L, U. cbn [is_empty negb app].
    rewrite app_nil_r.
    apply (no_top_over_threshold analyses). intros a I. now apply H.
Qed.

(** There is always at least one account recommendation and at most
    three; the "performing well" message is given exactly when no campaign
    loses money after a spend above 50, none has a ROAS above the good
    threshold and none is hardly clicked after a spend above 25, and it
    then stands alone. In particular an account without analyses is told
    it performs well. *)
Theorem account_recommendations_never_empty analyses :
  let recommendations :=
    _generate_account_recommendations thresholds analyses in
  (1 <= length recommendations <= 3)%nat
  /\ (In FALLBACK recommendations <-> recommendations = [FALLBACK])
  /\ (recommendations = [FALLBACK]
      <-> forall a, In a analyses ->
            ~ (CampaignAnalysis.roas a < 1.0
               /\ 50 < CampaignAnalysis.spend a)
            /\ CampaignAnalysis.roas a <= good_roas thresholds
            /\ ~ (CampaignAnalysis.ctr a < 0.005
                  /\ 25 < CampaignAnalysis.spend a)).
Proof.
  cbv zeta. rewrite recommendations_by_parts.
  pose proof (parts_length analyses) as L.
  pose proof (FALLBACK_not_in_parts analyses) as N.
  assert (R : (forall a, In a analyses ->
                 losing a = false
                 /\ CampaignAnalysis.roas a <= good_roas thresholds
                 /\ unclicked a = false)
              <-> forall a, In a analyses ->
                    ~ (CampaignAnalysis.roas a < 1.0
                       /\ 50 < CampaignAnalysis.spend a)
                    /\ CampaignAnalysis.roas a <= good_roas thresholds
                    /\ ~ (CampaignAnalysis.ctr a < 0.005
                          /\ 25 < CampaignAnalysis.spend a)).
  { assert (E : 0.5 / 100 == 0.005) by reflexivity.
    split; intros H a I; destruct (H a I) as (H1 & H2 & H3);
      (split; [|split; [exact H2|]]).
    - intros [A B]. unfold losing in H1.
      apply PyNumFacts.lt_spec in A. apply PyNumFacts.gt_spec in B.
      rewrite A, B in H1. discriminate.
    - intros [A B]. unfold unclicked in H3. rewrite <- E in A.
      apply PyNumFacts.lt_spec in A. apply PyNumFacts.gt_spec in B.
      rewrite A, B in H3. discriminate.
    - unfold losing. apply not_true_is_false. intro T.
      apply andb_true_iff in T as [A B].
      apply PyNumFacts.lt_spec in A. apply PyNumFacts.gt_spec in B. tauto.
    - unfold unclicked. apply not_true_is_false. intro T.
      apply andb_true_iff in T as [A B].
      apply PyNumFacts.lt_spec in A. apply PyNumFacts.gt_spec in B.
      rewrite E in A. tauto. }
  rewrite <- R, <- parts_nil_iff.
  destruct (parts analyses) as [|p ps] eqn:P; cbn [is_empty].
  - repeat split; simpl; auto; lia.
  - assert (X : p :: ps <> [FALLBACK])
      by (intro E; apply N; rewrite E; now left).
    simpl in L. repeat split; simpl; try lia; try discriminate;
      intros; exfalso; auto.
Qed.

(** The budget recommendation names a campaign whose ROAS is the highest
    of the account and above the good threshold; it is given exactly when
    some campaign is above that threshold. *)
Theorem budget_recommendation_names_best_roas analyses :
  let recommendations :=
    _generate_account_recommendations thresholds analyses in
  ((exists a, In a analyses
              /\ good_roas thresholds < CampaignAnalysis.roas a)
   -> exists top,
       In top analyses
       /\ (forall a, In a analyses ->
                     CampaignAnalysis.roas a <= CampaignAnalysis.roas top)
       /\ In (budget_message (CampaignAnalysis.campaign_name top))
             recommendations)
  /\ (forall name,
        In (budget_message name) recommendations ->
        exists top,
          In top analyses
          /\ CampaignAnalysis.campaign_name top = name
          /\ good_roas thresholds < CampaignAnalysis.roas top
          /\ forall a, In a analyses ->
                       CampaignAnalysis.roas a
                       <= CampaignAnalysis.roas top).
Proof.
  cbv zeta. rewrite recommendations_by_parts. unfold parts.
  destruct (sorted analyses CampaignAnalysis.roas true) as [|top rest] eqn:S.
  - split.
    + intros (a & I & _).
      apply (Permutation_in _ (Permutation_sym
               (PerformerFacts.sorted_perm CampaignAnalysis.roas true
                  analyses))) in I.
      rewrite S in I. destruct I.
    + intros name I. exfalso.
      destruct (negb (is_empty (filter losing analyses))),
               (negb (is_empty (filter unclicked analyses)));
        simpl in I;
        unfold FALLBACK, pause_message, budget_message, review_message in I;
        simpl in I; intuition discriminate.
  - destruct (PerformerBounds.sorted_head_extreme _ _ _ _ _ S) as [It M].
    assert (M' : forall a, In a analyses ->
                   CampaignAnalysis.roas a <= CampaignAnalysis.roas top).
    { intros a I. apply PyNumFacts.ge_spec. exact (M a I). }
    destruct (PyNum.gt (CampaignAnalysis.roas top) (good_roas thresholds))
      eqn:G.
    + apply PyNumFacts.gt_spec in G. split.
      * intros _. exists top. repeat split; try assumption.
        destruct (negb (is_empty (filter losing analyses))),
                 (negb (is_empty (filter unclicked analyses)));
          simpl; tauto.
      * intros name I. exists top.
        repeat split; try assumption.
        destruct (negb (is_empty (filter losing analyses))),
                 (negb (is_empty (filter unclicked analyses)));
          simpl in I;
          repeat match goal with
                 | H : _ \/ _ |- _ => destruct H
                 | H : False |- _ => destruct H
                 end;
          try (unfold pause_message, budget_message, review_message in *;
               simpl in *; discriminate);
          match goal with
          | H : budget_message _ = budget_message _ |- _ =>
              apply append_inj_l in H; exact H
          end.
    + apply ScoreMonotone.gt_false in G. split.
      * intros (a & I & B). specialize (M' a I). exfalso. lra.
      * intros name I. exfalso.
        destruct (negb (is_empty (filter losing analyses))),
                 (negb (is_empty (filter unclicked analyses)));
          simpl in I;
          unfold FALLBACK, pause_message, budget_message, review_message
            in I;
          simpl in I; intuition discriminate.
Qed.

End Recommendations.

Lemma account_recommendations_never_empty_witness :
  _generate_account_recommendations ANALYSIS_THRESHOLDS [] = [FALLBACK]
  /\ In FALLBACK (_generate_account_recommendations ANALYSIS_THRESHOLDS []).
Proof.
  split; [reflexivity|].
  apply (proj1 (proj2 (account_recommendations_never_empty
                         ANALYSIS_THRESHOLDS []))).
  reflexivity.
Defined.

Lemma budget_recommendation_names_best_roas_witness :
  let best :=
    {| CampaignAnalysis.campaign_id := "7";
       CampaignAnalysis.campaign_name := "Summer";
       CampaignAnalysis.spend := 100;
       CampaignAnalysis.impressions := 5000;
       CampaignAnalysis.clicks := 100;
       CampaignAnalysis.conversions := 10;
       CampaignAnalysis.conversion_value := 450;
       CampaignAnalysis.ctr := 0.02;
       CampaignAnalysis.cpc := 1;
       CampaignAnalysis.cpm := 20;
       CampaignAnalysis.roas := 4.5;
       CampaignAnalysis.status := "ACTIVE";
       CampaignAnalysis.days_running := 30;
       CampaignAnalysis.performance_score := 100;
       CampaignAnalysis.issues := [];
       CampaignAnalysis.recommendations := [] |} in
  _generate_account_recommendations ANALYSIS_THRESHOLDS
    [Spec.scored "a" 60; best]
  = [budget_message "Summer"]
  /\ exists top,
      In top [Spec.scored "a" 60; best]
      /\ CampaignAnalysis.campaign_name top = "Summer"
      /\ good_roas ANALYSIS_THRESHOLDS < CampaignAnalysis.roas top
      /\ forall a, In a [Spec.scored "a" 60; best] ->
                   CampaignAnalysis.roas a <= CampaignAnalysis.roas top.
Proof.
  cbv zeta. split; [reflexivity|].
  apply (proj2 (budget_recommendation_names_best_roas
                  ANALYSIS_THRESHOLDS _)).
  left. reflexivity.
Defined.

End AccountRecommendationFacts.

(** ** What an analysis records *)

Module AnalysisFacts.

Import Analyzer EngineFacts.

(** *** The greatest key *)

Lemma ltb_lt a b : String.ltb a b = true <-> String_as_OT.lt a b.
Proof.
  unfold String.ltb. rewrite <- String_as_OT.cmp_lt.
  change String_as_OT.cmp with String.compare.
  destruct (String.compare a b); split; congruence.
Qed.

Lemma ltb_irrefl a : String.ltb a a = false.
Proof.
  unfold String.ltb.
  replace (String.compare a a) with Eq; [reflexivity|].
  symmetry. now apply String_as_OT.cmp_eq.
Qed.

Lemma ltb_asym a b : String.ltb a b = true -> String.ltb b a = false.
Proof.
  unfold String.ltb. rewrite (String.compare_antisym a b).
  destruct (String.compare b a); simpl; congruence.
Qed.

Lemma ltb_trans a b c :
  String.ltb a b = true -> String.ltb b c = true -> String.ltb a c = true.
Proof.
  rewrite !ltb_lt. apply String_as_OT.lt_trans.
Qed.

(** [a] is not below [b] and [b] is below [c]: absurd when [c] is not
    above [a]. *)
Lemma not_below_max a b x :
  String.ltb a x = false -> String.ltb (Py.max_str a b) x = false.
Proof.
  intro N. unfold Py.max_str. destruct (String.ltb a b) eqn:L; [|exact N].
  destruct (String.ltb b x) eqn:B; [|reflexivity].
  rewrite (ltb_trans a b x L B) in N. discriminate.
Qed.

Lemma fold_max_spec ks :
  forall k,
    let m := fold_left Py.max_str ks k in
    In m (k :: ks)
    /\ forall k', In k' (k :: ks) -> String.ltb m k' = false.
Proof.
  induction ks as [|x ks IH]; intro k; cbv zeta.
  - simpl. split; [now left|]. intros k' [<-|[]]. apply ltb_irrefl.
  - cbn [fold_left]. destruct (IH (Py.max_str k x)) as [Im M]. split.
    + destruct Im as [E|Im]; [|now right; right].
      rewrite <- E. unfold Py.max_str.
      destruct (String.ltb k x); [right; now left|now left].
    + assert (G : forall m y,
                 String.ltb m y = false ->
                 String.ltb (fold_left Py.max_str ks m) y = false).
      { clear. induction ks as [|z ks IH]; intros m y N; simpl; [exact N|].
        apply IH. now apply not_below_max. }
      intros k' [<-|[<-|Ik]].
      * apply G. unfold Py.max_str. destruct (String.ltb k x) eqn:L.
        -- now apply ltb_asym.
        -- apply ltb_irrefl.
      * apply G. unfold Py.max_str. destruct (String.ltb k x) eqn:L.
        -- apply ltb_irrefl.
        -- exact L.
      * apply M. now right.
Qed.

Lemma max_keys_spec ks latest :
  Py.max_keys ks = Ok latest ->
  In latest ks /\ forall k, In k ks -> String.ltb latest k = false.
Proof.
  destruct ks as [|k ks]; simpl; [discriminate|].
  intro H. injection H as <-. apply fold_max_spec.
Qed.

(** *** Reading one metric *)

Definition read_float (parse_float : string -> option Q)
    (row : Dict.t PyVal) (key : string) : result Q :=
  Py.float parse_float (Py.or (Dict.get_or row key (PyInt 0)) (PyInt 0)).

Definition read_int (parse_int : string -> option Z)
    (row : Dict.t PyVal) (key : string) : result Z :=
  Py.int parse_int (Py.or (Dict.get_or row key (PyInt 0)) (PyInt 0)).

Lemma metric_dict data key v :
  metric data key = Ok v ->
  exists row,
    data = PyDict row
    /\ v = Py.or (Dict.get_or row key (PyInt 0)) (PyInt 0).
Proof.
  unfold metric, Py.get. destruct data; try discriminate.
  simpl. intro H. injection H as <-. eauto.
Qed.

Section Engine.

Variable thresholds : Thresholds.
Variable get_insights : string -> string -> Dict.t PyVal.
Variable parse_float : string -> option Q.
Variable parse_int : string -> option Z.
Variable elapsed_days : string -> result Z.

Local Abbreviation analyze :=
  (_analyze_single_campaign thresholds get_insights
     parse_float parse_int elapsed_days).

(** Everything that holds of a produced analysis, read back from the
    code under the [try]. *)
Lemma analyze_inversion campaign time_range analysis :
  analyze campaign time_range = Some analysis ->
  exists campaign_id dated latest row score,
    Dict.get campaign "id" = Some campaign_id
    /\ Py.truthy_str campaign_id = true
    /\ Py.truthy
         (Dict.get_or (get_insights campaign_id time_range) "success" PyNone)
       = true
    /\ Dict.get_or (get_insights campaign_id time_range)
         "insights" (PyDict []) = PyDict dated
    /\ Py.max_keys (Dict.keys dated) = Ok latest
    /\ Py.truthy_str latest = true
    /\ Dict.get dated latest = Some (PyDict row)
    /\ read_float parse_float row "spend"
       = Ok (CampaignAnalysis.spend analysis)
    /\ read_int parse_int row "impressions"
       = Ok (CampaignAnalysis.impressions analysis)
    /\ read_int parse_int row "clicks"
       = Ok (CampaignAnalysis.clicks analysis)
    /\ read_int parse_int row "conversions"
       = Ok (CampaignAnalysis.conversions analysis)
    /\ read_float parse_float row "conversion_value"
       = Ok (CampaignAnalysis.conversion_value analysis)
    /\ Insights.calculate_ctr (CampaignAnalysis.clicks analysis)
         (CampaignAnalysis.impressions analysis)
       = Ok (CampaignAnalysis.ctr analysis)
    /\ Insights.calculate_cpc (CampaignAnalysis.spend analysis)
         (CampaignAnalysis.clicks analysis)
       = Ok (CampaignAnalysis.cpc analysis)
    /\ Insights.calculate_cpm (CampaignAnalysis.spend analysis)
         (CampaignAnalysis.impressions analysis)
       = Ok (CampaignAnalysis.cpm analysis)
    /\ Insights.calculate_roas (CampaignAnalysis.spend analysis)
         (CampaignAnalysis.conversion_value analysis)
       = Ok (CampaignAnalysis.roas analysis)
    /\ _calculate_performance_score thresholds
         (CampaignAnalysis.spend analysis) (CampaignAnalysis.roas analysis)
         (CampaignAnalysis.ctr analysis)
         (CampaignAnalysis.conversions analysis)
       = Ok score
    /\ analysis
       = {| CampaignAnalysis.campaign_id := campaign_id;
            CampaignAnalysis.campaign_name :=
              Dict.get_or campaign "name" "Unknown";
            CampaignAnalysis.spend := CampaignAnalysis.spend analysis;
            CampaignAnalysis.impressions :=
              CampaignAnalysis.impressions analysis;
            CampaignAnalysis.clicks := CampaignAnalysis.clicks analysis;
            CampaignAnalysis.conversions :=
              CampaignAnalysis.conversions analysis;
            CampaignAnalysis.conversion_value :=
              CampaignAnalysis.conversion_value analysis;
            CampaignAnalysis.ctr := CampaignAnalysis.ctr analysis;
            CampaignAnalysis.cpc := CampaignAnalysis.cpc analysis;
            CampaignAnalysis.cpm := CampaignAnalysis.cpm analysis;
            CampaignAnalysis.roas := CampaignAnalysis.roas analysis;
            CampaignAnalysis.status :=
              Dict.get_or campaign "status" "UNKNOWN";
            CampaignAnalysis.days_running :=
              estimate_days_running elapsed_days
                (Dict.get_or campaign "created_time" "");
            CampaignAnalysis.performance_score := inject_Z score;
            CampaignAnalysis.issues :=
              _identify_campaign_issues thresholds
                (CampaignAnalysis.spend analysis)
                (CampaignAnalysis.roas analysis)
                (CampaignAnalysis.ctr analysis)
                (CampaignAnalysis.cpc analysis)
                (CampaignAnalysis.conversions analysis)
                (CampaignAnalysis.days_running analysis);
            CampaignAnalysis.recommendations :=
              _generate_campaign_recommendations thresholds
                (CampaignAnalysis.spend analysis)
                (CampaignAnalysis.roas analysis)
                (CampaignAnalysis.ctr analysis)
                (CampaignAnalysis.cpc analysis)
                (CampaignAnalysis.conversions analysis)
                (CampaignAnalysis.issues analysis) |}.
Proof.
  intro H. apply analyze_some_try in H.
  unfold _analyze_single_campaign_try in H.
  invert_ok H.
  injection H as <-.
  (* the dated dictionary and its greatest key *)
  match goal with
  | E : (if Py.truthy ?i then _ else _) = Ok (Some ?l) |- _ =>
      destruct (Py.truthy i); [|discriminate E];
      apply bind_ok in E as (ks & K & E);
      apply bind_ok in E as (k & M & E);
      injection E as E; subst k
  end.
  match goal with
  | K : Py.keys ?i = Ok _ |- _ =>
      destruct i as [| | | | | |dated] eqn:I; try discriminate K;
      simpl in K; injection K as <-
  end.
  match goal with
  | G : Py.getitem (PyDict dated) ?l = Ok ?d |- _ =>
      simpl in G; destruct (Dict.get dated l) as [data|] eqn:D;
      [injection G as ->|discriminate G]
  end.
  repeat match goal with
         | E : metric _ _ = Ok _ |- _ =>
             apply metric_dict in E as (? & ? & ?)
         end.
  subst.
  repeat match goal with
         | E : PyDict _ = PyDict _ |- _ => injection E as E; subst
         end.
  repeat match goal with
         | E : negb _ = false |- _ => apply negb_false_iff in E
         end.
  do 5 eexists. cbn [CampaignAnalysis.spend CampaignAnalysis.impressions
                      CampaignAnalysis.clicks CampaignAnalysis.conversions
                      CampaignAnalysis.conversion_value CampaignAnalysis.ctr
                      CampaignAnalysis.cpc CampaignAnalysis.cpm
                      CampaignAnalysis.roas CampaignAnalysis.issues
                      CampaignAnalysis.days_running].
  unfold read_float, read_int.
  repeat (split; [eassumption || reflexivity|]).
  reflexivity.
Qed.

(** A produced analysis is coherent: its id is the campaign's non-empty
    id, its derived metrics are those of its own raw metrics (so a zero
    spend gives a zero ROAS, no impression a zero CTR and CPM, no click a
    zero CPC), its score is an integer between 50 and 100, and its issues
    and recommendations are those of its own numbers. *)
Theorem analysis_is_coherent campaign time_range analysis :
  analyze campaign time_range = Some analysis ->
  (Dict.get campaign "id" = Some (CampaignAnalysis.campaign_id analysis)
   /\ CampaignAnalysis.campaign_id analysis <> "")
  /\ (Insights.calculate_ctr (CampaignAnalysis.clicks analysis)
        (CampaignAnalysis.impressions analysis)
      = Ok (CampaignAnalysis.ctr analysis)
      /\ Insights.calculate_cpc (CampaignAnalysis.spend analysis)
           (CampaignAnalysis.clicks analysis)
         = Ok (CampaignAnalysis.cpc analysis)
      /\ Insights.calculate_cpm (CampaignAnalysis.spend analysis)
           (CampaignAnalysis.impressions analysis)
         = Ok (CampaignAnalysis.cpm analysis)
      /\ Insights.calculate_roas (CampaignAnalysis.spend analysis)
           (CampaignAnalysis.conversion_value analysis)
         = Ok (CampaignAnalysis.roas analysis))
  /\ ((CampaignAnalysis.spend analysis == 0 ->
       CampaignAnalysis.roas analysis = 0.0)
      /\ (CampaignAnalysis.impressions analysis = 0%Z ->
          CampaignAnalysis.ctr analysis = 0.0
          /\ CampaignAnalysis.cpm analysis = 0.0)
      /\ (CampaignAnalysis.clicks analysis = 0%Z ->
          CampaignAnalysis.cpc analysis = 0.0))
  /\ (exists score,
         CampaignAnalysis.performance_score analysis = inject_Z score
         /\ (50 <= score <= 100)%Z)
  /\ CampaignAnalysis.issues analysis
     = _identify_campaign_issues thresholds
         (CampaignAnalysis.spend analysis) (CampaignAnalysis.roas analysis)
         (CampaignAnalysis.ctr analysis) (CampaignAnalysis.cpc analysis)
         (CampaignAnalysis.conversions analysis)
         (CampaignAnalysis.days_running analysis)
  /\ CampaignAnalysis.recommendations analysis
     = _generate_campaign_recommendations thresholds
         (CampaignAnalysis.spend analysis) (CampaignAnalysis.roas analysis)
         (CampaignAnalysis.ctr analysis) (CampaignAnalysis.cpc analysis)
         (CampaignAnalysis.conversions analysis)
         (CampaignAnalysis.issues analysis).
Proof.
  intro H.
  destruct (analyze_inversion _ _ _ H)
    as (id & dated & latest & row & score & Hid & Tid & _ & _ & _ & _ & _
        & _ & _ & _ & _ & _ & Hctr & Hcpc & Hcpm & Hroas & Hscore & Hrec).
  assert (Eid : CampaignAnalysis.campaign_id analysis = id)
    by (rewrite Hrec; reflexivity).
  assert (Escore : CampaignAnalysis.performance_score analysis
                   = inject_Z score) by (rewrite Hrec; reflexivity).
  assert (Eissues : CampaignAnalysis.issues analysis
                    = _identify_campaign_issues thresholds
                        (CampaignAnalysis.spend analysis)
                        (CampaignAnalysis.roas analysis)
                        (CampaignAnalysis.ctr analysis)
                        (CampaignAnalysis.cpc analysis)
                        (CampaignAnalysis.conversions analysis)
                        (CampaignAnalysis.days_running analysis))
    by (rewrite Hrec at 1; reflexivity).
  assert (Erecs : CampaignAnalysis.recommendations analysis
                  = _generate_campaign_recommendations thresholds
                      (CampaignAnalysis.spend analysis)
                      (CampaignAnalysis.roas analysis)
                      (CampaignAnalysis.ctr analysis)
                      (CampaignAnalysis.cpc analysis)
                      (CampaignAnalysis.conversions analysis)
                      (CampaignAnalysis.issues analysis))
    by (rewrite Hrec at 1; reflexivity).
  repeat apply conj; try assumption.
  - now rewrite Eid.
  - rewrite Eid. intros ->. discriminate Tid.
  - intro Z. apply PyNumFacts.eq_spec in Z.
    unfold Insights.calculate_roas, Insights.calculate_roas_try in Hroas.
    rewrite Z in Hroas. simpl in Hroas. now injection Hroas.
  - intro Z. rewrite Z in Hctr, Hcpm. simpl in Hctr, Hcpm.
    split; [now injection Hctr|now injection Hcpm].
  - intro Z. rewrite Z in Hcpc. simpl in Hcpc. now injection Hcpc.
  - exists score. split; [exact Escore|].
    exact (ScoreFacts.score_range _ _ _ _ _ _ Hscore).
Qed.

(** The analysis is read from the row of the greatest date key of the
    insights dictionary (no key is above it in string order), each
    metric by [float(row.get(key, 0) or 0)] or [int(...)]. *)
Theorem analysis_reads_latest_row campaign time_range analysis :
  analyze campaign time_range = Some analysis ->
  exists dated latest row,
    Dict.get_or
      (get_insights (CampaignAnalysis.campaign_id analysis) time_range)
      "insights" (PyDict []) = PyDict dated
    /\ In latest (Dict.keys dated)
    /\ (forall key, In key (Dict.keys dated) ->
                    String.ltb latest key = false)
    /\ Dict.get dated latest = Some (PyDict row)
    /\ Py.float parse_float
         (Py.or (Dict.get_or row "spend" (PyInt 0)) (PyInt 0))
       = Ok (CampaignAnalysis.spend analysis)
    /\ Py.int parse_int
         (Py.or (Dict.get_or row "impressions" (PyInt 0)) (PyInt 0))
       = Ok (CampaignAnalysis.impressions analysis)
    /\ Py.int parse_int
         (Py.or (Dict.get_or row "clicks" (PyInt 0)) (PyInt 0))
       = Ok (CampaignAnalysis.clicks analysis)
    /\ Py.int parse_int
         (Py.or (Dict.get_or row "conversions" (PyInt 0)) (PyInt 0))
       = Ok (CampaignAnalysis.conversions analysis)
    /\ Py.float parse_float
         (Py.or (Dict.get_or row "conversion_value" (PyInt 0)) (PyInt 0))
       = Ok (CampaignAnalysis.conversion_value analysis).
Proof.
  intro H.
  destruct (analyze_inversion _ _ _ H)
    as (id & dated & latest & row & score & Hid & Tid & _ & Hd & Hmax & _
        & Hrow & Hs & Hi & Hc & Hn & Hv & _ & _ & _ & _ & _ & Hrec).
  assert (Eid : CampaignAnalysis.campaign_id analysis = id)
    by (rewrite Hrec; reflexivity).
  destruct (max_keys_spec _ _ Hmax) as [I M].
  exists dated, latest, row. rewrite Eid.
  repeat apply conj; assumption.
Qed.

(** A campaign analysed without a creation date counts as running for 30
    days, so it carries the low-conversions tag exactly when its
    conversions are below the threshold, whatever time range was asked
    for. *)
Theorem undated_campaign_low_conversions campaign time_range analysis :
  analyze campaign time_range = Some analysis ->
  Py.truthy_str (Dict.get_or campaign "created_time" "") = false ->
  CampaignAnalysis.days_running analysis = 30%Z
  /\ Py.In_list LOW_CONVERSIONS (CampaignAnalysis.issues analysis)
     = (CampaignAnalysis.conversions analysis
        <? low_conversions thresholds)%Z.
Proof.
  intros H C.
  destruct (analyze_inversion _ _ _ H)
    as (id & dated & latest & row & score & _ & _ & _ & _ & _ & _ & _
        & _ & _ & _ & _ & _ & _ & _ & _ & _ & _ & Hrec).
  assert (D : CampaignAnalysis.days_running analysis = 30%Z).
  { rewrite Hrec. cbn [CampaignAnalysis.days_running].
    apply estimate_days_running_default. now left. }
  split; [exact D|].
  assert (Eissues : CampaignAnalysis.issues analysis
                    = _identify_campaign_issues thresholds
                        (CampaignAnalysis.spend analysis)
                        (CampaignAnalysis.roas analysis)
                        (CampaignAnalysis.ctr analysis)
                        (CampaignAnalysis.cpc analysis)
                        (CampaignAnalysis.conversions analysis)
                        (CampaignAnalysis.days_running analysis))
    by (rewrite Hrec at 1; reflexivity).
  rewrite Eissues, D, IssueFacts.issues_by_rule.
  change (30 >? 7)%Z with true. rewrite andb_true_r.
  repeat match goal with |- context [if ?c then _ else _] => destruct c end;
    reflexivity.
Qed.

End Engine.

(** A metric that is missing from the row, or is null, empty or zero,
    reads as 0 and raises nothing. *)
Theorem missing_metric_reads_zero
    (parse_float : string -> option Q) (parse_int : string -> option Z)
    (row : Dict.t PyVal) (key : string) :
  Py.truthy (Dict.get_or row key PyNone) = false ->
  (v <- metric (PyDict row) key ;; Py.float parse_float v) = Ok 0
  /\ (v <- metric (PyDict row) key ;; Py.int parse_int v) = Ok 0%Z.
Proof.
  unfold metric, Py.get, Dict.get_or, Py.or. cbn [bind].
  destruct (Dict.get row key) as [v|]; [intros ->|intros _];
    split; reflexivity.
Qed.

Lemma analysis_is_coherent_witness :
  exists analysis,
    Scenario.analyze Scenario.spring "last_7d" = Some analysis
    /\ Dict.get Scenario.spring "id"
       = Some (CampaignAnalysis.campaign_id analysis)
    /\ CampaignAnalysis.campaign_id analysis <> "".
Proof.
  destruct (Scenario.analyze Scenario.spring "last_7d") as [analysis|] eqn:E;
    [|vm_compute in E; discriminate E].
  exists analysis. split; [reflexivity|].
  exact (proj1 (analysis_is_coherent ANALYSIS_THRESHOLDS
                  Scenario.get_insights Scenario.parse_float
                  Scenario.parse_int Scenario.elapsed_days
                  Scenario.spring "last_7d" analysis E)).
Defined.

Lemma analysis_reads_latest_row_witness :
  exists analysis,
    Scenario.analyze Scenario.spring "last_7d" = Some analysis
    /\ exists dated latest row,
        Dict.get_or
          (Scenario.get_insights
             (CampaignAnalysis.campaign_id analysis) "last_7d")
          "insights" (PyDict []) = PyDict dated
        /\ In latest (Dict.keys dated)
        /\ (forall key, In key (Dict.keys dated) ->
                        String.ltb latest key = false)
        /\ Dict.get dated latest = Some (PyDict row)
        /\ Py.float Scenario.parse_float
             (Py.or (Dict.get_or row "spend" (PyInt 0)) (PyInt 0))
           = Ok (CampaignAnalysis.spend analysis)
        /\ Py.int Scenario.parse_int
             (Py.or (Dict.get_or row "impressions" (PyInt 0)) (PyInt 0))
           = Ok (CampaignAnalysis.impressions analysis)
        /\ Py.int Scenario.parse_int
             (Py.or (Dict.get_or row "clicks" (PyInt 0)) (PyInt 0))
           = Ok (CampaignAnalysis.clicks analysis)
        /\ Py.int Scenario.parse_int
             (Py.or (Dict.get_or row "conversions" (PyInt 0)) (PyInt 0))
           = Ok (CampaignAnalysis.conversions analysis)
        /\ Py.float Scenario.parse_float
             (Py.or (Dict.get_or row "conversion_value" (PyInt 0))
                    (PyInt 0))
           = Ok (CampaignAnalysis.conversion_value analysis).
Proof.
  destruct (Scenario.analyze Scenario.spring "last_7d") as [analysis|] eqn:E;
    [|vm_compute in E; discriminate E].
  exists analysis. split; [reflexivity|].
  exact (analysis_reads_latest_row ANALYSIS_THRESHOLDS
           Scenario.get_insights Scenario.parse_float
           Scenario.parse_int Scenario.elapsed_days
           Scenario.spring "last_7d" analysis E).
Defined.

Lemma undated_campaign_low_conversions_witness :
  exists analysis,
    Scenario.analyze Scenario.spring "today" = Some analysis
    /\ Py.truthy_str (Dict.get_or Scenario.spring "created_time" "") = false
    /\ CampaignAnalysis.days_running analysis = 30%Z.
Proof.
  destruct (Scenario.analyze Scenario.spring "today") as [analysis|] eqn:E;
    [|vm_compute in E; discriminate E].
  exists analysis. split; [reflexivity|]. split; [reflexivity|].
  exact (proj1 (undated_campaign_low_conversions ANALYSIS_THRESHOLDS
                  Scenario.get_insights Scenario.parse_float
                  Scenario.parse_int Scenario.elapsed_days
                  Scenario.spring "today" analysis E eq_refl)).
Defined.

Lemma missing_metric_reads_zero_witness :
  Py.truthy (Dict.get_or [("spend", PyStr "")] "spend" PyNone) = false
  /\ (v <- metric (PyDict [("spend", PyStr "")]) "spend" ;;
      Py.float Scenario.parse_float v) = Ok 0.
Proof.
  split; [reflexivity|].
  exact (proj1 (missing_metric_reads_zero Scenario.parse_float
                  Scenario.parse_int [("spend", PyStr "")] "spend"
                  eq_refl)).
Defined.

End AnalysisFacts.

(** ** The derived metrics stay in range *)

Module MetricRelations.

Import Insights.

Lemma inject_Z_nonneg z : (0 <= z)%Z -> 0 <= inject_Z z.
Proof.
  intro L. change 0 with (inject_Z 0). now rewrite <- Zle_Qle.
Qed.

Lemma inject_Z_pos z : (0 < z)%Z -> 0 < inject_Z z.
Proof.
  intro L. change 0 with (inject_Z 0). now rewrite <- Zlt_Qlt.
Qed.

Lemma quotient_nonneg a b : 0 <= a -> 0 < b -> 0 <= a / b.
Proof.
  intros A B. apply Qle_shift_div_l; [exact B | lra].
Qed.

Lemma calculate_cpc_nonzero spend clicks :
  clicks <> 0%Z -> (Z.abs clicks < FLOAT_OVERFLOW)%Z ->
  calculate_cpc spend clicks = Ok (spend / inject_Z clicks).
Proof.
  intros E B. unfold calculate_cpc, calculate_cpc_try.
  rewrite InsightsFacts.truediv_float_int_ok by assumption.
  apply Z.eqb_neq in E. now rewrite E.
Qed.

Lemma calculate_cpm_nonzero spend impressions :
  impressions <> 0%Z -> (Z.abs impressions < FLOAT_OVERFLOW)%Z ->
  calculate_cpm spend impressions
  = Ok (spend / inject_Z impressions * 1000).
Proof.
  intros E B. unfold calculate_cpm, calculate_cpm_try.
  rewrite InsightsFacts.truediv_float_int_ok by assumption.
  apply Z.eqb_neq in E. now rewrite E.
Qed.

(** A click count between 0 and the impressions gives a click-through
    rate between 0 and 1, however large the two counts are; and on a
    spend and a conversion value that are not negative the ROAS, the cost
    per click and the cost per mille are not negative either, the counts
    being within the range of a float. *)
Theorem derived_metrics_in_range :
  (forall clicks impressions,
      (0 <= clicks <= impressions)%Z ->
      exists ctr,
        calculate_ctr clicks impressions = Ok ctr /\ 0 <= ctr <= 1)
  /\ (forall spend conversion_value,
        0 <= spend -> 0 <= conversion_value ->
        exists roas,
          calculate_roas spend conversion_value = Ok roas /\ 0 <= roas)
  /\ (forall spend clicks,
        0 <= spend -> (0 <= clicks < FLOAT_OVERFLOW)%Z ->
        exists cpc, calculate_cpc spend clicks = Ok cpc /\ 0 <= cpc)
  /\ (forall spend impressions,
        0 <= spend -> (0 <= impressions < FLOAT_OVERFLOW)%Z ->
        exists cpm, calculate_cpm spend impressions = Ok cpm /\ 0 <= cpm).
Proof.
  pose proof InsightsFacts.FLOAT_OVERFLOW_pos as F.
  repeat apply conj.
  - intros clicks impressions [L U].
    destruct (Z.eq_dec impressions 0) as [->|N].
    + exists 0.0. split; [reflexivity|]. split; unfold Qle; simpl; lia.
    + eexists.
      split; [apply InsightsFacts.calculate_ctr_nonzero; [exact N | nia]|].
      assert (P : 0 < inject_Z impressions) by (apply inject_Z_pos; lia).
      assert (L' : 0 <= inject_Z clicks) by now apply inject_Z_nonneg.
      assert (U' : inject_Z clicks <= inject_Z impressions)
        by (rewrite <- Zle_Qle; exact U).
      split.
      * now apply quotient_nonneg.
      * apply Qle_shift_div_r; [exact P|lra].
  - intros spend conversion_value S V.
    destruct (PyNum.eq spend 0) eqn:E.
    + exists 0.0. split; [|unfold Qle; simpl; lia].
      unfold calculate_roas, calculate_roas_try. now rewrite E.
    + eexists. split; [now apply InsightsFacts.calculate_roas_nonzero|].
      apply quotient_nonneg; [exact V|].
      destruct (Qlt_le_dec 0 spend) as [P|Z]; [exact P|].
      assert (Z' : spend == 0) by lra.
      apply PyNumFacts.eq_spec in Z'. congruence.
  - intros spend clicks S [L U].
    destruct (Z.eq_dec clicks 0) as [->|N].
    + exists 0.0. split; [reflexivity|unfold Qle; simpl; lia].
    + eexists. split; [apply calculate_cpc_nonzero; [exact N | lia]|].
      apply quotient_nonneg; [exact S | apply inject_Z_pos; lia].
  - intros spend impressions S [L U].
    destruct (Z.eq_dec impressions 0) as [->|N].
    + exists 0.0. split; [reflexivity|unfold Qle; simpl; lia].
    + eexists. split; [apply calculate_cpm_nonzero; [exact N | lia]|].
      assert (0 <= spend / inject_Z impressions)
        by (apply quotient_nonneg; [exact S | apply inject_Z_pos; lia]).
      lra.
Qed.

Lemma derived_metrics_in_range_witness :
  (0 <= 25 <= 1000)%Z
  /\ calculate_ctr 25 1000 = Ok (25 # 1000)
  /\ exists ctr, calculate_ctr 25 1000 = Ok ctr /\ 0 <= ctr <= 1.
Proof.
  assert (B : (0 <= 25 <= 1000)%Z) by lia.
  split; [exact B|]. split; [reflexivity|].
  exact (proj1 derived_metrics_in_range 25%Z 1000%Z B).
Defined.

End MetricRelations.

(** ** The account report and the campaigns behind it *)

Module AccountFacts.

Import Analyzer EngineFacts.

Lemma inject_length_succ {A} (x : A) l :
  inject_Z (Z.of_nat (length (x :: l)))
  == inject_Z (Z.of_nat (length l)) + 1.
Proof.
  cbn [length]. rewrite Nat2Z.inj_succ, <- Z.add_1_r, inject_Z_plus.
  reflexivity.
Qed.

Lemma sum_lower_bound (lo : Q) l :
  forall acc,
    (forall a, In a l -> lo <= CampaignAnalysis.roas a) ->
    acc + lo * inject_Z (Z.of_nat (length l))
    <= fold_left Qplus (map CampaignAnalysis.roas l) acc.
Proof.
  induction l as [|x l IH]; intros acc H.
  - cbn [length map fold_left].
    change (inject_Z (Z.of_nat 0)) with 0. lra.
  - cbn [map fold_left].
    eapply Qle_trans; [|apply IH; intros a I; apply H; now right].
    rewrite inject_length_succ.
    specialize (H x (or_introl eq_refl)).
    set (n := inject_Z (Z.of_nat (length l))). nra.
Qed.

Lemma length_positive {A} (l : list A) :
  l <> [] -> 0 < inject_Z (Z.of_nat (length l)).
Proof.
  intro N. destruct l as [|x l]; [contradiction|].
  change 0 with (inject_Z 0). rewrite <- Zlt_Qlt. simpl length. lia.
Qed.

Section Engine.

Variable fmt2f : Q -> string.
Variable fmt0f : Q -> string.
Variable get_campaigns : string -> string -> CampaignsResponse.t.
Variable get_insights : string -> string -> Dict.t PyVal.
Variable parse_float : string -> option Q.
Variable parse_int : string -> option Z.
Variable elapsed_days : string -> result Z.
Variable str_of_exc : PyExc -> string.

Local Abbreviation analyze :=
  (_analyze_single_campaign ANALYSIS_THRESHOLDS get_insights
     parse_float parse_int elapsed_days).
Local Abbreviation account :=
  (analyze_account_campaigns ANALYSIS_THRESHOLDS fmt2f fmt0f
     get_campaigns get_insights parse_float parse_int elapsed_days
     str_of_exc).
Local Abbreviation kept_of :=
  (kept ANALYSIS_THRESHOLDS get_insights parse_float parse_int
     elapsed_days).

(** Under the thresholds of [ANALYSIS_THRESHOLDS]: when the campaign
    listing succeeds, at least one campaign is analysed and each analysed
    campaign has a ROAS of 3.0 or more, the result is a full report whose
    account health is "Excellent". *)
Theorem excellent_when_every_campaign_is_good account_id time_range :
  CampaignsResponse.success (get_campaigns account_id "ACTIVE") = true ->
  (exists campaign analysis,
      In campaign
         (CampaignsResponse.campaigns (get_campaigns account_id "ACTIVE"))
      /\ analyze campaign time_range = Some analysis) ->
  (forall campaign analysis,
      In campaign
         (CampaignsResponse.campaigns (get_campaigns account_id "ACTIVE")) ->
      analyze campaign time_range = Some analysis ->
      3.0 <= CampaignAnalysis.roas analysis) ->
  exists report,
    account account_id time_range = Response.ok (Response.Report report)
    /\ Formatted.account_health (Formatted.summary_of report)
       = "Excellent".
Proof.
  intros S (c & a & Ic & Ha) G.
  set (campaigns :=
         CampaignsResponse.campaigns (get_campaigns account_id "ACTIVE"))
    in *.
  assert (Ia : In a (kept_of time_range campaigns))
    by (apply kept_In; eauto).
  assert (N : kept_of time_range campaigns <> [])
    by (intro E; rewrite E in Ia; destruct Ia).
  eexists. split; [apply account_report; assumption|].
  fold campaigns.
  cbn [_format_account_analysis Formatted.summary_of
       Formatted.account_health report_of AccountAnalysis.account_health].
  assert (B : forall x, In x (kept_of time_range campaigns) ->
                3.0 <= CampaignAnalysis.roas x).
  { intros x Ix.
    destruct (proj1 (kept_In ANALYSIS_THRESHOLDS get_campaigns get_insights
                       parse_float parse_int elapsed_days
                       time_range campaigns x) Ix)
      as (c' & Ic' & Hx).
    eauto. }
  pose proof (sum_lower_bound 3.0 (kept_of time_range campaigns) 0 B) as L.
  pose proof (length_positive _ N) as P.
  unfold _determine_account_health.
  replace (PyNum.ge _ (good_roas ANALYSIS_THRESHOLDS)) with true;
    [reflexivity|].
  symmetry. apply PyNumFacts.ge_spec.
  change (good_roas ANALYSIS_THRESHOLDS) with 3.0.
  apply Qle_shift_div_l; [exact P|]. unfold sum_roas. lra.
Qed.

End Engine.

(** The one analysed campaign of the account has a ROAS of 4. *)
Lemma excellent_when_every_campaign_is_good_witness :
  CampaignsResponse.success (Scenario.get_campaigns "act_2" "ACTIVE") = true
  /\ (exists campaign analysis,
         In campaign
            (CampaignsResponse.campaigns
               (Scenario.get_campaigns "act_2" "ACTIVE"))
         /\ Scenario.analyze campaign "last_7d" = Some analysis
         /\ CampaignAnalysis.roas analysis == 4)
  /\ exists report,
      Scenario.analyze_account "act_2" "last_7d"
      = Response.ok (Response.Report report)
      /\ Formatted.account_health (Formatted.summary_of report)
         = "Excellent".
Proof.
  assert (S : CampaignsResponse.success
                (Scenario.get_campaigns "act_2" "ACTIVE") = true)
    by reflexivity.
  assert (A : exists analysis,
             Scenario.analyze Scenario.spring "last_7d" = Some analysis
             /\ CampaignAnalysis.roas analysis == 4).
  { destruct (Scenario.analyze Scenario.spring "last_7d") as [a|] eqn:A;
      [|vm_compute in A; discriminate A].
    exists a. split; [reflexivity|].
    vm_compute in A. injection A as <-. reflexivity. }
  destruct A as (good & A & R).
  assert (E : exists campaign analysis,
             In campaign
                (CampaignsResponse.campaigns
                   (Scenario.get_campaigns "act_2" "ACTIVE"))
             /\ Scenario.analyze campaign "last_7d" = Some analysis).
  { exists Scenario.spring, good.
    split; [right; left; reflexivity|exact A]. }
  assert (G : forall campaign analysis,
             In campaign
                (CampaignsResponse.campaigns
                   (Scenario.get_campaigns "act_2" "ACTIVE")) ->
             Scenario.analyze campaign "last_7d" = Some analysis ->
             3.0 <= CampaignAnalysis.roas analysis).
  { intros campaign analysis I H.
    destruct I as [<-|[<-|[<-|[]]]].
    - vm_compute in H. discriminate H.
    - rewrite A in H. injection H as <-. rewrite R.
      unfold Qle. simpl. lia.
    - vm_compute in H. discriminate H. }
  split; [exact S|].
  split; [exists Scenario.spring, good;
          split; [right; left; reflexivity|split; [exact A|exact R]]|].
  exact (excellent_when_every_campaign_is_good
           Scenario.fmt Scenario.fmt
           Scenario.get_campaigns Scenario.get_insights
           Scenario.parse_float Scenario.parse_int Scenario.elapsed_days
           Scenario.str_of_exc "act_2" "last_7d" S E G).
Defined.

End AccountFacts.

(** ** The account messages count the tagged campaigns *)

Module TagCounts.

Import Analyzer EngineFacts AccountRecommendationFacts.

Lemma negative_roi_tag thresholds spend roas ctr cpc conversions days :
  Py.In_list NEGATIVE_ROI
    (_identify_campaign_issues thresholds
       spend roas ctr cpc conversions days)
  = PyNum.lt roas 1.0 && PyNum.gt spend 50.
Proof.
  rewrite IssueFacts.issues_by_rule.
  repeat match goal with |- context [if ?c then _ else _] => destruct c end;
    reflexivity.
Qed.

Lemma low_ctr_tag thresholds spend roas ctr cpc conversions days :
  Py.In_list LOW_CTR
    (_identify_campaign_issues thresholds
       spend roas ctr cpc conversions days)
  = PyNum.lt ctr (0.5 / 100) && PyNum.gt spend 25.
Proof.
  rewrite IssueFacts.issues_by_rule.
  repeat match goal with |- context [if ?c then _ else _] => destruct c end;
    reflexivity.
Qed.

Lemma filter_ext_in_length {A} (f g : A -> bool) l :
  (forall a, In a l -> f a = g a) -> filter f l = filter g l.
Proof.
  induction l as [|x l IH]; intro H; simpl; [reflexivity|].
  rewrite (H x) by now left.
  rewrite IH; [reflexivity|]. intros a I. apply H. now right.
Qed.

Lemma filter_length_le {A} (f g : A -> bool) l :
  (forall a, f a = true -> g a = true) ->
  (length (filter f l) <= length (filter g l))%nat.
Proof.
  intro H. induction l as [|x l IH]; simpl; [lia|].
  destruct (f x) eqn:F.
  - rewrite (H x F). simpl. lia.
  - destruct (g x); simpl; lia.
Qed.

Lemma above_100_above_50 spend :
  PyNum.gt spend 100 = true -> PyNum.gt spend 50 = true.
Proof.
  rewrite !PyNumFacts.gt_spec. lra.
Qed.

Section Engine.

Variable thresholds : Thresholds.
Variable fmt2f : Q -> string.
Variable fmt0f : Q -> string.
Variable get_insights : string -> string -> Dict.t PyVal.
Variable parse_float : string -> option Q.
Variable parse_int : string -> option Z.
Variable elapsed_days : string -> result Z.

Local Abbreviation analyze :=
  (_analyze_single_campaign thresholds get_insights
     parse_float parse_int elapsed_days).

Definition tagged (tag : string) (a : CampaignAnalysis.t) : bool :=
  Py.In_list tag (CampaignAnalysis.issues a).

(** For analyses that the engine produced: when [n > 0] of them carry the
    negative-ROI tag the account is told to pause [n] campaigns, when
    [m > 0] carry the low-CTR tag it is told to review the creative of
    [m] campaigns, and the high- and medium-priority action items are at
    most as many as the campaigns so tagged (their spend limits are
    higher). *)
Theorem account_messages_count_tagged_campaigns
    (analyses : list CampaignAnalysis.t) :
  (forall a, In a analyses ->
             exists campaign time_range,
               analyze campaign time_range = Some a) ->
  let n := length (filter (tagged NEGATIVE_ROI) analyses) in
  let m := length (filter (tagged LOW_CTR) analyses) in
  let recommendations :=
    _generate_account_recommendations thresholds analyses in
  let items := _generate_action_items thresholds fmt2f fmt0f analyses in
  ((0 < n)%nat -> In (pause_message n) recommendations)
  /\ ((0 < m)%nat -> In (review_message m) recommendations)
  /\ (length (filter (Spec.has_priority "high") items) <= n)%nat
  /\ (length (filter (Spec.has_priority "medium") items) <= m)%nat.
Proof.
  intro H. cbv zeta.
  assert (C : forall a, In a analyses ->
                CampaignAnalysis.issues a
                = _identify_campaign_issues thresholds
                    (CampaignAnalysis.spend a) (CampaignAnalysis.roas a)
                    (CampaignAnalysis.ctr a) (CampaignAnalysis.cpc a)
                    (CampaignAnalysis.conversions a)
                    (CampaignAnalysis.days_running a)).
  { intros a I. destruct (H a I) as (c & tr & E).
    destruct (AnalysisFacts.analyze_inversion _ _ _ _ _ _ _ _ E)
      as (? & ? & ? & ? & ? & _ & _ & _ & _ & _ & _ & _ & _ & _ & _ & _
          & _ & _ & _ & _ & _ & _ & R).
    rewrite R at 1. reflexivity. }
  assert (EN : filter (tagged NEGATIVE_ROI) analyses
               = filter losing analyses).
  { apply filter_ext_in_length. intros a I. unfold tagged, losing.
    rewrite (C a I). apply negative_roi_tag. }
  assert (EM : filter (tagged LOW_CTR) analyses
               = filter unclicked analyses).
  { apply filter_ext_in_length. intros a I. unfold tagged, unclicked.
    rewrite (C a I). apply low_ctr_tag. }
  rewrite EN, EM, (recommendations_by_parts thresholds).
  rewrite ActionItemFacts.generate_is_collect.
  rewrite ActionItemFacts.collect_by_rule, !filter_app.
  repeat apply conj.
  - intro P. unfold parts.
    destruct (filter losing analyses) as [|x xs] eqn:F;
      [simpl in P; lia|].
    cbn [is_empty negb app]. now left.
  - intro P. unfold parts.
    destruct (filter unclicked analyses) as [|x xs] eqn:F;
      [simpl in P; lia|].
    cbn [is_empty negb].
    match goal with
    | |- In ?msg (if is_empty (?A ++ ?B ++ [?msg])%list then _ else _) =>
        assert (I : In msg (A ++ B ++ [msg])%list)
          by (rewrite !in_app_iff; right; right; now left);
        destruct (A ++ B ++ [msg])%list; [destruct I|exact I]
    end.
  - rewrite (ActionItemFacts.filter_all (Spec.has_priority "high"))
      by (apply Forall_forall; intros x Ix;
          apply in_map_iff in Ix as (a & <- & _); reflexivity).
    rewrite (ActionItemFacts.filter_none (Spec.has_priority "high")
               (map (review_item fmt2f) _))
      by (apply Forall_forall; intros x Ix;
          apply in_map_iff in Ix as (a & <- & _); reflexivity).
    rewrite (ActionItemFacts.filter_none (Spec.has_priority "high")
               (map (budget_item fmt2f fmt0f) _))
      by (apply Forall_forall; intros x Ix;
          apply in_map_iff in Ix as (a & <- & _); reflexivity).
    rewrite !app_nil_r, length_map.
    apply filter_length_le. intro a. unfold pause_rule, losing.
    rewrite !andb_true_iff. intros [A B]. split; [exact A|].
    now apply above_100_above_50.
  - rewrite (ActionItemFacts.filter_none (Spec.has_priority "medium")
               (map (pause_item fmt2f) _))
      by (apply Forall_forall; intros x Ix;
          apply in_map_iff in Ix as (a & <- & _); reflexivity).
    rewrite (ActionItemFacts.filter_all (Spec.has_priority "medium"))
      by (apply Forall_forall; intros x Ix;
          apply in_map_iff in Ix as (a & <- & _); reflexivity).
    rewrite (ActionItemFacts.filter_none (Spec.has_priority "medium")
               (map (budget_item fmt2f fmt0f) _))
      by (apply Forall_forall; intros x Ix;
          apply in_map_iff in Ix as (a & <- & _); reflexivity).
    cbn [app]. rewrite app_nil_r, length_map.
    apply filter_length_le. intro a. unfold review_rule, unclicked.
    rewrite !andb_true_iff. intros [A B]. split; [exact A|].
    apply PyNumFacts.gt_spec in B. apply PyNumFacts.gt_spec. lra.
Qed.

End Engine.

(** Witness: of the two analysed campaigns one loses money and is hardly
    clicked; the account is told to pause one campaign and to review the
    creative of one, and there is one high and one medium item. *)
Lemma account_messages_count_tagged_campaigns_witness :
  exists good bad,
    LosingScenario.analyze Scenario.spring "last_7d" = Some good
    /\ LosingScenario.analyze LosingScenario.autumn "last_7d" = Some bad
    /\ length (filter (tagged NEGATIVE_ROI) [good; bad]) = 1%nat
    /\ length (filter (tagged LOW_CTR) [good; bad]) = 1%nat
    /\ In (pause_message 1)
          (_generate_account_recommendations ANALYSIS_THRESHOLDS
             [good; bad])
    /\ In (review_message 1)
          (_generate_account_recommendations ANALYSIS_THRESHOLDS
             [good; bad])
    /\ (length
          (filter (Spec.has_priority "high")
             (_generate_action_items ANALYSIS_THRESHOLDS
                Scenario.fmt Scenario.fmt [good; bad])) <= 1)%nat
    /\ (length
          (filter (Spec.has_priority "medium")
             (_generate_action_items ANALYSIS_THRESHOLDS
                Scenario.fmt Scenario.fmt [good; bad])) <= 1)%nat.
Proof.
  destruct (LosingScenario.analyze Scenario.spring "last_7d")
    as [good|] eqn:G; [|vm_compute in G; discriminate G].
  destruct (LosingScenario.analyze LosingScenario.autumn "last_7d")
    as [bad|] eqn:B; [|vm_compute in B; discriminate B].
  assert (H : forall a, In a [good; bad] ->
                exists campaign time_range,
                  LosingScenario.analyze campaign time_range = Some a).
  { intros a [<-|[<-|[]]].
    - exists Scenario.spring, "last_7d". exact G.
    - exists LosingScenario.autumn, "last_7d". exact B. }
  pose proof (account_messages_count_tagged_campaigns ANALYSIS_THRESHOLDS
                Scenario.fmt Scenario.fmt LosingScenario.get_insights
                Scenario.parse_float Scenario.parse_int
                Scenario.elapsed_days [good; bad] H) as T.
  cbv zeta in T.
  assert (N : length (filter (tagged NEGATIVE_ROI) [good; bad]) = 1%nat).
  { vm_compute in G, B. injection G as <-. injection B as <-.
    reflexivity. }
  assert (M : length (filter (tagged LOW_CTR) [good; bad]) = 1%nat).
  { vm_compute in G, B. injection G as <-. injection B as <-.
    reflexivity. }
  rewrite N, M in T. destruct T as (T1 & T2 & T3 & T4).
  exists good, bad.
  repeat (split; [reflexivity || assumption|]).
  split; [apply T1; lia|]. split; [apply T2; lia|].
  split; assumption.
Defined.

End TagCounts.

(** ** Request validation and labels of the insights tool *)

Module InsightsToolFacts.

Import InsightsTool.

Lemma In_list_true x l : Py.In_list x l = true <-> In x l.
Proof.
  unfold Py.In_list. rewrite existsb_exists. split.
  - intros (y & I & E). apply String.eqb_eq in E. now subst.
  - intro I. exists x. split; [exact I|apply String.eqb_refl].
Qed.

Lemma valid_is_not_account_only breakdown :
  Py.In_list breakdown VALID_BREAKDOWNS = true ->
  Py.In_list breakdown ACCOUNT_ONLY_BREAKDOWNS = false.
Proof.
  intro V. unfold Py.In_list, ACCOUNT_ONLY_BREAKDOWNS. cbn [existsb].
  destruct (String.eqb_spec breakdown "campaign") as [->|_];
    [vm_compute in V; discriminate V|].
  destruct (String.eqb_spec breakdown "adset") as [->|_];
    [vm_compute in V; discriminate V|].
  reflexivity.
Qed.

(** The breakdown check never looks at the object in the end, and the
    "account-level only" rejection is never returned, since the two
    account-only breakdowns ("campaign", "adset") are not in the valid
    list.  When the module was loaded from the [src] directory a
    breakdown of the valid list passes for every object and anything else
    that is not empty is rejected as invalid; when it was loaded as part
    of the package every breakdown that is not empty ends in a
    [NameError], the valid ones included.  No breakdown, or an empty one,
    passes either way. *)
Theorem breakdown_check_never_account_only
    (lower : string -> string) (isdigit : string -> bool) :
  (forall imports object_id breakdown error,
      check_breakdown imports lower isdigit object_id breakdown
      = Ok (Some (AccountOnlyBreakdown error)) -> False)
  /\ (forall imports object_id object_id' breakdown,
        check_breakdown imports lower isdigit object_id breakdown
        = check_breakdown imports lower isdigit object_id' breakdown)
  /\ (forall object_id breakdown,
        In breakdown VALID_BREAKDOWNS ->
        check_breakdown ScriptImports lower isdigit object_id
          (Some breakdown) = Ok None)
  /\ (forall object_id breakdown,
        breakdown <> "" -> ~ In breakdown VALID_BREAKDOWNS ->
        exists error valid,
          check_breakdown ScriptImports lower isdigit object_id
            (Some breakdown)
          = Ok (Some (InvalidBreakdown error valid)))
  /\ (forall object_id breakdown,
        breakdown <> "" ->
        check_breakdown PackageImports lower isdigit object_id
          (Some breakdown) = Raise NameError)
  /\ (forall imports object_id,
        check_breakdown imports lower isdigit object_id None = Ok None
        /\ check_breakdown imports lower isdigit object_id (Some "")
           = Ok None).
Proof.
  assert (P : forall object_id breakdown,
             check_breakdown PackageImports lower isdigit object_id
               (Some breakdown)
             = if negb (Py.truthy_str breakdown) then Ok None
               else Raise NameError).
  { intros object_id breakdown. unfold check_breakdown.
    now destruct (negb (Py.truthy_str breakdown)). }
  assert (N : forall object_id breakdown,
             check_breakdown ScriptImports lower isdigit object_id
               (Some breakdown)
             = if negb (Py.truthy_str breakdown) then Ok None
               else if negb (Py.In_list breakdown VALID_BREAKDOWNS)
                    then check_breakdown ScriptImports lower isdigit ""
                           (Some breakdown)
                    else Ok None).
  { intros object_id breakdown. unfold check_breakdown.
    destruct (negb (Py.truthy_str breakdown)); [reflexivity|].
    cbn [breakdown_list bind].
    destruct (Py.In_list breakdown VALID_BREAKDOWNS) eqn:V;
      cbn [negb]; [|reflexivity].
    rewrite (valid_is_not_account_only _ V).
    now destruct (negb _). }
  repeat apply conj.
  - intros [|] object_id [breakdown|] error; try discriminate.
    + rewrite P. now destruct (negb (Py.truthy_str breakdown)).
    + rewrite N. unfold check_breakdown.
      destruct (negb (Py.truthy_str breakdown)); [discriminate|].
      cbn [breakdown_list bind].
      destruct (negb (Py.In_list breakdown VALID_BREAKDOWNS));
        discriminate.
  - intros [|] object_id object_id' [breakdown|]; try reflexivity.
    now rewrite (N object_id), (N object_id').
  - intros object_id breakdown I. rewrite N.
    apply In_list_true in I. rewrite I.
    now destruct (negb (Py.truthy_str breakdown)).
  - intros object_id breakdown E I. unfold check_breakdown.
    replace (Py.truthy_str breakdown) with true
      by (symmetry; unfold Py.truthy_str; apply negb_true_iff;
          now apply String.eqb_neq).
    cbn [negb breakdown_list bind].
    replace (Py.In_list breakdown VALID_BREAKDOWNS) with false
      by (symmetry; apply not_true_is_false; now rewrite In_list_true).
    cbn [negb]. eauto.
  - intros object_id breakdown E. rewrite P.
    replace (Py.truthy_str breakdown) with true
      by (symmetry; unfold Py.truthy_str; apply negb_true_iff;
          now apply String.eqb_neq).
    reflexivity.
  - intros imports object_id. split; reflexivity.
Qed.

(** Witness: "age" on a campaign, under either way of loading the
    module. *)
Lemma breakdown_check_never_account_only_witness :
  In "age" VALID_BREAKDOWNS
  /\ "age" <> ""
  /\ check_breakdown ScriptImports (fun s => s) ascii_isdigit
       "120330000000000000" (Some "age") = Ok None
  /\ check_breakdown PackageImports (fun s => s) ascii_isdigit
       "120330000000000000" (Some "age") = Raise NameError.
Proof.
  assert (I : In "age" VALID_BREAKDOWNS) by (left; reflexivity).
  assert (E : "age" <> "") by discriminate.
  pose proof (breakdown_check_never_account_only
                (fun s => s) ascii_isdigit) as (_ & _ & V & _ & P & _).
  split; [exact I|]. split; [exact E|].
  split; [exact (V "120330000000000000" "age" I)|].
  exact (P "120330000000000000" "age" E).
Defined.

(** *** Time parameters *)

Section TimeParameters.

Variable isdigit : string -> bool.
Variable split_whitespace : string -> list string.
Variable parse_int : string -> option Z.
Variable str_of_int : Z -> string.
Variable normalize_ad_account : string -> result string.
Variable build_time_range :
  option string -> option string -> option string -> result (Dict.t string).

Local Abbreviation is_account := (is_account isdigit).
Local Abbreviation normalized_id :=
  (normalized_id isdigit normalize_ad_account).
Local Abbreviation time_params :=
  (time_params isdigit split_whitespace parse_int str_of_int
     normalize_ad_account build_time_range).


End TimeParameters.


(** *** Labels *)

Lemma label_outside_presets time_range :
  ~ In time_range DATE_PRESETS ->
  format_time_range_display time_range = time_range.
Proof.
  intro N. unfold format_time_range_display, Dict.get_or, Dict.get,
            time_range_labels.
  repeat match goal with
         | |- context [String.eqb time_range ?k] =>
             destruct (String.eqb_spec time_range k) as [E|_];
             [exfalso; apply N; rewrite E; simpl; tauto|]
         end.
  reflexivity.
Qed.

(** A preset is shown by its label and any other string as it is; the
    eight labels differ from one another and from every preset, so
    showing a label again changes nothing. *)
Theorem time_range_labels_are_stable :
  (forall time_range,
      ~ In time_range DATE_PRESETS ->
      format_time_range_display time_range = time_range)
  /\ (forall time_range,
        In time_range DATE_PRESETS ->
        In (time_range, format_time_range_display time_range)
           time_range_labels
        /\ ~ In (format_time_range_display time_range) DATE_PRESETS)
  /\ (forall a b,
        In a DATE_PRESETS -> In b DATE_PRESETS ->
        format_time_range_display a = format_time_range_display b ->
        a = b)
  /\ (forall time_range,
        format_time_range_display (format_time_range_display time_range)
        = format_time_range_display time_range).
Proof.
  assert (P : forall time_range,
             In time_range DATE_PRESETS ->
             In (time_range, format_time_range_display time_range)
                time_range_labels
             /\ ~ In (format_time_range_display time_range) DATE_PRESETS).
  { intros t I. simpl in I.
    repeat match goal with H : _ \/ _ |- _ => destruct H end;
      try contradiction; subst; split;
      try (vm_compute; tauto);
      intro J; vm_compute in J;
      repeat match goal with H : _ \/ _ |- _ => destruct H end;
      try contradiction; discriminate. }
  repeat apply conj.
  - apply label_outside_presets.
  - exact P.
  - intros a b Ia Ib. simpl in Ia, Ib.
    repeat match goal with H : _ \/ _ |- _ => destruct H end;
      try contradiction; subst; vm_compute; intro E;
      try reflexivity; discriminate E.
  - intro t.
    destruct (in_dec string_dec t DATE_PRESETS) as [I|N].
    + apply label_outside_presets. exact (proj2 (P t I)).
    + rewrite (label_outside_presets t N).
      exact (label_outside_presets t N).
Qed.

Lemma time_range_labels_are_stable_witness :
  In "last_7d" DATE_PRESETS
  /\ format_time_range_display "last_7d" = "Last 7 days"
  /\ ~ In (format_time_range_display "last_7d") DATE_PRESETS.
Proof.
  assert (I : In "last_7d" DATE_PRESETS) by (simpl; tauto).
  split; [exact I|]. split; [reflexivity|].
  exact (proj2 (proj1 (proj2 time_range_labels_are_stable) "last_7d" I)).
Defined.

End InsightsToolFacts.

(** ** The shapes of the account-level response *)

Module ResponseShape.

Import Analyzer EngineFacts.

Section Engine.

Variable thresholds : Thresholds.
Variable fmt2f : Q -> string.
Variable fmt0f : Q -> string.
Variable get_campaigns : string -> string -> CampaignsResponse.t.
Variable get_insights : string -> string -> Dict.t PyVal.
Variable parse_float : string -> option Q.
Variable parse_int : string -> option Z.
Variable elapsed_days : string -> result Z.
Variable str_of_exc : PyExc -> string.

Local Abbreviation analyze :=
  (_analyze_single_campaign thresholds get_insights
     parse_float parse_int elapsed_days).
Local Abbreviation account :=
  (analyze_account_campaigns thresholds fmt2f fmt0f
     get_campaigns get_insights parse_float parse_int elapsed_days
     str_of_exc).
Local Abbreviation kept_of :=
  (kept thresholds get_insights parse_float parse_int elapsed_days).

Lemma account_outcome account_id time_range :
  account account_id time_range
  = outcome thresholds fmt2f fmt0f get_campaigns get_insights
      parse_float parse_int elapsed_days account_id time_range.
Proof. apply account_spec. Qed.

(** Every full report lists as many top performers as underperformers,
    between one and three, gives between one and three recommendations,
    one of the four health labels (never "No Data"), and its action items
    in priority order. *)
Theorem report_is_well_formed account_id time_range report :
  account account_id time_range = Response.ok (Response.Report report) ->
  (length (Formatted.top_performers report)
   = length (Formatted.underperformers report)
   /\ (1 <= length (Formatted.top_performers report) <= 3)%nat)
  /\ (1 <= length (Formatted.recommendations report) <= 3)%nat
  /\ In (Formatted.account_health (Formatted.summary_of report))
        ["Excellent"; "Good"; "Fair"; "Needs Attention"]
  /\ StronglySorted Spec.ordered_by_priority
       (Formatted.action_items report).
Proof.
  rewrite account_outcome. unfold outcome. cbv zeta.
  destruct (negb (CampaignsResponse.success _)); [discriminate|].
  destruct (is_empty (CampaignsResponse.campaigns _)); [discriminate|].
  destruct (kept_of time_range
              (CampaignsResponse.campaigns
                 (get_campaigns account_id "ACTIVE"))) as [|a l] eqn:K;
    [discriminate|].
  cbn [is_empty]. intro H. injection H as <-.
  cbn [_format_account_analysis Formatted.top_performers
       Formatted.underperformers Formatted.recommendations
       Formatted.summary_of Formatted.account_health
       Formatted.action_items report_of
       AccountAnalysis.top_performers AccountAnalysis.underperformers
       AccountAnalysis.recommendations AccountAnalysis.account_health
       AccountAnalysis.action_items].
  rewrite !length_map.
  unfold top_performers_of, underperformers_of.
  rewrite !length_firstn.
  rewrite (Permutation_length
             (PerformerFacts.sorted_perm
                CampaignAnalysis.performance_score true (a :: l))).
  rewrite (Permutation_length
             (PerformerFacts.sorted_perm
                CampaignAnalysis.performance_score false (a :: l))).
  repeat apply conj.
  - reflexivity.
  - simpl length. lia.
  - apply Nat.le_min_l.
  - rewrite AccountRecommendationFacts.recommendations_by_parts.
    destruct (AccountRecommendationFacts.parts thresholds (a :: l));
      simpl; lia.
  - rewrite AccountRecommendationFacts.recommendations_by_parts.
    pose proof (AccountRecommendationFacts.parts_length thresholds
                  (a :: l)).
    destruct (AccountRecommendationFacts.parts thresholds (a :: l));
      simpl in *; lia.
  - match goal with
    | |- In (_determine_account_health ?t ?r ?xs) _ =>
        destruct (HealthFacts.health_cases t r xs)
          as [H|[H|[H|H]]];
        repeat match goal with H : _ /\ _ |- _ => destruct H end
    end;
      match goal with H : _ = _ |- _ => rewrite H end; simpl; tauto.
  - apply ActionItemFacts.sort_by_priority_ordered.
Qed.

(** The two "No Data" answers tell their reasons apart: the first
    message is given exactly when the listing succeeded with no campaign
    at all, the second exactly when it succeeded with campaigns of which
    none could be analysed; both carry zero totals. *)
Theorem no_data_says_why account_id time_range :
  let listing := get_campaigns account_id "ACTIVE" in
  (account account_id time_range
   = Response.ok
       (Response.Message "No active campaigns found to analyze"
          0 0 0 "No Data")
   <-> CampaignsResponse.success listing = true
       /\ CampaignsResponse.campaigns listing = [])
  /\ (account account_id time_range
      = Response.ok
          (Response.Message "No campaign data available for analysis"
             0 0 0 "No Data")
      <-> CampaignsResponse.success listing = true
          /\ CampaignsResponse.campaigns listing <> []
          /\ forall campaign,
              In campaign (CampaignsResponse.campaigns listing) ->
              analyze campaign time_range = None)
  /\ (forall message total_spend total_conversions average_roas health,
        account account_id time_range
        = Response.ok
            (Response.Message message total_spend total_conversions
               average_roas health) ->
        health = "No Data"
        /\ total_spend = 0%Z /\ total_conversions = 0%Z
        /\ average_roas = 0%Z).
Proof.
  cbv zeta. rewrite account_outcome. unfold outcome. cbv zeta.
  destruct (CampaignsResponse.success (get_campaigns account_id "ACTIVE"));
    cbn [negb].
  2:{ split; [|split].
      - split; [discriminate|intros [E _]; discriminate E].
      - split; [discriminate|intros [E _]; discriminate E].
      - intros m a b d h E. discriminate E. }
  destruct (CampaignsResponse.campaigns (get_campaigns account_id "ACTIVE"))
    as [|c cs] eqn:C; cbn [is_empty].
  { split; [|split].
    - split; [split; reflexivity|reflexivity].
    - split; [discriminate|intros (_ & N & _); now elim N].
    - intros m a b d h E. injection E; intros; subst. repeat split. }
  destruct (kept_of time_range (c :: cs)) as [|a l] eqn:K; cbn [is_empty].
  - split; [|split].
    + split; [discriminate|intros [_ E]; discriminate E].
    + split; [|reflexivity]. intros _.
      split; [reflexivity|]. split; [discriminate|].
      intros campaign I.
      destruct (analyze campaign time_range) as [x|] eqn:A;
        [|reflexivity].
      assert (J : In x (kept_of time_range (c :: cs))).
      { apply (proj2 (kept_In thresholds get_campaigns get_insights
                        parse_float parse_int elapsed_days
                        time_range (c :: cs) x)).
        eauto. }
      rewrite K in J. destruct J.
    + intros m x b d h E. injection E; intros; subst. repeat split.
  - split; [|split].
    + split; [discriminate|intros [_ E]; discriminate E].
    + split; [discriminate|]. intros (_ & _ & N). exfalso.
      assert (J : In a (kept_of time_range (c :: cs)))
        by (rewrite K; now left).
      apply (proj1 (kept_In thresholds get_campaigns get_insights
                      parse_float parse_int elapsed_days
                      time_range (c :: cs) a)) in J.
      destruct J as (c' & I & A). rewrite (N c' I) in A. discriminate.
    + intros m x b d h E. discriminate E.
Qed.

End Engine.

Lemma report_is_well_formed_witness :
  exists report,
    Scenario.analyze_account "act_2" "last_7d"
    = Response.ok (Response.Report report)
    /\ (1 <= length (Formatted.recommendations report) <= 3)%nat.
Proof.
  destruct (Scenario.analyze_account "act_2" "last_7d")
    as [success [[m a b c h|report]|] error] eqn:E;
    try (vm_compute in E; discriminate E).
  assert (S : success = true) by (vm_compute in E; congruence).
  assert (R : error = None) by (vm_compute in E; congruence).
  subst. exists report. split; [reflexivity|].
  exact (proj1 (proj2 (report_is_well_formed ANALYSIS_THRESHOLDS
                         Scenario.fmt Scenario.fmt Scenario.get_campaigns
                         Scenario.get_insights Scenario.parse_float
                         Scenario.parse_int Scenario.elapsed_days
                         Scenario.str_of_exc "act_2" "last_7d" report E))).
Defined.

Lemma no_data_says_why_witness :
  CampaignsResponse.success (Scenario.get_campaigns "act_9" "ACTIVE") = false
  /\ Scenario.analyze_account "act_1" "last_7d"
     = Response.ok
         (Response.Message "No campaign data available for analysis"
            0 0 0 "No Data")
  /\ CampaignsResponse.campaigns (Scenario.get_campaigns "act_1" "ACTIVE")
     <> [].
Proof.
  split; [reflexivity|].
  assert (E : Scenario.analyze_account "act_1" "last_7d"
              = Response.ok
                  (Response.Message
                     "No campaign data available for analysis"
                     0 0 0 "No Data")) by reflexivity.
  split; [exact E|].
  exact (proj1 (proj2 (proj1 (proj1 (proj2
           (no_data_says_why ANALYSIS_THRESHOLDS Scenario.fmt Scenario.fmt
              Scenario.get_campaigns Scenario.get_insights
              Scenario.parse_float Scenario.parse_int Scenario.elapsed_days
              Scenario.str_of_exc "act_1" "last_7d"))) E))).
Defined.

End ResponseShape.
